(** * darkside / pdf-validator: block hierarchy, code association, page
      layout, validation levels and the task life cycle.

    Shallow embedding of
      app/services/enhanced_pdf_processor.py
      app/services/page_snapshot_service.py
      app/services/pdf_processor.py
      app/workers/pdf_validator.py

    Conventions.
    - Python [float] values (coordinates, font sizes) are canonical rationals
      [Qc]: comparisons and differences are exact, two equal values are the
      same value (as for the keys of a Python [set] or [dict]).
    - Python [int] values are [Z].
    - Python [str] values are lists of Unicode code points.
    - A Python call that may raise returns [Exc A]. *)

From Stdlib Require Import String Ascii DecimalString.
From Stdlib Require Import List ZArith QArith Qcanon Qround Bool Lia Lqa.
From Stdlib Require Qcabs Qabs.
From Stdlib Require Import Permutation Sorted.
Import ListNotations.

Set Implicit Arguments.

(* ================================================================== *)
(** ** Python values *)

(** A Python string: the sequence of its code points. *)
Definition pystr := list N.

Module Float.

Definition of_Z (z : Z) : Qc := Q2Qc (inject_Z z).
Definition frac (a : Z) (b : positive) : Qc := Q2Qc (a # b).

Definition ltb (x y : Qc) : bool :=
  match Qccompare x y with Lt => true | _ => false end.
Definition leb (x y : Qc) : bool := negb (ltb y x).
Definition eqb (x y : Qc) : bool := Qeq_bool x y.

(** [abs(a - b)] *)
Definition dist (a b : Qc) : Qc := Qcabs.Qcabs (a - b).

End Float.

Coercion Float.of_Z : Z >-> Qc.

(** An ASCII literal as a Python string. *)
Definition ascii_str (x : String.string) : pystr :=
  map Ascii.N_of_ascii (String.list_ascii_of_string x).

(** [str(n)] for an integer. *)
Definition str_of_int (z : Z) : pystr :=
  ascii_str (NilZero.string_of_int (Z.to_int z)).

Fixpoint pystr_eqb (a b : pystr) : bool :=
  match a, b with
  | [], [] => true
  | x :: a', y :: b' => N.eqb x y && pystr_eqb a' b'
  | _, _ => false
  end.

(** Exceptions: the class and the message ([str(e)]). *)
Inductive ExcClass :=
| IndexError | PDFValidationError | FileNotFoundError | StorageError
| FileDataError | S3Error | OSError | OtherError.

Record PyExc := { exc_class : ExcClass; exc_msg : pystr }.

Inductive Exc (A : Type) : Type :=
| Ok (a : A)
| Raise (e : PyExc).
Arguments Ok {A} a.
Arguments Raise {A} e.

Definition bind {A B} (m : Exc A) (k : A -> Exc B) : Exc B :=
  match m with
  | Ok a => k a
  | Raise e => Raise e
  end.

Notation "x <- m ;; k" := (bind m (fun x => k))
  (at level 61, m at next level, right associativity).

(** [for x in xs: ...] whose body may raise, collecting the results. *)
Fixpoint mapM {A B} (f : A -> Exc B) (xs : list A) : Exc (list B) :=
  match xs with
  | [] => Ok []
  | x :: rest =>
      y <- f x ;;
      ys <- mapM f rest ;;
      Ok (y :: ys)
  end.

(** [len(xs)] *)
Definition len {A} (xs : list A) : Z := Z.of_nat (length xs).

(** [xs[-k]] for [1 <= k <= len(xs)]; the callers guard the index. *)
Definition from_end (xs : list Qc) (k : nat) : Qc :=
  nth (length xs - k) xs (Float.of_Z 0).

(** [sorted(xs)] on floats (insertion sort). *)
Fixpoint insert (x : Qc) (l : list Qc) : list Qc :=
  match l with
  | [] => [x]
  | y :: l' => if Float.leb x y then x :: l else y :: insert x l'
  end.

Definition sorted (xs : list Qc) : list Qc := fold_right insert [] xs.

(** [set(xs)]: the distinct values (a Python set has no order of its own;
    every use below sorts it). *)
Fixpoint py_set (xs : list Qc) : list Qc :=
  match xs with
  | [] => []
  | x :: rest => if existsb (Float.eqb x) rest then py_set rest
                 else x :: py_set rest
  end.

(** Strictly increasing lists. *)
Definition increasing (l : list Qc) : Prop := StronglySorted Qclt l.

(* ================================================================== *)
(** ** enhanced_pdf_processor.py: the block record *)

(** The dictionary built by [_extract_page_blocks]; the three keys set by
    later passes ([hierarchy_level], [occupation_name], [confidence]) and
    [occupation_code] are optional. *)
Record Block := {
  task_id : pystr;
  page_num : Z;
  block_num : Z;
  text : pystr;
  x0 : Qc; y0 : Qc; x1 : Qc; y1 : Qc;
  width : Qc; height : Qc;
  center_x : Qc; center_y : Qc;
  font : pystr;
  font_size : Qc;
  font_flags : Z;
  font_color : Z;
  is_bold : bool;
  is_italic : bool;
  indentation : Qc;
  occupation_code : option pystr;
  hierarchy_level : option Z;
  occupation_name : option pystr;
  confidence : option Qc
}.

(** [block["hierarchy_level"] = level] *)
Definition set_hierarchy_level (b : Block) (level : Z) : Block :=
  {| task_id := task_id b; page_num := page_num b; block_num := block_num b;
     text := text b; x0 := x0 b; y0 := y0 b; x1 := x1 b; y1 := y1 b;
     width := width b; height := height b;
     center_x := center_x b; center_y := center_y b;
     font := font b; font_size := font_size b; font_flags := font_flags b;
     font_color := font_color b; is_bold := is_bold b;
     is_italic := is_italic b; indentation := indentation b;
     occupation_code := occupation_code b;
     hierarchy_level := Some level;
     occupation_name := occupation_name b; confidence := confidence b |}.

(** [block["occupation_name"] = name; block["confidence"] = c] *)
Definition set_occupation (b : Block) (name : pystr) (c : Qc) : Block :=
  {| task_id := task_id b; page_num := page_num b; block_num := block_num b;
     text := text b; x0 := x0 b; y0 := y0 b; x1 := x1 b; y1 := y1 b;
     width := width b; height := height b;
     center_x := center_x b; center_y := center_y b;
     font := font b; font_size := font_size b; font_flags := font_flags b;
     font_color := font_color b; is_bold := is_bold b;
     is_italic := is_italic b; indentation := indentation b;
     occupation_code := occupation_code b;
     hierarchy_level := hierarchy_level b;
     occupation_name := Some name; confidence := Some c |}.

(* ================================================================== *)
(** ** EnhancedPDFProcessor: hierarchy classification *)

Module Hierarchy.

(** [_get_indent_levels]: a new tier starts when a value exceeds the last
    tier by more than 15; at most four tiers are kept. *)
Definition grow_levels (levels : list Qc) (indent : Qc) : list Qc :=
  if Float.ltb 15%Z (indent - last levels (Float.of_Z 0))
  then levels ++ [indent]
  else levels.

Definition _get_indent_levels (indentations : list Qc) : list Qc :=
  match indentations with
  | [] => []
  | first :: rest => firstn 4 (fold_left grow_levels rest [first])
  end.

(** The [for i, level in enumerate(levels)] loop of [_get_indent_level],
    started at index [i]. *)
Fixpoint first_within (indent : Qc) (i : Z) (levels : list Qc) : option Z :=
  match levels with
  | [] => None
  | level :: rest =>
      if Float.ltb (Float.dist indent level) 10%Z then Some i
      else first_within indent (i + 1) rest
  end.

(** [_get_indent_level]; [levels[-1]] raises IndexError on an empty list. *)
Definition _get_indent_level (indent : Qc) (levels : list Qc) : Exc Z :=
  match first_within indent 0 levels with
  | Some i => Ok i
  | None =>
      match levels with
      | [] => Raise {| exc_class := IndexError; exc_msg := [] |}
      | _ :: _ =>
          Ok (if Float.ltb (from_end levels 1) indent then len levels
              else 0%Z)
      end
  end.

(** The font-size rules of [_analyze_hierarchy] (level before the
    indentation and bold adjustments). *)
Definition size_level (font_sizes : list Qc) (size : Qc) : Z :=
  if Float.ltb 0%Z size && negb (len font_sizes =? 0)%Z then
    if (if (1 <=? len font_sizes)%Z
        then Float.leb (from_end font_sizes 1) size
        else true (* the constant 14 is truthy *))
    then 1%Z
    else if (2 <=? len font_sizes)%Z && Float.leb (from_end font_sizes 2) size
    then 2%Z
    else if (3 <=? len font_sizes)%Z && Float.leb (from_end font_sizes 3) size
    then 3%Z
    else 4%Z
  else 4%Z.

(** [if indent_level > 0: level = min(level + indent_level, 4)] *)
Definition indent_adjust (level indent_level : Z) : Z :=
  if (0 <? indent_level)%Z then Z.min (level + indent_level) 4 else level.

(** [if is_bold and level > 1: level -= 1] *)
Definition bold_adjust (level : Z) (bold : bool) : Z :=
  if bold && (1 <? level)%Z then (level - 1)%Z else level.

(** The body of the [for block in blocks] loop: the level given to one
    block. *)
Definition block_level (font_sizes indent_levels : list Qc) (block : Block)
  : Exc Z :=
  let size := font_size block in
  let indent := indentation block in
  let level := size_level font_sizes size in
  indent_level <- _get_indent_level indent indent_levels ;;
  let level := indent_adjust level indent_level in
  let level := bold_adjust level (is_bold block) in
  Ok level.

Definition classify (font_sizes indent_levels : list Qc) (block : Block)
  : Exc Block :=
  level <- block_level font_sizes indent_levels block ;;
  Ok (set_hierarchy_level block level).

(** [sorted(set(b["font_size"] for b in blocks if b.get("font_size", 0) > 0))] *)
Definition font_sizes_of (blocks : list Block) : list Qc :=
  sorted (py_set (map font_size
    (filter (fun b => Float.ltb 0%Z (font_size b)) blocks))).

(** [sorted(set(b["indentation"] for b in blocks))] *)
Definition indentations_of (blocks : list Block) : list Qc :=
  sorted (py_set (map indentation blocks)).

(** [_analyze_hierarchy]: the blocks after the pass. *)
Definition _analyze_hierarchy (blocks : list Block) : Exc (list Block) :=
  match blocks with
  | [] => Ok blocks
  | _ :: _ =>
      let font_sizes := font_sizes_of blocks in
      let indentations := indentations_of blocks in
      let indent_levels := _get_indent_levels indentations in
      mapM (classify font_sizes indent_levels) blocks
  end.

(** [indent_level(x)] as section 4.2 of the specification words it, to be
    compared with [_get_indent_level]: the index of the nearest tier
    representative within 10 units, else the tier count when [x] exceeds
    the last representative, else 0.  [nearest_within x i levels best]
    scans the tiers from index [i] and keeps the closest one seen so
    far. *)
Fixpoint nearest_within (x : Qc) (i : Z) (levels : list Qc)
         (best : option (Z * Qc)) : option (Z * Qc) :=
  match levels with
  | [] => best
  | level :: rest =>
      let d := Float.dist x level in
      let best' :=
        if Float.ltb d 10%Z then
          match best with
          | Some (_, d0) => if Float.ltb d d0 then Some (i, d) else best
          | None => Some (i, d)
          end
        else best in
      nearest_within x (i + 1) rest best'
  end.

Definition spec_indent_level (x : Qc) (levels : list Qc) : Z :=
  match nearest_within x 0 levels None with
  | Some (i, _) => i
  | None => if Float.ltb (from_end levels 1) x then len levels else 0%Z
  end.

(** The levels a pass has given, when it has not raised. *)
Definition levels (r : Exc (list Block)) : option (list (option Z)) :=
  match r with
  | Ok blocks => Some (map hierarchy_level blocks)
  | Raise _ => None
  end.

(** The block as the pass leaves it. *)
Definition relevel (fs tiers : list Qc) (b : Block) : Block :=
  match classify fs tiers b with
  | Ok b' => b'
  | Raise _ => b
  end.

(** The indentation tiers of a document. *)
Definition tiers_of (blocks : list Block) : list Qc :=
  _get_indent_levels (indentations_of blocks).

End Hierarchy.

Definition q0 : Qc := Float.of_Z 0.

(** A block with the given size, indentation and bold flag (the other keys
    at neutral values), for examples. *)
Definition sample_block (size indent : Qc) (bold : bool) : Block :=
  {| task_id := []; page_num := 1; block_num := 0; text := [65%N];
     x0 := indent; y0 := q0; x1 := indent; y1 := q0;
     width := q0; height := q0; center_x := indent; center_y := q0;
     font := []; font_size := size; font_flags := 0; font_color := 0;
     is_bold := bold; is_italic := false; indentation := indent;
     occupation_code := None; hierarchy_level := None;
     occupation_name := None; confidence := None |}.

(** The tier list of a document whose indentations are 0, 9 and 16. *)
Definition tiers_0_9_16 : list Qc :=
  Hierarchy._get_indent_levels
    (sorted (py_set [Float.of_Z 0; Float.of_Z 9; Float.of_Z 16])).

(* ================================================================== *)
(** ** Character classes of Python strings *)

Module Unicode.

(** [str.isspace], which is also the class [\s] of [re] on [str]. *)
Definition is_space (c : N) : bool :=
  ((0x09 <=? c) && (c <=? 0x0D))%N || ((0x1C <=? c) && (c <=? 0x20))%N ||
  N.eqb c 0x85 || N.eqb c 0xA0 || N.eqb c 0x1680 ||
  ((0x2000 <=? c) && (c <=? 0x200A))%N ||
  N.eqb c 0x2028 || N.eqb c 0x2029 || N.eqb c 0x202F || N.eqb c 0x205F ||
  N.eqb c 0x3000.

(** The digit zero of every run of decimal digits (category Nd, Unicode
    14.0); each run has ten consecutive code points. *)
Definition digit_zeros : list N :=
  [ 0x30; 0x660; 0x6F0; 0x7C0; 0x966; 0x9E6; 0xA66; 0xAE6; 0xB66; 0xBE6;
    0xC66; 0xCE6; 0xD66; 0xDE6; 0xE50; 0xED0; 0xF20; 0x1040; 0x1090;
    0x17E0; 0x1810; 0x1946; 0x19D0; 0x1A80; 0x1A90; 0x1B50; 0x1BB0;
    0x1C40; 0x1C50; 0xA620; 0xA8D0; 0xA900; 0xA9D0; 0xA9F0; 0xAA50;
    0xABF0; 0xFF10; 0x104A0; 0x10D30; 0x11066; 0x110F0; 0x11136; 0x111D0;
    0x112F0; 0x11450; 0x114D0; 0x11650; 0x116C0; 0x11730; 0x118E0;
    0x11950; 0x11C50; 0x11D50; 0x11DA0; 0x16A60; 0x16AC0; 0x16B50;
    0x1D7CE; 0x1D7D8; 0x1D7E2; 0x1D7EC; 0x1D7F6; 0x1E140; 0x1E2F0;
    0x1E950; 0x1FBF0 ]%N.

(** The class [\d] of [re] on [str]. *)
Definition is_digit (c : N) : bool :=
  existsb (fun z => (z <=? c) && (c <=? z + 9))%N digit_zeros.

(** [s.strip()] *)
Fixpoint lstrip (s : pystr) : pystr :=
  match s with
  | [] => []
  | c :: s' => if is_space c then lstrip s' else s
  end.

Definition strip (s : pystr) : pystr := rev (lstrip (rev (lstrip s))).

(** [sep.join(parts)] *)
Fixpoint join (sep : pystr) (parts : list pystr) : pystr :=
  match parts with
  | [] => []
  | [p] => p
  | p :: rest => p ++ sep ++ join sep rest
  end.

(** [s.startswith(prefix)] *)
Fixpoint starts_with (prefix s : pystr) : bool :=
  match prefix, s with
  | [], _ => true
  | _ :: _, [] => false
  | a :: prefix', b :: s' => N.eqb a b && starts_with prefix' s'
  end.

(** [needle in s] *)
Fixpoint contains (needle s : pystr) : bool :=
  starts_with needle s ||
  match s with
  | [] => false
  | _ :: s' => contains needle s'
  end.

End Unicode.

(* ================================================================== *)
(** ** EnhancedPDFProcessor: code / label association *)

Module Association.

(** The literals [0.9] and [0.7]. *)
Definition conf_same_row : Qc := Float.frac 9 10.
Definition conf_next_row : Qc := Float.frac 7 10.

(** [job_keywords] of [_is_occupation_name], as code points. *)
Definition job_keywords : list pystr :=
  [ [0x5458%N]; [0x5E08%N]; [0x5DE5%N]; [0x957F%N]; [0x5BB6%N];
    [0x4EBA%N; 0x5458%N]; [0x6280%N; 0x672F%N]; [0x7BA1%N; 0x7406%N];
    [0x64CD%N; 0x4F5C%N]; [0x4E13%N; 0x5458%N]; [0x4E3B%N; 0x7BA1%N] ].

(** The class [[\u4e00-\u9fa5]]. *)
Definition is_chinese (c : N) : bool :=
  (0x4E00 <=? c)%N && (c <=? 0x9FA5)%N.

(** A character of the class [[\d\s\-\.]]. *)
Definition code_char (c : N) : bool :=
  Unicode.is_digit c || Unicode.is_space c || N.eqb c 0x2D || N.eqb c 0x2E.

(** [re.match(r'^[\d\s\-\.]+$', text)] finds a match: one or more
    characters of the class up to the end ([$] also accepts a final
    line feed, which the class contains). *)
Definition only_code_chars (text : pystr) : bool :=
  match text with
  | [] => false
  | _ :: _ =>
      forallb code_char text ||
      (forallb code_char (removelast text) &&
       N.eqb (last text 0%N) 0x0A && negb (len text =? 1)%Z)
  end.

(** [_is_occupation_name] *)
Definition _is_occupation_name (text : pystr) : bool :=
  if only_code_chars text then false
  else if existsb (fun keyword => Unicode.contains keyword text) job_keywords
  then true
  else
    let chinese_chars := len (filter is_chinese text) in
    match text with
    | [] => false
    | _ :: _ =>
        Float.ltb (Float.frac 1 2)
                  (Float.of_Z chinese_chars / Float.of_Z (len text))%Qc
    end.

(** [abs(candidate["center_y"] - block["center_y"]) < block["height"]] *)
Definition same_row (block candidate : Block) : bool :=
  Float.ltb (Float.dist (center_y candidate) (center_y block))
            (height block).

(** [candidate["center_y"] > block["center_y"] and
     candidate["center_y"] - block["center_y"] < block["height"] * 2] *)
Definition next_row (block candidate : Block) : bool :=
  Float.ltb (center_y block) (center_y candidate) &&
  Float.ltb (center_y candidate - center_y block)%Qc
            (height block * Float.of_Z 2)%Qc.

(** The inner [for j in range(i + 1, min(i + 5, len(blocks)))] loop over
    the candidates that follow [block], with its two [break]s. *)
Fixpoint scan_candidates (block : Block) (candidates : list Block)
  : Block :=
  match candidates with
  | [] => block
  | candidate :: rest =>
      if same_row block candidate then
        if _is_occupation_name (text candidate)
        then set_occupation block (text candidate) conf_same_row
        else scan_candidates block rest
      else if next_row block candidate then
        if _is_occupation_name (text candidate)
        then set_occupation block (text candidate) conf_next_row
        else scan_candidates block rest
      else scan_candidates block rest
  end.

(** [not block.get("occupation_code")] is false *)
Definition has_code (block : Block) : bool :=
  match occupation_code block with
  | None => false
  | Some [] => false
  | Some (_ :: _) => true
  end.

(** [_match_occupation_info]: the blocks after the pass.  Block [i]
    reads only [center_y] and [text] of the blocks [i+1 .. i+4], keys
    that the pass never writes, so the blocks that follow can be taken
    as they were on entry. *)
Fixpoint _match_occupation_info (blocks : list Block) : list Block :=
  match blocks with
  | [] => []
  | block :: rest =>
      (if has_code block then scan_candidates block (firstn 4 rest)
       else block)
      :: _match_occupation_info rest
  end.

(** The association rule as sections 4.3 and 8 of the specification word
    it, to be compared with [scan_candidates]: a same-row candidate among
    the next four blocks that passes the label predicate wins with
    confidence 0.9; only without one, a next-row candidate wins with
    confidence 0.7. *)
Definition spec_association (block : Block) (candidates : list Block)
  : option (pystr * Qc) :=
  match find (fun c => same_row block c && _is_occupation_name (text c))
             candidates with
  | Some c => Some (text c, conf_same_row)
  | None =>
      match find (fun c => next_row block c && _is_occupation_name (text c))
                 candidates with
      | Some c => Some (text c, conf_next_row)
      | None => None
      end
  end.

(** A candidate the scan stops at. *)
Definition qualifies (block candidate : Block) : bool :=
  _is_occupation_name (text candidate) &&
  (same_row block candidate || next_row block candidate).

End Association.

(** A block with text, vertical centre, height and an optional code. *)
Definition row_block (t : pystr) (cy h : Qc) (code : option pystr) : Block :=
  {| task_id := []; page_num := 1; block_num := 0; text := t;
     x0 := q0; y0 := q0; x1 := q0; y1 := q0;
     width := q0; height := h; center_x := q0; center_y := cy;
     font := []; font_size := q0; font_flags := 0; font_color := 0;
     is_bold := false; is_italic := false; indentation := q0;
     occupation_code := code; hierarchy_level := None;
     occupation_name := None; confidence := None |}.

(** "1-01-01-01" *)
Definition code_1_01_01_01 : pystr :=
  [0x31; 0x2D; 0x30; 0x31; 0x2D; 0x30; 0x31; 0x2D; 0x30; 0x31]%N.
(** U+5DE5 U+7A0B U+5E08 (engineer) and U+6280 U+672F U+5458 (technician) *)
Definition label_engineer : pystr := [0x5DE5; 0x7A0B; 0x5E08]%N.
Definition label_technician : pystr := [0x6280; 0x672F; 0x5458]%N.

(** A coded block at y = 100 of height 10, followed by a label one row
    below (y = 112) and then a label on its own row (y = 105). *)
Definition coded_row : Block :=
  row_block code_1_01_01_01 (Float.of_Z 100) (Float.of_Z 10)
            (Some code_1_01_01_01).
Definition label_below : Block :=
  row_block label_engineer (Float.of_Z 112) (Float.of_Z 10) None.
Definition label_beside : Block :=
  row_block label_technician (Float.of_Z 105) (Float.of_Z 10) None.

Definition rows_example : list Block :=
  [coded_row; label_below; label_beside].

(* ================================================================== *)
(** ** page_snapshot_service.py: the table heuristic *)

Module Layout.

(** One tuple of [page.get_text("blocks")]:
    [(x0, y0, x1, y1, text, block_no, block_type)]. *)
Record TextBlock := {
  tb_x0 : Qc; tb_y0 : Qc; tb_x1 : Qc; tb_y1 : Qc;
  tb_text : pystr; tb_no : Z; tb_type : Z
}.

(** [round(q)] to the nearest integer, ties to the even one. *)
Definition round_half_even (q : Q) : Z :=
  let f := Qfloor q in
  match Qcompare (q - inject_Z f) (1 # 2) with
  | Lt => f
  | Gt => (f + 1)%Z
  | Eq => if Z.even f then f else (f + 1)%Z
  end.

(** [round(y, 1)] *)
Definition round1 (y : Qc) : Qc :=
  Q2Qc (round_half_even (y * inject_Z 10) # 10).

(** [Counter(keys)]: the keys in first-seen order with their counts. *)
Fixpoint counter_add (k : Qc) (c : list (Qc * Z)) : list (Qc * Z) :=
  match c with
  | [] => [(k, 1%Z)]
  | (k', n) :: c' =>
      if Float.eqb k k' then (k', (n + 1)%Z) :: c'
      else (k', n) :: counter_add k c'
  end.

Definition Counter (keys : list Qc) : list (Qc * Z) :=
  fold_left (fun c k => counter_add k c) keys [].

(** [_detect_tables] *)
Definition _detect_tables (text_blocks : list TextBlock) : Z :=
  if (3 <? len text_blocks)%Z then
    let y_positions := map tb_y0 text_blocks in
    let y_counter := Counter (map round1 y_positions) in
    if existsb (fun count => (3 <=? count)%Z) (map snd y_counter)
    then 1%Z
    else 0%Z
  else 0%Z.

(** The number of blocks of the page whose rounded top y is [key]. *)
Definition group_size (key : Qc) (text_blocks : list TextBlock) : Z :=
  len (filter (fun b => Float.eqb key (round1 (tb_y0 b))) text_blocks).

(** The count a counter holds for a key (0 when the key is absent). *)
Fixpoint lookup (k : Qc) (c : list (Qc * Z)) : Z :=
  match c with
  | [] => 0%Z
  | (k', n) :: c' => if Float.eqb k k' then n else lookup k c'
  end.

Definition occurrences (k : Qc) (keys : list Qc) : Z :=
  len (filter (Float.eqb k) keys).

(** Every entry of a counter is the count found for its key. *)
Definition well_formed (c : list (Qc * Z)) : Prop :=
  forall k n, In (k, n) c -> lookup k c = n.

(** A block whose top is at [y]. *)
Definition block_at (y : Qc) : TextBlock :=
  {| tb_x0 := Float.of_Z 0; tb_y0 := y; tb_x1 := Float.of_Z 50;
     tb_y1 := (y + Float.of_Z 12)%Qc; tb_text := [65%N]; tb_no := 0;
     tb_type := 0 |}.

(** A page of exactly three blocks on one row, and the same row with a
    fourth block elsewhere. *)
Definition three_in_a_row : list TextBlock :=
  [block_at (Float.of_Z 10); block_at (Float.of_Z 10);
   block_at (Float.of_Z 10)].
Definition three_in_a_row_and_one : list TextBlock :=
  three_in_a_row ++ [block_at (Float.of_Z 200)].

End Layout.

(* ================================================================== *)
(** ** Message texts of the service *)

Module Msg.

(** PDF processing failed *)
Definition pdf_processing_failed : pystr :=
  [0x50; 0x44; 0x46; 0x5904; 0x7406; 0x5931; 0x8D25; 0x3A; 0x20]%N.

(** file does not exist *)
Definition file_missing : pystr :=
  [0x6587; 0x4EF6; 0x4E0D; 0x5B58; 0x5728; 0x3A; 0x20]%N.

(** not a regular file *)
Definition not_a_file : pystr :=
  [0x4E0D; 0x662F; 0x6709; 0x6548; 0x6587; 0x4EF6; 0x3A; 0x20]%N.

(** file too large *)
Definition file_too_large : pystr :=
  [0x6587; 0x4EF6; 0x8FC7; 0x5927; 0x3A; 0x20]%N.

(** bytes, maximum allowed *)
Definition bytes_max_allowed : pystr :=
  [0x20; 0x62; 0x79; 0x74; 0x65; 0x73; 0x2C; 0x20; 0x6700; 0x5927;
   0x5141; 0x8BB8; 0x3A; 0x20]%N.

(** bytes *)
Definition bytes_suffix : pystr :=
  [0x20; 0x62; 0x79; 0x74; 0x65; 0x73]%N.

(** file is empty *)
Definition file_empty : pystr :=
  [0x6587; 0x4EF6; 0x4E3A; 0x7A7A]%N.

(** document is encrypted and cannot be accessed *)
Definition encrypted : pystr :=
  [0x50; 0x44; 0x46; 0x6587; 0x6863; 0x88AB; 0x52A0; 0x5BC6; 0xFF0C;
   0x65E0; 0x6CD5; 0x8BBF; 0x95EE]%N.

(** file is corrupt or malformed *)
Definition corrupt : pystr :=
  [0x50; 0x44; 0x46; 0x6587; 0x4EF6; 0x635F; 0x574F; 0x6216; 0x683C;
   0x5F0F; 0x4E0D; 0x6B63; 0x786E; 0x3A; 0x20]%N.

(** cannot open the document *)
Definition cannot_open : pystr :=
  [0x65E0; 0x6CD5; 0x6253; 0x5F00; 0x50; 0x44; 0x46; 0x6587; 0x6863;
   0x3A; 0x20]%N.

(** unsupported validation type *)
Definition unsupported_type : pystr :=
  [0x4E0D; 0x652F; 0x6301; 0x7684; 0x9A8C; 0x8BC1; 0x7C7B; 0x578B; 0x3A;
   0x20]%N.

(** document has no pages *)
Definition no_pages : pystr :=
  [0x50; 0x44; 0x46; 0x6587; 0x6863; 0x65E0; 0x9875; 0x9762]%N.

(** document has no text *)
Definition no_text : pystr :=
  [0x50; 0x44; 0x46; 0x6587; 0x6863; 0x65E0; 0x6587; 0x672C; 0x5185;
   0x5BB9]%N.

(** standard validation failed *)
Definition standard_failed : pystr :=
  [0x6807; 0x51C6; 0x9A8C; 0x8BC1; 0x5931; 0x8D25; 0x3A; 0x20]%N.

(** enhanced validation failed *)
Definition enhanced_failed : pystr :=
  [0x589E; 0x5F3A; 0x9A8C; 0x8BC1; 0x5931; 0x8D25; 0x3A; 0x20]%N.

(** strict validation failed *)
Definition strict_failed : pystr :=
  [0x4E25; 0x683C; 0x9A8C; 0x8BC1; 0x5931; 0x8D25; 0x3A; 0x20]%N.

(** strict mode: extractable text required *)
Definition strict_needs_text : pystr :=
  [0x4E25; 0x683C; 0x6A21; 0x5F0F; 0x3A; 0x20; 0x50; 0x44; 0x46; 0x5FC5;
   0x987B; 0x5305; 0x542B; 0x53EF; 0x63D0; 0x53D6; 0x7684; 0x6587;
   0x672C]%N.

(** strict mode: at least one page required *)
Definition strict_needs_page : pystr :=
  [0x4E25; 0x683C; 0x6A21; 0x5F0F; 0x3A; 0x20; 0x50; 0x44; 0x46; 0x5FC5;
   0x987B; 0x5305; 0x542B; 0x81F3; 0x5C11; 0x4E00; 0x9875]%N.

(** strict mode advice: metadata field missing *)
Definition strict_missing_field : pystr :=
  [0x4E25; 0x683C; 0x6A21; 0x5F0F; 0x5EFA; 0x8BAE; 0x3A; 0x20; 0x7F3A;
   0x5C11; 0x5143; 0x6570; 0x636E; 0x5B57; 0x6BB5; 0x20]%N.

(** validation failed *)
Definition validation_failed : pystr :=
  [0x50; 0x44; 0x46; 0x9A8C; 0x8BC1; 0x5931; 0x8D25; 0x3A; 0x20]%N.

(** task failed, maximum number of retries reached *)
Definition max_retries_reached : pystr :=
  [0x4EFB; 0x52A1; 0x5931; 0x8D25; 0xFF0C; 0x5DF2; 0x8FBE; 0x6700;
   0x5927; 0x91CD; 0x8BD5; 0x6B21; 0x6570; 0x3A; 0x20]%N.

(** maximum number of retries reached *)
Definition max_retries_phrase : pystr :=
  [0x5DF2; 0x8FBE; 0x6700; 0x5927; 0x91CD; 0x8BD5; 0x6B21; 0x6570]%N.

(** The separator written ["\\n"] in [_standard_validation]: a backslash
    and the letter n. *)
Definition backslash_n : pystr := [0x5C; 0x6E]%N.

(** The separator written ["\n"] in [process_pdf_with_blocks]: the line
    feed. *)
Definition newline : pystr := [0x0A]%N.

End Msg.

(* ================================================================== *)
(** ** The document reader (PyMuPDF) and the file system *)

Module Fitz.

(** A span of [page.get_text("dict")]. *)
Record Span := {
  span_text : pystr;
  span_bbox : Qc * Qc * Qc * Qc;
  span_font : pystr;
  span_size : Qc;
  span_flags : Z;
  span_color : Z
}.

(** A block of [page.get_text("dict")["blocks"]]: its type (0 for text) and
    the spans of its lines. *)
Record DictBlock := {
  dict_type : Z;
  dict_lines : list (list Span)
}.

(** The raster of a page: pixel size and PNG bytes. *)
Record Pixmap := {
  pix_width : Z;
  pix_height : Z;
  pix_png : list N
}.

(** A loaded page.  Each read either answers or raises. *)
Record Page := {
  page_text_dict : Exc (list DictBlock);           (* get_text("dict") *)
  page_text : Exc pystr;                           (* get_text() *)
  page_text_blocks : Exc (list Layout.TextBlock);  (* get_text("blocks") *)
  page_images : Exc Z;                             (* len(get_images()) *)
  page_links : Exc Z;                              (* len(get_links()) *)
  page_tables : Exc Z;                             (* len(find_tables()) *)
  page_width : Qc;                                 (* rect.width *)
  page_height : Qc;                                (* rect.height *)
  page_rotation : Z;
  page_pixmap : Z -> Exc Pixmap                    (* get_pixmap at a dpi *)
}.

(** An open document: [doc_pages] holds, for every page number below
    [len(doc)], what [doc.load_page] answers. *)
Record Document := {
  doc_pages : list (Exc Page);
  doc_metadata : list (pystr * option pystr);
  doc_is_encrypted : bool;
  doc_authenticate_empty : bool                    (* authenticate("") *)
}.

(** A file of the local file system and what [fitz.open] answers on it. *)
Record File := {
  f_is_file : bool;
  f_size : Z;
  f_open : Exc Document
}.

(** The local file system: the file a path names, if any, and, for a path
    that names none, the [OSError] other than "not found" that [os.stat]
    raises on it (ENAMETOOLONG for an over-long path, EACCES for a
    directory that cannot be searched, ...), if any. *)
Record FileSystem := {
  fs_file : pystr -> option File;
  fs_oserror : pystr -> option PyExc
}.

(** [fs p] is the file that the path [p] names. *)
Coercion fs_file : FileSystem >-> Funclass.

(** [Path(p).stat()], for the callers that ignore a missing file: the
    file, [None] when there is none, or the [OSError] raised. *)
Definition stat (fs : FileSystem) (p : pystr) : Exc (option File) :=
  match fs p with
  | Some f => Ok (Some f)
  | None =>
      match fs_oserror fs p with
      | Some e => Raise e
      | None => Ok None
      end
  end.

(** [Path(p).exists()]: a missing file gives [False], any other [OSError]
    of [stat] is raised again. *)
Definition exists_ (fs : FileSystem) (p : pystr) : Exc bool :=
  entry <- stat fs p ;;
  Ok (match entry with Some _ => true | None => false end).

(** [Path(p).is_file()], with the same handling of [OSError]. *)
Definition is_file (fs : FileSystem) (p : pystr) : Exc bool :=
  entry <- stat fs p ;;
  Ok (match entry with Some f => f_is_file f | None => false end).

(** [Path(p).stat().st_size] *)
Definition stat_size (fs : FileSystem) (p : pystr) : Exc Z :=
  entry <- stat fs p ;;
  match entry with
  | Some f => Ok (f_size f)
  | None => Raise {| exc_class := FileNotFoundError; exc_msg := p |}
  end.

(** [fitz.open(p)] *)
Definition open (fs : FileSystem) (p : pystr) : Exc Document :=
  match fs p with
  | Some f => f_open f
  | None => Raise {| exc_class := OtherError; exc_msg := p |}
  end.

End Fitz.

Coercion Fitz.fs_file : Fitz.FileSystem >-> Funclass.

(* ================================================================== *)
(** ** core/config.py *)

Record Settings := {
  PDF_MAX_FILE_SIZE : Z;
  PDF_EXTRACT_IMAGES : bool;
  PDF_EXTRACT_TABLES : bool;
  MAX_RETRY_ATTEMPTS : Z
}.

Definition default_settings : Settings :=
  {| PDF_MAX_FILE_SIZE := 50 * 1024 * 1024;
     PDF_EXTRACT_IMAGES := true;
     PDF_EXTRACT_TABLES := true;
     MAX_RETRY_ATTEMPTS := 3 |}.

(* ================================================================== *)
(** ** pdf_processor.py *)

Module PDFProcessor.
Import Fitz.

(** The result dictionary of a validation.  The clock readings
    ([processing_time], [processed_at]) and [file_name] are left out; of the
    analysis keys added by the enhanced and strict levels only the names
    are kept, in the order they are set. *)
Record ValidationDict := {
  r_is_valid : bool;
  r_errors : list pystr;
  r_warnings : list pystr;
  r_page_count : Z;
  r_text : pystr;
  r_metadata : list (pystr * option pystr);
  r_keys : list pystr;
  r_file_size : option Z;
  r_validation_type : option pystr
}.

Definition raise_ {A} (c : ExcClass) (msg : pystr) : Exc A :=
  Raise {| exc_class := c; exc_msg := msg |}.

(** [_validate_file_basic] *)
Definition _validate_file_basic (settings : Settings) (fs : FileSystem)
           (file_path : pystr) : Exc unit :=
  file_exists <- exists_ fs file_path ;;
  if negb file_exists
  then raise_ FileNotFoundError (Msg.file_missing ++ file_path)
  else
    regular <- is_file fs file_path ;;
    if negb regular
    then raise_ PDFValidationError (Msg.not_a_file ++ file_path)
    else
      file_size <- stat_size fs file_path ;;
      if (PDF_MAX_FILE_SIZE settings <? file_size)%Z
      then raise_ PDFValidationError
             (Msg.file_too_large ++ str_of_int file_size ++
              Msg.bytes_max_allowed ++
              str_of_int (PDF_MAX_FILE_SIZE settings) ++ Msg.bytes_suffix)
      else if (file_size =? 0)%Z
      then raise_ PDFValidationError Msg.file_empty
      else Ok tt.

(** [_open_pdf_document]; the error raised for an encrypted document is
    itself caught by the last handler and wrapped. *)
Definition _open_pdf_document (fs : FileSystem) (file_path : pystr)
  : Exc Document :=
  match Fitz.open fs file_path with
  | Ok doc =>
      if doc_is_encrypted doc && negb (doc_authenticate_empty doc)
      then raise_ PDFValidationError (Msg.cannot_open ++ Msg.encrypted)
      else Ok doc
  | Raise e =>
      match exc_class e with
      | FileDataError =>
          raise_ PDFValidationError (Msg.corrupt ++ exc_msg e)
      | _ => raise_ PDFValidationError (Msg.cannot_open ++ exc_msg e)
      end
  end.

(** The text of every page, in page order: [doc.load_page(n).get_text()]. *)
Definition page_texts (doc : Document) : Exc (list pystr) :=
  mapM (fun loaded => page <- loaded ;; page_text page) (doc_pages doc).

(** [_standard_validation] *)
Definition _standard_validation (fs : FileSystem) (doc : Document)
           (file_path : pystr) : Exc ValidationDict :=
  _ <- stat_size fs file_path ;;      (* pdf_file_size.set(...), before try *)
  match page_texts doc with
  | Ok text_content =>
      let text := Unicode.join Msg.backslash_n text_content in
      Ok {| r_is_valid := true;
            r_errors := [];
            r_warnings :=
              (if (len (doc_pages doc) =? 0)%Z then [Msg.no_pages] else []) ++
              (match Unicode.strip text with
               | [] => [Msg.no_text]
               | _ :: _ => []
               end);
            r_page_count := len (doc_pages doc);
            r_text := text;
            r_metadata := doc_metadata doc;
            r_keys := [];
            r_file_size := None;
            r_validation_type := None |}
  | Raise e =>
      Ok {| r_is_valid := false;
            r_errors := [Msg.standard_failed ++ exc_msg e];
            r_warnings := [];
            r_page_count := len (doc_pages doc);
            r_text := [];
            r_metadata := doc_metadata doc;
            r_keys := [];
            r_file_size := None;
            r_validation_type := None |}
  end.

(** Updates of the result dictionary. *)
Definition with_errors (r : ValidationDict) (valid : bool)
           (errs : list pystr) : ValidationDict :=
  {| r_is_valid := valid; r_errors := errs; r_warnings := r_warnings r;
     r_page_count := r_page_count r; r_text := r_text r;
     r_metadata := r_metadata r; r_keys := r_keys r;
     r_file_size := r_file_size r;
     r_validation_type := r_validation_type r |}.

(** [result["errors"].append(msg)] *)
Definition add_error (msg : pystr) (r : ValidationDict) : ValidationDict :=
  with_errors r (r_is_valid r) (r_errors r ++ [msg]).

(** [result["warnings"].append(msg)] *)
Definition add_warning (msg : pystr) (r : ValidationDict) : ValidationDict :=
  {| r_is_valid := r_is_valid r; r_errors := r_errors r;
     r_warnings := r_warnings r ++ [msg];
     r_page_count := r_page_count r; r_text := r_text r;
     r_metadata := r_metadata r; r_keys := r_keys r;
     r_file_size := r_file_size r;
     r_validation_type := r_validation_type r |}.

(** [result[key] = ...] for an analysis key. *)
Definition add_key (key : String.string) (r : ValidationDict)
  : ValidationDict :=
  {| r_is_valid := r_is_valid r; r_errors := r_errors r;
     r_warnings := r_warnings r;
     r_page_count := r_page_count r; r_text := r_text r;
     r_metadata := r_metadata r; r_keys := r_keys r ++ [ascii_str key];
     r_file_size := r_file_size r;
     r_validation_type := r_validation_type r |}.

(** [result.update({"file_size": ..., "validation_type": ...})] *)
Definition with_file_info (r : ValidationDict) (size : Z)
           (validation_type : pystr) : ValidationDict :=
  {| r_is_valid := r_is_valid r; r_errors := r_errors r;
     r_warnings := r_warnings r;
     r_page_count := r_page_count r; r_text := r_text r;
     r_metadata := r_metadata r; r_keys := r_keys r;
     r_file_size := Some size;
     r_validation_type := Some validation_type |}.

(** The reads made for one entry of [pages_info]; [find_tables] sits in a
    handler of its own and cannot make the loop raise. *)
Definition page_info_reads (loaded : Exc Page) : Exc unit :=
  page <- loaded ;;
  _ <- page_text page ;;
  _ <- page_images page ;;
  _ <- page_links page ;;
  Ok tt.

(** The reads of [_extract_images_info] outside its per-image handler. *)
Definition images_info_reads (loaded : Exc Page) : Exc unit :=
  page <- loaded ;;
  _ <- page_images page ;;
  Ok tt.

(** [_enhanced_validation]: the keys set before a failing read stay in the
    dictionary; the failure is appended to [errors] and [is_valid] is left
    as it was. *)
Definition _enhanced_validation (settings : Settings) (fs : FileSystem)
           (doc : Document) (file_path : pystr) : Exc ValidationDict :=
  result <- _standard_validation fs doc file_path ;;
  match mapM page_info_reads (doc_pages doc) with
  | Raise e => Ok (add_error (Msg.enhanced_failed ++ exc_msg e) result)
  | Ok _ =>
      let result := add_key "pages_info" result in
      match (if PDF_EXTRACT_IMAGES settings
             then mapM images_info_reads (doc_pages doc)
             else Ok []) with
      | Raise e => Ok (add_error (Msg.enhanced_failed ++ exc_msg e) result)
      | Ok _ =>
          let result :=
            if PDF_EXTRACT_IMAGES settings
            then add_key "images_info" result else result in
          let result := add_key "document_structure" result in
          let result := add_key "quality_checks" result in
          Ok result
      end
  end.

(** [metadata.get(field)] is falsy. *)
Fixpoint metadata_missing (field : pystr)
         (metadata : list (pystr * option pystr)) : bool :=
  match metadata with
  | [] => true
  | (k, v) :: rest =>
      if pystr_eqb k field then
        match v with
        | Some (_ :: _) => false
        | _ => true
        end
      else metadata_missing field rest
  end.

Definition required_metadata : list pystr :=
  [ascii_str "Title"; ascii_str "Author"; ascii_str "Creator"].

(** [_strict_validation]; the three checks it starts with have handlers of
    their own. *)
Definition _strict_validation (settings : Settings) (fs : FileSystem)
           (doc : Document) (file_path : pystr) : Exc ValidationDict :=
  result <- _enhanced_validation settings fs doc file_path ;;
  let result := add_key "pdf_a_compliance" result in
  let result := add_key "accessibility_check" result in
  let result := add_key "integrity_check" result in
  let strict_errors :=
    (match Unicode.strip (r_text result) with
     | [] => [Msg.strict_needs_text]
     | _ :: _ => []
     end) ++
    (if (r_page_count result =? 0)%Z then [Msg.strict_needs_page] else []) in
  let result :=
    fold_left
      (fun r field =>
         if metadata_missing field (r_metadata r)
         then add_warning (Msg.strict_missing_field ++ field) r
         else r)
      required_metadata result in
  match strict_errors with
  | [] => Ok result
  | _ :: _ => Ok (with_errors result false (r_errors result ++ strict_errors))
  end.

(** The [try] block of [validate_pdf]. *)
Definition validate_pdf_try (settings : Settings) (fs : FileSystem)
           (file_path validation_type : pystr) : Exc ValidationDict :=
  _ <- _validate_file_basic settings fs file_path ;;
  doc <- _open_pdf_document fs file_path ;;
  result <-
    (if pystr_eqb validation_type (ascii_str "standard")
     then _standard_validation fs doc file_path
     else if pystr_eqb validation_type (ascii_str "enhanced")
     then _enhanced_validation settings fs doc file_path
     else if pystr_eqb validation_type (ascii_str "strict")
     then _strict_validation settings fs doc file_path
     else raise_ PDFValidationError
            (Msg.unsupported_type ++ validation_type)) ;;
  size <- stat_size fs file_path ;;
  Ok (with_file_info result size validation_type).

(** [validate_pdf]: the [try] block and its [except Exception] handler, in
    which the file size is read only when the file exists; what
    [file_path_obj.exists()] raises there leaves [validate_pdf]. *)
Definition validate_pdf (settings : Settings) (fs : FileSystem)
           (file_path validation_type : pystr)
           (metadata : option (list (pystr * pystr))) : Exc ValidationDict :=
  match validate_pdf_try settings fs file_path validation_type with
  | Ok result => Ok result
  | Raise e =>
      file_exists <- exists_ fs file_path ;;
      size <- (if file_exists then stat_size fs file_path else Ok 0%Z) ;;
      Ok {| r_is_valid := false;
            r_errors := [Msg.pdf_processing_failed ++ exc_msg e];
            r_warnings := [];
            r_page_count := 0;
            r_text := [];
            r_metadata := [];
            r_keys := [];
            r_file_size := Some size;
            r_validation_type := Some validation_type |}
  end.

(** The validation type is one of the three known levels. *)
Definition recognised (validation_type : pystr) : bool :=
  pystr_eqb validation_type (ascii_str "standard") ||
  pystr_eqb validation_type (ascii_str "enhanced") ||
  pystr_eqb validation_type (ascii_str "strict").

End PDFProcessor.


(* ================================================================== *)
(** ** models/validation_task.py: the tables, and the object store *)

Module Store.

Inductive TaskStatus :=
| PENDING | PROCESSING | COMPLETED | FAILED | CANCELLED.

(** [task.result_summary] *)
Record Summary := {
  sum_is_valid : bool;
  sum_page_count : Z;
  sum_text_length : Z;
  sum_has_errors : bool
}.

(** A row of [pdf_validation_tasks] (the columns the worker writes). *)
Record ValidationTask := {
  vt_task_id : pystr;
  vt_status : TaskStatus;
  vt_started_at : option Z;
  vt_completed_at : option Z;
  vt_result_summary : option Summary;
  vt_error_message : option pystr
}.

(** A row of [pdf_validation_results]. *)
Record ValidationResult := {
  vr_task_id : pystr;
  vr_pdf_path : pystr;
  vr_validation_type : pystr;
  vr_is_valid : bool;
  vr_extracted_text : pystr;
  vr_page_count : Z;
  vr_file_size : Z;
  vr_errors : list pystr;
  vr_warnings : list pystr
}.

(** A row of [pdf_page_snapshots] (font statistics left out). *)
Record PDFPageSnapshot := {
  ps_task_id : pystr;
  ps_page_num : Z;
  ps_minio_path : pystr;
  ps_thumbnail_path : option pystr;
  ps_page_width : Qc;
  ps_page_height : Qc;
  ps_dpi : Z;
  ps_image_width : Z;
  ps_image_height : Z;
  ps_image_size : Z;
  ps_text_blocks_count : Z;
  ps_images_count : Z;
  ps_tables_count : Z;
  ps_has_header : bool;
  ps_has_footer : bool;
  ps_columns_count : Z
}.

(** The committed rows of the four tables and the keys of the bucket.  A
    row of [pdf_block_info] has the columns of a block dictionary. *)
Record World := {
  tasks : list ValidationTask;
  results : list ValidationResult;
  block_rows : list Block;
  snapshot_rows : list PDFPageSnapshot;
  objects : list pystr
}.

(** [db.query(ValidationTask).filter(task_id == id).first()] *)
Definition find_task (id : pystr) (w : World) : option ValidationTask :=
  find (fun t => pystr_eqb (vt_task_id t) id) (tasks w).

(** Attribute writes on the first task row of that id, then [db.commit()]. *)
Fixpoint update_first (id : pystr) (f : ValidationTask -> ValidationTask)
         (ts : list ValidationTask) : list ValidationTask :=
  match ts with
  | [] => []
  | t :: rest =>
      if pystr_eqb (vt_task_id t) id then f t :: rest
      else t :: update_first id f rest
  end.

Definition update_task (id : pystr) (f : ValidationTask -> ValidationTask)
           (w : World) : World :=
  {| tasks := update_first id f (tasks w); results := results w;
     block_rows := block_rows w; snapshot_rows := snapshot_rows w;
     objects := objects w |}.

(** [db.add(row)] for every pending row, then [db.commit()]. *)
Definition commit_results (pending : list ValidationResult) (w : World)
  : World :=
  {| tasks := tasks w; results := results w ++ pending;
     block_rows := block_rows w; snapshot_rows := snapshot_rows w;
     objects := objects w |}.

Definition commit_blocks (pending : list Block) (w : World) : World :=
  {| tasks := tasks w; results := results w;
     block_rows := block_rows w ++ pending;
     snapshot_rows := snapshot_rows w; objects := objects w |}.

Definition commit_snapshots (pending : list PDFPageSnapshot) (w : World)
  : World :=
  {| tasks := tasks w; results := results w; block_rows := block_rows w;
     snapshot_rows := snapshot_rows w ++ pending; objects := objects w |}.

(** A successful [put_object]. *)
Definition put_object (key : pystr) (w : World) : World :=
  {| tasks := tasks w; results := results w; block_rows := block_rows w;
     snapshot_rows := snapshot_rows w; objects := objects w ++ [key] |}.

(** The four tables of two worlds agree (the bucket may differ). *)
Definition same_tables (w w' : World) : Prop :=
  tasks w' = tasks w /\ results w' = results w /\
  block_rows w' = block_rows w /\ snapshot_rows w' = snapshot_rows w.

End Store.

(** What the surroundings of one attempt answer: the local file system (as
    seen once a download has been written), the object store, the imaging
    library, the compiled code pattern, the clock. *)
Record Env := {
  env_fs : Fitz.FileSystem;
  env_upload : pystr -> Exc unit;        (* client.put_object(key, ...) *)
  env_download : pystr -> Exc unit;      (* download_file(object, temp) *)
  env_temp_path : pystr;                 (* NamedTemporaryFile(...).name *)
  env_unlink : Exc unit;                 (* temp_path.unlink() *)
  env_thumbnail : list N -> Exc (list N);  (* PIL thumbnail, PNG bytes *)
  env_xixi_findall : pystr -> list pystr;  (* xixi_pattern.findall(text) *)
  env_now : Z                            (* datetime.utcnow() *)
}.


(* ================================================================== *)
(** ** storage_service.py and page_snapshot_service.py *)

Module PageSnapshotService.
Import Fitz Store Layout.

(** [StorageService.upload_file]: an [S3Error] of the client is turned into
    a [StorageError]; a stored object appears in the bucket. *)
Definition upload_file (env : Env) (object_name : pystr) (w : World)
  : World * Exc unit :=
  match env_upload env object_name with
  | Ok _ => (put_object object_name w, Ok tt)
  | Raise e =>
      match exc_class e with
      | S3Error =>
          (w, Raise {| exc_class := StorageError;
                       exc_msg := ascii_str "Failed to upload file " ++
                                  object_name ++ ascii_str ": " ++
                                  exc_msg e |})
      | _ => (w, Raise e)
      end
  end.

(** [f"{n:04d}"] for a page number. *)
Definition pad4 (n : Z) : pystr :=
  let digits := str_of_int n in
  repeat 0x30%N (4 - length digits) ++ digits.

(** [f"pdf-snapshots/{task_id}/page_{page_num + 1:04d}.png"] *)
Definition snapshot_key (task_id : pystr) (page_num : Z) : pystr :=
  ascii_str "pdf-snapshots/" ++ task_id ++ ascii_str "/page_" ++
  pad4 (page_num + 1) ++ ascii_str ".png".

(** [f"pdf-snapshots/{task_id}/thumbnails/page_{page_num + 1:04d}_thumb.png"] *)
Definition thumbnail_key (task_id : pystr) (page_num : Z) : pystr :=
  ascii_str "pdf-snapshots/" ++ task_id ++ ascii_str "/thumbnails/page_" ++
  pad4 (page_num + 1) ++ ascii_str "_thumb.png".

(** [_create_thumbnail]: any failure is logged and answered by [None]. *)
Definition _create_thumbnail (env : Env) (task_id : pystr) (page_num : Z)
           (img_data : list N) (w : World) : World * option pystr :=
  match env_thumbnail env img_data with
  | Raise _ => (w, None)
  | Ok _ =>
      let thumbnail_path := thumbnail_key task_id page_num in
      match upload_file env thumbnail_path w with
      | (w', Ok _) => (w', Some thumbnail_path)
      | (w', Raise _) => (w', None)
      end
  end.

(** The gaps of [_detect_layout] between consecutive sorted x positions
    that exceed the threshold. *)
Fixpoint wide_gaps (threshold : Qc) (x_positions : list Qc) : list Qc :=
  match x_positions with
  | a :: rest =>
      match rest with
      | b :: _ =>
          let gap := (b - a)%Qc in
          if Float.ltb threshold gap then gap :: wide_gaps threshold rest
          else wide_gaps threshold rest
      | [] => []
      end
  | [] => []
  end.

(** [_detect_layout]: [(has_header, has_footer, columns_count)]. *)
Definition _detect_layout (page : Page) : Exc (bool * bool * Z) :=
  text_blocks <- page_text_blocks page ;;
  match text_blocks with
  | [] => Ok (false, false, 1%Z)
  | _ :: _ =>
      let header_threshold := (page_height page * Float.frac 1 10)%Qc in
      let footer_threshold := (page_height page * Float.frac 9 10)%Qc in
      let has_header :=
        existsb (fun b => Float.ltb (tb_y0 b) header_threshold) text_blocks in
      let has_footer :=
        existsb (fun b => Float.ltb footer_threshold (tb_y0 b)) text_blocks in
      let x_positions :=
        map tb_x0
            (filter (fun b => Float.ltb header_threshold (tb_y0 b) &&
                              Float.ltb (tb_y0 b) footer_threshold)
                    text_blocks) in
      let gaps :=
        wide_gaps (page_width page * Float.frac 1 10)%Qc (sorted x_positions) in
      let columns_count :=
        match gaps with
        | [] => 1%Z
        | _ :: _ => Z.min (len gaps + 1) 3
        end in
      Ok (has_header, has_footer, columns_count)
  end.

(** The dictionary returned by [_extract_single_page] (without the font
    statistics). *)
Record SnapshotInfo := {
  si_minio_path : pystr;
  si_thumbnail_path : option pystr;
  si_page_width : Qc;
  si_page_height : Qc;
  si_image_width : Z;
  si_image_height : Z;
  si_image_size : Z;
  si_text_blocks_count : Z;
  si_images_count : Z;
  si_tables_count : Z;
  si_has_header : bool;
  si_has_footer : bool;
  si_columns_count : Z
}.

(** The analyses of [_extract_single_page] that follow the uploads:
    [_analyze_page_content], [_analyze_fonts] (only its read is kept) and
    [_detect_layout]. *)
Definition analyze_page (page : Page)
  : Exc (Z * Z * Z * (bool * bool * Z)) :=
  text_blocks <- page_text_blocks page ;;
  images <- page_images page ;;
  let tables_count := _detect_tables text_blocks in
  _ <- page_text_dict page ;;
  layout_info <- _detect_layout page ;;
  Ok (len text_blocks, images, tables_count, layout_info).

(** [_extract_single_page] *)
Definition _extract_single_page (env : Env) (task_id : pystr)
           (loaded : Exc Page) (page_num dpi : Z) (save_thumbnail : bool)
           (w : World) : World * Exc SnapshotInfo :=
  match loaded with
  | Raise e => (w, Raise e)
  | Ok page =>
      match page_pixmap page dpi with
      | Raise e => (w, Raise e)
      | Ok pix =>
          let img_data := pix_png pix in
          let minio_path := snapshot_key task_id page_num in
          match upload_file env minio_path w with
          | (w1, Raise e) => (w1, Raise e)
          | (w1, Ok _) =>
              let '(w2, thumbnail_path) :=
                if save_thumbnail
                then _create_thumbnail env task_id page_num img_data w1
                else (w1, None) in
              match analyze_page page with
              | Raise e => (w2, Raise e)
              | Ok (text_blocks_count, images_count, tables_count,
                    (has_header, has_footer, columns_count)) =>
                  (w2,
                   Ok {| si_minio_path := minio_path;
                         si_thumbnail_path := thumbnail_path;
                         si_page_width := page_width page;
                         si_page_height := page_height page;
                         si_image_width := pix_width pix;
                         si_image_height := pix_height pix;
                         si_image_size := len img_data;
                         si_text_blocks_count := text_blocks_count;
                         si_images_count := images_count;
                         si_tables_count := tables_count;
                         si_has_header := has_header;
                         si_has_footer := has_footer;
                         si_columns_count := columns_count |})
              end
          end
      end
  end.

(** [PDFPageSnapshot(task_id=..., page_num=page_num + 1, ...)] *)
Definition snapshot_record (task_id : pystr) (page_num dpi : Z)
           (info : SnapshotInfo) : PDFPageSnapshot :=
  {| ps_task_id := task_id;
     ps_page_num := page_num + 1;
     ps_minio_path := si_minio_path info;
     ps_thumbnail_path := si_thumbnail_path info;
     ps_page_width := si_page_width info;
     ps_page_height := si_page_height info;
     ps_dpi := dpi;
     ps_image_width := si_image_width info;
     ps_image_height := si_image_height info;
     ps_image_size := si_image_size info;
     ps_text_blocks_count := si_text_blocks_count info;
     ps_images_count := si_images_count info;
     ps_tables_count := si_tables_count info;
     ps_has_header := si_has_header info;
     ps_has_footer := si_has_footer info;
     ps_columns_count := si_columns_count info |}.

(** The [for page_num in range(len(doc))] loop of [extract_page_snapshots]
    from page [page_num] on: [pending] holds the records added to the
    session ([db.add]) and not yet committed, [snapshots] the dictionaries
    collected so far. *)
Fixpoint snapshot_loop (env : Env) (task_id : pystr) (dpi : Z)
         (save_thumbnail : bool) (pages : list (Exc Page)) (page_num : Z)
         (w : World) (pending : list PDFPageSnapshot)
         (snapshots : list SnapshotInfo)
  : World * Exc (list PDFPageSnapshot * list SnapshotInfo) :=
  match pages with
  | [] => (w, Ok (pending, snapshots))
  | loaded :: rest =>
      match _extract_single_page env task_id loaded page_num dpi
                                 save_thumbnail w with
      | (w', Raise e) => (w', Raise e)
      | (w', Ok snapshot_info) =>
          snapshot_loop env task_id dpi save_thumbnail rest (page_num + 1) w'
            (pending ++ [snapshot_record task_id page_num dpi snapshot_info])
            (snapshots ++ [snapshot_info])
      end
  end.

(** [extract_page_snapshots]: one [db.commit()] after the loop; on any
    exception [db.rollback()] drops the pending records and the exception
    is raised again. *)
Definition extract_page_snapshots (env : Env) (task_id : pystr)
           (doc : Document) (dpi : Z) (save_thumbnail : bool) (w : World)
  : World * Exc (list SnapshotInfo) :=
  match snapshot_loop env task_id dpi save_thumbnail (doc_pages doc) 0 w
                      [] [] with
  | (w', Ok (pending, snapshots)) => (commit_snapshots pending w', Ok snapshots)
  | (w', Raise e) => (w', Raise e)
  end.

(** The page numbers [first + 1, ..., first + n]. *)
Definition page_numbers (first : Z) (n : nat) : list Z :=
  map (fun i => (first + Z.of_nat i + 1)%Z) (seq 0 n).

End PageSnapshotService.


(* ================================================================== *)
(** ** EnhancedPDFProcessor: extraction and persistence of the blocks *)

Module EnhancedPDFProcessor.
Import Fitz Store.

(** The [block_info] dictionary built for one span. *)
Definition make_block (task_id : pystr) (page_num block_num : Z)
           (text : pystr) (span : Span) (code : option pystr) : Block :=
  let '(bx0, by0, bx1, by1) := span_bbox span in
  {| task_id := task_id;
     page_num := page_num + 1;
     block_num := block_num;
     text := text;
     x0 := bx0; y0 := by0; x1 := bx1; y1 := by1;
     width := (bx1 - bx0)%Qc;
     height := (by1 - by0)%Qc;
     center_x := ((bx0 + bx1) / Float.of_Z 2)%Qc;
     center_y := ((by0 + by1) / Float.of_Z 2)%Qc;
     font := span_font span;
     font_size := span_size span;
     font_flags := span_flags span;
     font_color := span_color span;
     is_bold := negb (Z.land (span_flags span) (2 ^ 4) =? 0)%Z;
     is_italic := negb (Z.land (span_flags span) (2 ^ 1) =? 0)%Z;
     indentation := bx0;
     occupation_code := None;
     hierarchy_level := None;
     occupation_name := None;
     confidence := None |}.

(** The spans of the text blocks (type 0) of a page, in reading order. *)
Definition text_spans (blocks : list DictBlock) : list Span :=
  flat_map (fun b => if (dict_type b =? 0)%Z then concat (dict_lines b)
                     else []) blocks.

(** [block_info["occupation_code"] = code_matches[0]] *)
Definition with_code (b : Block) (code_matches : list pystr) : Block :=
  match code_matches with
  | [] => b
  | code :: _ =>
      {| task_id := task_id b; page_num := page_num b;
         block_num := block_num b; text := text b;
         x0 := x0 b; y0 := y0 b; x1 := x1 b; y1 := y1 b;
         width := width b; height := height b;
         center_x := center_x b; center_y := center_y b;
         font := font b; font_size := font_size b;
         font_flags := font_flags b; font_color := font_color b;
         is_bold := is_bold b; is_italic := is_italic b;
         indentation := indentation b;
         occupation_code := Some code;
         hierarchy_level := hierarchy_level b;
         occupation_name := occupation_name b;
         confidence := confidence b |}
  end.

(** The span loop of [_extract_page_blocks]: blank spans are skipped, the
    others are numbered from [block_num] on. *)
Fixpoint blocks_of_spans (env : Env) (task_id : pystr)
         (page_num block_num : Z) (spans : list Span) : list Block :=
  match spans with
  | [] => []
  | span :: rest =>
      match Unicode.strip (span_text span) with
      | [] => blocks_of_spans env task_id page_num block_num rest
      | (_ :: _) as text =>
          with_code (make_block task_id page_num block_num text span None)
                    (env_xixi_findall env text)
          :: blocks_of_spans env task_id page_num (block_num + 1) rest
      end
  end.

(** [_extract_page_blocks] *)
Definition _extract_page_blocks (env : Env) (page : Page) (page_num : Z)
           (task_id : pystr) : Exc (list Block) :=
  page_dict <- page_text_dict page ;;
  Ok (blocks_of_spans env task_id page_num 0 (text_spans page_dict)).

(** The [for page_num, page in enumerate(doc)] loop of
    [process_pdf_with_blocks]: [(all_blocks, all_text, occupation_codes)]. *)
Fixpoint read_pages (env : Env) (task_id : pystr) (pages : list (Exc Page))
         (page_num : Z) : Exc (list Block * list pystr * list pystr) :=
  match pages with
  | [] => Ok ([], [], [])
  | loaded :: rest =>
      page <- loaded ;;
      page_blocks <- _extract_page_blocks env page page_num task_id ;;
      page_text <- Fitz.page_text page ;;
      let codes := env_xixi_findall env page_text in
      more <- read_pages env task_id rest (page_num + 1) ;;
      let '(blocks, texts, all_codes) := more in
      Ok (page_blocks ++ blocks, page_text :: texts, codes ++ all_codes)
  end.

(** The row [PDFBlockInfo(task_id=task_id, ...)] of a block. *)
Definition block_row (id : pystr) (b : Block) : Block :=
  {| task_id := id; page_num := page_num b;
     block_num := block_num b; text := text b;
     x0 := x0 b; y0 := y0 b; x1 := x1 b; y1 := y1 b;
     width := width b; height := height b;
     center_x := center_x b; center_y := center_y b;
     font := font b; font_size := font_size b;
     font_flags := font_flags b; font_color := font_color b;
     is_bold := is_bold b; is_italic := is_italic b;
     indentation := indentation b;
     occupation_code := occupation_code b;
     hierarchy_level := hierarchy_level b;
     occupation_name := occupation_name b;
     confidence := confidence b |}.

(** [_save_blocks_to_db]: every row is added to one session, committed
    once. *)
Definition _save_blocks_to_db (task_id : pystr) (blocks : list Block)
           (w : World) : World :=
  commit_blocks (map (block_row task_id) blocks) w.

(** [len(set(codes))] *)
Fixpoint distinct (codes : list pystr) : list pystr :=
  match codes with
  | [] => []
  | c :: rest => if existsb (pystr_eqb c) rest then distinct rest
                 else c :: distinct rest
  end.

(** The result dictionary of [process_pdf_with_blocks] (without the clock
    reading and the font list). *)
Record BlocksResult := {
  br_page_count : Z;
  br_total_blocks : Z;
  br_unique_occupation_codes : Z;
  br_extracted_text : pystr;
  br_with_occupation_code : Z;
  br_snapshots_extracted : Z
}.

(** The [try] block of [process_pdf_with_blocks].  A failure of the
    snapshot extraction is logged and the main flow goes on. *)
Definition process_try (env : Env) (task_id file_path : pystr)
           (save_to_db extract_snapshots : bool) (w : World)
  : World * Exc BlocksResult :=
  match Fitz.open (env_fs env) file_path with
  | Raise e => (w, Raise e)
  | Ok doc =>
      match read_pages env task_id (doc_pages doc) 0 with
      | Raise e => (w, Raise e)
      | Ok (all_blocks, all_text, occupation_codes) =>
          let '(w1, snapshots_info) :=
            if extract_snapshots then
              match PageSnapshotService.extract_page_snapshots
                      env task_id doc 150 true w with
              | (w', Ok infos) => (w', infos)
              | (w', Raise _) => (w', [])
              end
            else (w, []) in
          match Hierarchy._analyze_hierarchy all_blocks with
          | Raise e => (w1, Raise e)
          | Ok classified =>
              let blocks := Association._match_occupation_info classified in
              let w2 :=
                if save_to_db then _save_blocks_to_db task_id blocks w1
                else w1 in
              (w2,
               Ok {| br_page_count := len (doc_pages doc);
                     br_total_blocks := len blocks;
                     br_unique_occupation_codes :=
                       len (distinct occupation_codes);
                     br_extracted_text := Unicode.join Msg.newline all_text;
                     br_with_occupation_code :=
                       len (filter Association.has_code blocks);
                     br_snapshots_extracted := len snapshots_info |})
          end
      end
  end.

(** [process_pdf_with_blocks]: any exception of the [try] block is raised
    again as a [PDFValidationError]. *)
Definition process_pdf_with_blocks (env : Env) (task_id file_path : pystr)
           (save_to_db extract_snapshots : bool) (w : World)
  : World * Exc BlocksResult :=
  match process_try env task_id file_path save_to_db extract_snapshots w with
  | (w', Ok result) => (w', Ok result)
  | (w', Raise e) =>
      (w', Raise {| exc_class := PDFValidationError;
                    exc_msg := Msg.pdf_processing_failed ++ exc_msg e |})
  end.

End EnhancedPDFProcessor.

(* ================================================================== *)
(** ** workers/pdf_validator.py *)

Module Worker.
Import Fitz Store PDFProcessor.

(** The value returned by a successful [process_validation_task]. *)
Record TaskOutput := {
  out_task_id : pystr;
  out_result : ValidationDict
}.

(** [p.startswith('/') or p.startswith('C:')] *)
Definition is_local_path (p : pystr) : bool :=
  Unicode.starts_with (ascii_str "/") p ||
  Unicode.starts_with (ascii_str "C:") p.

(** [_validate_pdf_file] *)
Definition _validate_pdf_file (settings : Settings) (env : Env)
           (file_path validation_type : pystr)
           (metadata : option (list (pystr * pystr))) : ValidationDict :=
  match validate_pdf settings (env_fs env) file_path validation_type
                     metadata with
  | Ok result => result
  | Raise e =>
      {| r_is_valid := false;
         r_errors := [Msg.validation_failed ++ exc_msg e];
         r_warnings := [];
         r_page_count := 0;
         r_text := [];
         r_metadata := [];
         r_keys := [];
         r_file_size := Some 0%Z;
         r_validation_type := None |}
  end.

Definition set_processing (now : Z) (t : ValidationTask) : ValidationTask :=
  {| vt_task_id := vt_task_id t; vt_status := PROCESSING;
     vt_started_at := Some now; vt_completed_at := vt_completed_at t;
     vt_result_summary := vt_result_summary t;
     vt_error_message := vt_error_message t |}.

Definition set_completed (now : Z) (summary : Summary) (t : ValidationTask)
  : ValidationTask :=
  {| vt_task_id := vt_task_id t; vt_status := COMPLETED;
     vt_started_at := vt_started_at t; vt_completed_at := Some now;
     vt_result_summary := Some summary;
     vt_error_message := vt_error_message t |}.

Definition set_failed (now : Z) (message : pystr) (t : ValidationTask)
  : ValidationTask :=
  {| vt_task_id := vt_task_id t; vt_status := FAILED;
     vt_started_at := vt_started_at t; vt_completed_at := Some now;
     vt_result_summary := vt_result_summary t;
     vt_error_message := Some message |}.

(** Step 2 of [process_validation_task]: the local path of the file. *)
Definition fetch_file (env : Env) (pdf_file_path : pystr) : Exc pystr :=
  if is_local_path pdf_file_path then
    file_exists <- exists_ (env_fs env) pdf_file_path ;;
    if file_exists then Ok pdf_file_path
    else Raise {| exc_class := FileNotFoundError;
                  exc_msg := ascii_str "Local file not found: " ++
                             pdf_file_path |}
  else
    _ <- env_download env pdf_file_path ;;
    Ok (env_temp_path env).

Definition result_row (task_id pdf_file_path validation_type : pystr)
           (validation_result : ValidationDict) : ValidationResult :=
  {| vr_task_id := task_id;
     vr_pdf_path := pdf_file_path;
     vr_validation_type := validation_type;
     vr_is_valid := r_is_valid validation_result;
     vr_extracted_text := r_text validation_result;
     vr_page_count := r_page_count validation_result;
     vr_file_size :=
       match r_file_size validation_result with Some n => n | None => 0%Z end;
     vr_errors := r_errors validation_result;
     vr_warnings := r_warnings validation_result |}.

Definition summary_of (validation_result : ValidationDict) : Summary :=
  {| sum_is_valid := r_is_valid validation_result;
     sum_page_count := r_page_count validation_result;
     sum_text_length := len (r_text validation_result);
     sum_has_errors := (0 <? len (r_errors validation_result))%Z |}.

(** Steps 2 to 6 of [process_validation_task], after the task row has been
    marked as processing.  Whatever the enhanced processing raises is
    logged as a warning and the task goes on. *)
Definition process_steps (settings : Settings) (env : Env)
           (task_id pdf_file_path validation_type : pystr)
           (metadata : option (list (pystr * pystr))) (w : World)
  : World * Exc TaskOutput :=
  match fetch_file env pdf_file_path with
  | Raise e => (w, Raise e)
  | Ok temp_path =>
      let validation_result :=
        _validate_pdf_file settings env temp_path validation_type metadata in
      let w1 :=
        fst (EnhancedPDFProcessor.process_pdf_with_blocks
               env task_id temp_path true true w) in
      let w2 :=
        commit_results
          [result_row task_id pdf_file_path validation_type validation_result]
          (update_task task_id
             (set_completed (env_now env) (summary_of validation_result)) w1) in
      match (if is_local_path pdf_file_path then Ok tt
             else file_exists <- exists_ (env_fs env) temp_path ;;
                  if file_exists then env_unlink env else Ok tt) with
      | Raise e => (w2, Raise e)
      | Ok _ =>
          (w2, Ok {| out_task_id := task_id;
                     out_result := validation_result |})
      end
  end.

(** [process_validation_task] *)
Definition process_validation_task (settings : Settings) (env : Env)
           (task_id pdf_file_path validation_type : pystr)
           (metadata : option (list (pystr * pystr))) (w : World)
  : World * Exc TaskOutput :=
  match find_task task_id w with
  | None =>
      (w, Raise {| exc_class := PDFValidationError;
                   exc_msg := ascii_str "Task " ++ task_id ++
                              ascii_str " not found" |})
  | Some _ =>
      let w0 := update_task task_id (set_processing (env_now env)) w in
      match process_steps settings env task_id pdf_file_path
                          validation_type metadata w0 with
      | (w', Ok out) => (w', Ok out)
      | (w', Raise e) =>
          (update_task task_id (set_failed (env_now env) (exc_msg e)) w',
           Raise e)
      end
  end.

(** What [raise self.retry(...)] raises: a retry request taken by the
    queue, or, once [request.retries] has reached [max_retries], the
    exception itself. *)
Inductive Signal :=
| Retry (exc : PyExc)
| GiveUp (exc : PyExc).

(** [Task.max_retries], the class default of Celery, which the decorator
    of [validate_pdf_task] leaves as it is ([retry_kwargs] only feeds the
    [autoretry_for] wrapper). *)
Definition task_max_retries : Z := 3.

(** [self.retry(exc=exc, max_retries=max_retries)] with
    [self.request.retries = retries]. *)
Definition self_retry (max_retries retries : Z) (exc : PyExc) : Signal :=
  if (max_retries <? retries + 1)%Z then GiveUp exc else Retry exc.

(** The body of [validate_pdf_task], run with
    [self.request.retries = retries].  The row is marked against
    [settings.MAX_RETRY_ATTEMPTS]; [self.retry(exc=exc)] is called without
    [max_retries] and so falls back on [Task.max_retries]. *)
Definition validate_pdf_task (settings : Settings) (env : Env) (retries : Z)
           (task_id pdf_file_path validation_type : pystr)
           (metadata : option (list (pystr * pystr))) (w : World)
  : World * (TaskOutput + Signal) :=
  match process_validation_task settings env task_id pdf_file_path
                                validation_type metadata w with
  | (w', Ok out) => (w', inl out)
  | (w', Raise exc) =>
      let w'' :=
        if (MAX_RETRY_ATTEMPTS settings <=? retries)%Z then
          match find_task task_id w' with
          | Some _ =>
              update_task task_id
                (set_failed (env_now env)
                            (Msg.max_retries_reached ++ exc_msg exc)) w'
          | None => w'
          end
        else w' in
      (w'', inr (self_retry task_max_retries retries exc))
  end.

(** The wrapper that [autoretry_for=(Exception,)] puts around the body: a
    result and a retry request pass through; an exception that leaves the
    body is answered by [task.retry(exc=exc, **retry_kwargs)], where
    [retry_kwargs] gives [max_retries = settings.MAX_RETRY_ATTEMPTS]. *)
Definition autoretry (settings : Settings) (retries : Z)
           (answer : TaskOutput + Signal) : TaskOutput + Signal :=
  match answer with
  | inr (GiveUp exc) =>
      inr (self_retry (MAX_RETRY_ATTEMPTS settings) retries exc)
  | _ => answer
  end.

(** The number of the last delivery the queue can make: the larger of the
    two bounds on [request.retries]. *)
Definition last_delivery (settings : Settings) : Z :=
  Z.max task_max_retries (MAX_RETRY_ATTEMPTS settings).

(** The queue: the task is delivered with [retries = 0] and delivered again,
    [retries] incremented, on every retry request; [envs n] is what the
    surroundings answer during delivery [n].  [deliveries] bounds the
    further deliveries. *)
Fixpoint deliver (settings : Settings) (envs : Z -> Env) (deliveries : nat)
         (retries : Z) (task_id pdf_file_path validation_type : pystr)
         (metadata : option (list (pystr * pystr))) (w : World)
  : World * (TaskOutput + PyExc) :=
  let '(w', answer) :=
    validate_pdf_task settings (envs retries) retries task_id
                      pdf_file_path validation_type metadata w in
  match autoretry settings retries answer with
  | inl out => (w', inl out)
  | inr (GiveUp exc) => (w', inr exc)
  | inr (Retry exc) =>
      match deliveries with
      | O => (w', inr exc)
      | S n =>
          deliver settings envs n (retries + 1) task_id pdf_file_path
                  validation_type metadata w'
      end
  end.

(** The whole life of a queued task. *)
Definition run_task (settings : Settings) (envs : Z -> Env)
           (task_id pdf_file_path validation_type : pystr)
           (metadata : option (list (pystr * pystr))) (w : World)
  : World * (TaskOutput + PyExc) :=
  deliver settings envs (Z.to_nat (last_delivery settings)) 0 task_id
          pdf_file_path validation_type metadata w.

(** The message a failed delivery leaves on the task row. *)
Definition failure_message (settings : Settings) (retries : Z) (e : PyExc)
  : pystr :=
  if (MAX_RETRY_ATTEMPTS settings <=? retries)%Z
  then Msg.max_retries_reached ++ exc_msg e
  else exc_msg e.

End Worker.


(* ================================================================== *)
(** ** Sample documents and surroundings *)

Module Sample.
Import Fitz Store.

Definition exc (c : ExcClass) (msg : String.string) : PyExc :=
  {| exc_class := c; exc_msg := ascii_str msg |}.

(** A page that holds one span with the given text; every read answers. *)
Definition page_of (t : pystr) : Page :=
  {| page_text_dict :=
       Ok [ {| dict_type := 0;
               dict_lines :=
                 [[ {| span_text := t;
                       span_bbox := (Float.of_Z 72, Float.of_Z 72,
                                     Float.of_Z 200, Float.of_Z 84);
                       span_font := ascii_str "Helvetica";
                       span_size := Float.of_Z 12;
                       span_flags := 0;
                       span_color := 0 |} ]] |} ];
     page_text := Ok t;
     page_text_blocks :=
       Ok [ {| Layout.tb_x0 := Float.of_Z 72; Layout.tb_y0 := Float.of_Z 72;
               Layout.tb_x1 := Float.of_Z 200; Layout.tb_y1 := Float.of_Z 84;
               Layout.tb_text := t; Layout.tb_no := 0;
               Layout.tb_type := 0 |} ];
     page_images := Ok 0%Z;
     page_links := Ok 0%Z;
     page_tables := Ok 0%Z;
     page_width := Float.of_Z 595;
     page_height := Float.of_Z 842;
     page_rotation := 0;
     page_pixmap := fun dpi =>
       Ok {| pix_width := 1240; pix_height := 1754;
             pix_png := [0x89; 0x50; 0x4E; 0x47]%N |} |}.

Definition doc_of (pages : list (Exc Page)) : Document :=
  {| doc_pages := pages;
     doc_metadata := [];
     doc_is_encrypted := false;
     doc_authenticate_empty := true |}.

(** Two readable pages, "A" and "B". *)
Definition doc_A_B : Document :=
  doc_of [Ok (page_of (ascii_str "A")); Ok (page_of (ascii_str "B"))].

(** A first readable page, a second page that cannot be loaded. *)
Definition doc_A_broken : Document :=
  doc_of [Ok (page_of (ascii_str "A"));
          Raise (exc OtherError "cannot load page")].

Definition local_path : pystr := ascii_str "/data/doc.pdf".

(** A file system holding one file, at [local_path]. *)
Definition fs_with (doc : Document) : FileSystem :=
  {| fs_file := fun p =>
       if pystr_eqb p local_path
       then Some {| f_is_file := true; f_size := 1024; f_open := Ok doc |}
       else None;
     fs_oserror := fun _ => None |}.

Definition no_files : FileSystem :=
  {| fs_file := fun _ => None; fs_oserror := fun _ => None |}.

(** Surroundings in which the store, the imaging library and the unlink
    answer, over the given file system. *)
Definition env_with (fs : FileSystem) (now : Z) : Env :=
  {| env_fs := fs;
     env_upload := fun _ => Ok tt;
     env_download := fun _ => Ok tt;
     env_temp_path := ascii_str "/tmp/tmp0.pdf";
     env_unlink := Ok tt;
     env_thumbnail := fun png => Ok png;
     env_xixi_findall := fun _ => [];
     env_now := now |}.

Definition task_T1 : pystr := ascii_str "T1".

(** A world whose only row is the pending task T1. *)
Definition world_T1 : World :=
  {| tasks := [ {| vt_task_id := task_T1; vt_status := PENDING;
                   vt_started_at := None; vt_completed_at := None;
                   vt_result_summary := None;
                   vt_error_message := None |} ];
     results := [];
     block_rows := [];
     snapshot_rows := [];
     objects := [] |}.

End Sample.


(** Whether taking the snapshot of a page raises: the page cannot be
    loaded or rendered, the image cannot be stored, or an analysis read
    fails (a thumbnail failure is not one). *)
Definition page_snapshot_fails (env : Env) (task_id : pystr) (dpi : Z)
           (page_num : Z) (loaded : Exc Fitz.Page) : bool :=
  match loaded with
  | Raise _ => true
  | Ok page =>
      match Fitz.page_pixmap page dpi with
      | Raise _ => true
      | Ok _ =>
          match env_upload env
                  (PageSnapshotService.snapshot_key task_id page_num) with
          | Raise _ => true
          | Ok _ =>
              match PageSnapshotService.analyze_page page with
              | Raise _ => true
              | Ok _ => false
              end
          end
      end
  end.

(** The committed snapshot records of a task. *)
Definition snapshots_of (task_id : pystr) (w : Store.World)
  : list Store.PDFPageSnapshot :=
  filter (fun r => pystr_eqb (Store.ps_task_id r) task_id)
         (Store.snapshot_rows w).

(** The committed block rows of a task. *)
Definition blocks_of (id : pystr) (w : Store.World) : list Block :=
  filter (fun b => pystr_eqb (task_id b) id) (Store.block_rows w).

(** Whether reading a page for the block extraction raises: the page
    cannot be loaded, or one of its two text reads fails. *)
Definition page_read_fails (loaded : Exc Fitz.Page) : bool :=
  match loaded with
  | Raise _ => true
  | Ok page =>
      match Fitz.page_text_dict page, Fitz.page_text page with
      | Ok _, Ok _ => false
      | _, _ => true
      end
  end.

(** The exception an attempt of [process_validation_task] ends with on an
    existing task, if any: the file cannot be fetched, or the temporary
    file cannot be removed at the end. *)
Definition attempt_error (env : Env) (pdf_file_path : pystr)
  : option PyExc :=
  match Worker.fetch_file env pdf_file_path with
  | Raise e => Some e
  | Ok temp_path =>
      if Worker.is_local_path pdf_file_path then None
      else match (file_exists <- Fitz.exists_ (env_fs env) temp_path ;;
                  if file_exists then env_unlink env else Ok tt) with
           | Raise e => Some e
           | Ok _ => None
           end
  end.

(** The validation result an attempt computes once the file is fetched. *)
Definition attempt_result (settings : Settings) (env : Env)
           (pdf_file_path validation_type : pystr)
           (metadata : option (list (pystr * pystr)))
  : PDFProcessor.ValidationDict :=
  match Worker.fetch_file env pdf_file_path with
  | Raise _ =>
      Worker._validate_pdf_file settings env pdf_file_path validation_type
                                metadata
  | Ok temp_path =>
      Worker._validate_pdf_file settings env temp_path validation_type
                                metadata
  end.


(** Whether reading the document for the block extraction fails: it cannot
    be opened, or one of its pages cannot be read. *)
Definition document_read_fails (env : Env) (file_path : pystr) : bool :=
  match Fitz.open (env_fs env) file_path with
  | Raise _ => true
  | Ok doc => existsb page_read_fails (Fitz.doc_pages doc)
  end.


(** Surroundings without any file, at every delivery. *)
Definition envs_no_file (n : Z) : Env := Sample.env_with Sample.no_files n.

(** Surroundings in which the file appears at delivery 2. *)
Definition envs_file_at_2 (n : Z) : Env :=
  if (n <? 2)%Z then Sample.env_with Sample.no_files n
  else Sample.env_with (Sample.fs_with Sample.doc_A_B) n.


(** A bold heading of size 14 at the margin and a body line of size 10
    indented by 20. *)
Definition heading_block : Block :=
  sample_block (Float.of_Z 14) (Float.of_Z 0) true.
Definition body_block : Block :=
  sample_block (Float.of_Z 10) (Float.of_Z 20) false.


(* ================================================================== *)
(** ** Further notions used by the properties of the code *)

(** Each value exceeds the one before it by more than [gap]. *)
Fixpoint spaced (gap : Qc) (l : list Qc) : Prop :=
  match l with
  | [] => True
  | a :: rest =>
      match rest with
      | [] => True
      | b :: _ => (gap < b - a)%Qc /\ spaced gap rest
      end
  end.


(** Indentations 0, 5, 20 and 40 of a document, in sorted order. *)
Definition indents_0_5_20_40 : list Qc :=
  [Float.of_Z 0; Float.of_Z 5; Float.of_Z 20; Float.of_Z 40].

(** The pass run on its own result. *)
Definition analyze_twice (blocks : list Block) : Exc (list Block) :=
  out <- Hierarchy._analyze_hierarchy blocks ;;
  Hierarchy._analyze_hierarchy out.


(** The association pass run on its own result. *)
Definition match_twice (blocks : list Block) : list Block :=
  Association._match_occupation_info
    (Association._match_occupation_info blocks).

(** [any(keyword in text for keyword in job_keywords)] *)
Definition has_job_keyword (text : pystr) : bool :=
  existsb (fun keyword => Unicode.contains keyword text)
          Association.job_keywords.

(** The number of characters of [text] in U+4E00..U+9FA5. *)
Definition chinese_count (text : pystr) : Z :=
  len (filter Association.is_chinese text).


(** What the scan reads of a candidate. *)
Definition same_reads (c c' : Block) : Prop :=
  text c' = text c /\ center_y c' = center_y c.


(** What [_extract_page_blocks] derives from the bounding box of a span
    and leaves for the later passes. *)
Definition fresh_block (b : Block) : Prop :=
  width b = (x1 b - x0 b)%Qc /\
  height b = (y1 b - y0 b)%Qc /\
  center_x b = ((x0 b + x1 b) / Float.of_Z 2)%Qc /\
  center_y b = ((y0 b + y1 b) / Float.of_Z 2)%Qc /\
  indentation b = x0 b /\
  hierarchy_level b = None /\
  occupation_name b = None /\
  confidence b = None.

(** The block of the span: its stripped text and its font attributes. *)
Definition block_of_span (b : Block) (span : Fitz.Span) : Prop :=
  text b = Unicode.strip (Fitz.span_text span) /\
  (x0 b, y0 b, x1 b, y1 b) = Fitz.span_bbox span /\
  font b = Fitz.span_font span /\
  font_size b = Fitz.span_size span /\
  font_flags b = Fitz.span_flags span /\
  font_color b = Fitz.span_color span.


(** A committed block row of task [id] with a level between 1 and 4. *)
Definition levelled_row (id : pystr) (row : Block) : Prop :=
  task_id row = id /\
  exists l, hierarchy_level row = Some l /\ (1 <= l <= 4)%Z.


(* ================================================================== *)
(** ** EnhancedPDFProcessor: statistics and queries *)

Module Blocks.
Import Store.

(** A Python [dict] from [int] to [int], in insertion order. *)
Definition IntDict := list (Z * Z).

(** [d.get(k, default)] *)
Fixpoint dict_get (d : IntDict) (k default : Z) : Z :=
  match d with
  | [] => default
  | (k', v) :: rest => if (k' =? k)%Z then v else dict_get rest k default
  end.

(** [d[k] = v] *)
Fixpoint dict_set (d : IntDict) (k v : Z) : IntDict :=
  match d with
  | [] => [(k, v)]
  | (k', v') :: rest =>
      if (k' =? k)%Z then (k, v) :: rest else (k', v') :: dict_set rest k v
  end.

(** [block.get("hierarchy_level", 4)] *)
Definition level_or_4 (b : Block) : Z :=
  match hierarchy_level b with
  | Some level => level
  | None => 4%Z
  end.

(** The [for block in blocks] loop of [_get_hierarchy_distribution]. *)
Definition count_levels (blocks : list Block) (d : IntDict) : IntDict :=
  fold_left
    (fun distribution block =>
       let level := level_or_4 block in
       dict_set distribution level (dict_get distribution level 0 + 1))
    blocks d.

(** [_get_hierarchy_distribution] *)
Definition _get_hierarchy_distribution (blocks : list Block) : IntDict :=
  count_levels blocks [(1, 0); (2, 0); (3, 0); (4, 0)]%Z.

(** [sum(d.values())] *)
Definition total (d : IntDict) : Z := fold_right Z.add 0%Z (map snd d).

(** [list(d.keys())] *)
Definition keys (d : IntDict) : list Z := map fst d.

(** The keys of the [filters] dictionary that [query_blocks] reads; a key
    that is absent is [None]. *)
Record Filters := {
  flt_page_num : option Z;
  flt_hierarchy_level : option Z;
  flt_has_occupation_code : option bool
}.

(** The conditions [query_blocks] adds for a filter dictionary; a column
    that is NULL equals no value. *)
Definition matches (filters : option Filters) (row : Block) : bool :=
  match filters with
  | None => true
  | Some f =>
      match flt_page_num f with
      | Some n => (page_num row =? n)%Z
      | None => true
      end &&
      match flt_hierarchy_level f with
      | Some l =>
          match hierarchy_level row with
          | Some l' => (l' =? l)%Z
          | None => false
          end
      | None => true
      end &&
      match flt_has_occupation_code f with
      | Some true =>
          match occupation_code row with Some _ => true | None => false end
      | _ => true
      end
  end.

(** [query_blocks]: the rows of the task that pass the filters, in the
    order of the table. *)
Definition query_blocks (id : pystr) (filters : option Filters) (w : World)
  : list Block :=
  filter (fun row => pystr_eqb (task_id row) id && matches filters row)
         (block_rows w).

(** [{"hierarchy_level": l}] *)
Definition by_level (l : Z) : option Filters :=
  Some {| flt_page_num := None; flt_hierarchy_level := Some l;
          flt_has_occupation_code := None |}.

End Blocks.


(** The number of rows of task [id] that [query_blocks] finds under the
    level filter [l]. *)
Definition level_count (id : pystr) (l : Z) (w : Store.World) : Z :=
  len (Blocks.query_blocks id (Blocks.by_level l) w).

(** A world whose block table holds one row of task T1, of level 1. *)
Definition world_one_row : Store.World :=
  EnhancedPDFProcessor._save_blocks_to_db Sample.task_T1
    [set_hierarchy_level heading_block 1] Sample.world_T1.


(** Whether the image of a page reaches the bucket: the page loads, is
    rendered, and the client stores the object. *)
Definition page_uploads (env : Env) (task_id : pystr) (dpi : Z)
           (page_num : Z) (loaded : Exc Fitz.Page) : bool :=
  match loaded with
  | Raise _ => false
  | Ok page =>
      match Fitz.page_pixmap page dpi with
      | Raise _ => false
      | Ok _ =>
          match env_upload env
                  (PageSnapshotService.snapshot_key task_id page_num) with
          | Raise _ => false
          | Ok _ => true
          end
      end
  end.

(** A page whose image is rendered but whose image list cannot be read. *)
Definition page_without_images : Fitz.Page :=
  {| Fitz.page_text_dict := Fitz.page_text_dict (Sample.page_of (ascii_str "B"));
     Fitz.page_text := Fitz.page_text (Sample.page_of (ascii_str "B"));
     Fitz.page_text_blocks :=
       Fitz.page_text_blocks (Sample.page_of (ascii_str "B"));
     Fitz.page_images := Raise (Sample.exc OtherError "cannot list images");
     Fitz.page_links := Ok 0%Z;
     Fitz.page_tables := Ok 0%Z;
     Fitz.page_width := Float.of_Z 595;
     Fitz.page_height := Float.of_Z 842;
     Fitz.page_rotation := 0;
     Fitz.page_pixmap :=
       Fitz.page_pixmap (Sample.page_of (ascii_str "B")) |}.

(** A first readable page, a second page whose analysis fails. *)
Definition doc_A_unanalysed : Fitz.Document :=
  Sample.doc_of [Ok (Sample.page_of (ascii_str "A")); Ok page_without_images].


(** The prefix [_open_pdf_document] puts before the message of a failure
    of [fitz.open], by the class of that failure. *)
Definition open_failure_prefix (c : ExcClass) : pystr :=
  match c with
  | FileDataError => Msg.corrupt
  | _ => Msg.cannot_open
  end.

(** [not text.strip()] *)
Definition blank (text : pystr) : bool :=
  match Unicode.strip text with
  | [] => true
  | _ :: _ => false
  end.

(** Two result dictionaries agree on what the standard level extracts. *)
Definition same_content (r r' : PDFProcessor.ValidationDict) : Prop :=
  PDFProcessor.r_text r' = PDFProcessor.r_text r /\
  PDFProcessor.r_page_count r' = PDFProcessor.r_page_count r /\
  PDFProcessor.r_metadata r' = PDFProcessor.r_metadata r.

(** A page whose text is read but whose link list cannot be read. *)
Definition page_without_links : Fitz.Page :=
  {| Fitz.page_text_dict := Fitz.page_text_dict (Sample.page_of (ascii_str "B"));
     Fitz.page_text := Fitz.page_text (Sample.page_of (ascii_str "B"));
     Fitz.page_text_blocks :=
       Fitz.page_text_blocks (Sample.page_of (ascii_str "B"));
     Fitz.page_images := Ok 0%Z;
     Fitz.page_links := Raise (Sample.exc OtherError "cannot list links");
     Fitz.page_tables := Ok 0%Z;
     Fitz.page_width := Float.of_Z 595;
     Fitz.page_height := Float.of_Z 842;
     Fitz.page_rotation := 0;
     Fitz.page_pixmap :=
       Fitz.page_pixmap (Sample.page_of (ascii_str "B")) |}.

Definition doc_A_unlinked : Fitz.Document :=
  Sample.doc_of [Ok (Sample.page_of (ascii_str "A")); Ok page_without_links].


(** The exception of [process_validation_task] for a task without a row. *)
Definition task_not_found (task_id : pystr) : PyExc :=
  {| exc_class := PDFValidationError;
     exc_msg := ascii_str "Task " ++ task_id ++ ascii_str " not found" |}.

(** Surroundings in which the object is downloaded to a temporary file
    that exists and cannot be removed afterwards. *)
Definition env_unlink_fails : Env :=
  {| env_fs :=
       {| Fitz.fs_file := fun p =>
            if pystr_eqb p (ascii_str "/tmp/tmp0.pdf")
            then Some {| Fitz.f_is_file := true; Fitz.f_size := 1024;
                         Fitz.f_open := Ok Sample.doc_A_B |}
            else None;
          Fitz.fs_oserror := fun _ => None |};
     env_upload := fun _ => Ok tt;
     env_download := fun _ => Ok tt;
     env_temp_path := ascii_str "/tmp/tmp0.pdf";
     env_unlink := Raise (Sample.exc OtherError "permission denied");
     env_thumbnail := fun png => Ok png;
     env_xixi_findall := fun _ => [];
     env_now := 5 |}.


(* ================================================================== *)
(** ** workers/pdf_validator.py: the batch task *)

Module Batch.
Import Store Worker.

(** One dictionary of [task_batch]; a key that is absent is [None]. *)
Record TaskInfo := {
  ti_task_id : option pystr;
  ti_pdf_file_path : option pystr;
  ti_validation_type : option pystr;
  ti_metadata : option (list (pystr * pystr))
}.

(** One dictionary of the list that the batch returns. *)
Inductive Entry :=
| Completed (out : TaskOutput)
| Failed (task_id error : pystr).

Definition entry_task_id (entry : Entry) : pystr :=
  match entry with
  | Completed out => out_task_id out
  | Failed task_id _ => task_id
  end.

(** [KeyError(key)]; its [str] is the [repr] of the key. *)
Definition key_error (key : String.string) : PyExc :=
  {| exc_class := OtherError;
     exc_msg := ascii_str "'" ++ ascii_str key ++ ascii_str "'" |}.

(** The [try] block for one item: the two subscripts are evaluated first,
    in order, then the task is processed. *)
Definition attempt_item (settings : Settings) (env : Env) (info : TaskInfo)
           (w : World) : World * Exc TaskOutput :=
  match ti_task_id info with
  | None => (w, Raise (key_error "task_id"))
  | Some task_id =>
      match ti_pdf_file_path info with
      | None => (w, Raise (key_error "pdf_file_path"))
      | Some pdf_file_path =>
          process_validation_task settings env task_id pdf_file_path
            (match ti_validation_type info with
             | Some validation_type => validation_type
             | None => ascii_str "standard"
             end)
            (ti_metadata info) w
      end
  end.

(** The [for task_info in task_batch] loop from item [i] on; [envs i] is
    what the surroundings answer while item [i] is processed.  The handler
    reads [task_info["task_id"]] again, outside any [try]. *)
Fixpoint batch_loop (settings : Settings) (envs : nat -> Env) (i : nat)
         (task_batch : list TaskInfo) (w : World) (results : list Entry)
  : World * Exc (list Entry) :=
  match task_batch with
  | [] => (w, Ok results)
  | task_info :: rest =>
      match attempt_item settings (envs i) task_info w with
      | (w', Ok result) =>
          batch_loop settings envs (S i) rest w' (results ++ [Completed result])
      | (w', Raise e) =>
          match ti_task_id task_info with
          | Some task_id =>
              batch_loop settings envs (S i) rest w'
                         (results ++ [Failed task_id (exc_msg e)])
          | None => (w', Raise (key_error "task_id"))
          end
      end
  end.

(** [batch_validate_pdf_task] *)
Definition batch_validate_pdf_task (settings : Settings) (envs : nat -> Env)
           (task_batch : list TaskInfo) (w : World)
  : World * Exc (list Entry) :=
  batch_loop settings envs 0 task_batch w [].

End Batch.

(** A batch of two items: the unknown task T2, then the task T1. *)
Definition batch_T2_T1 : list Batch.TaskInfo :=
  [ {| Batch.ti_task_id := Some (ascii_str "T2");
       Batch.ti_pdf_file_path := Some Sample.local_path;
       Batch.ti_validation_type := None;
       Batch.ti_metadata := None |};
    {| Batch.ti_task_id := Some Sample.task_T1;
       Batch.ti_pdf_file_path := Some Sample.local_path;
       Batch.ti_validation_type := None;
       Batch.ti_metadata := None |} ].


(* ================================================================== *)
(** ** api/routes/page_snapshots.py: deleting the snapshots of a task *)

Module Routes.
Import Store.

(** What [client.remove_object] answers for a key: the object is removed,
    an [S3Error] with code [NoSuchKey], another [S3Error], or another
    exception. *)
Inductive RemoveAnswer :=
| Removed
| NoSuchKey
| S3Failure (e : PyExc)
| OtherFailure (e : PyExc).

Definition without_object (key : pystr) (w : World) : World :=
  {| tasks := tasks w; results := results w; block_rows := block_rows w;
     snapshot_rows := snapshot_rows w;
     objects := filter (fun k => negb (pystr_eqb k key)) (objects w) |}.

(** [StorageService.delete_file]: a missing key is ignored, any other
    [S3Error] becomes a [StorageError]. *)
Definition delete_file (remove : pystr -> RemoveAnswer)
           (object_name : pystr) (w : World) : World * Exc unit :=
  match remove object_name with
  | Removed => (without_object object_name w, Ok tt)
  | NoSuchKey => (w, Ok tt)
  | S3Failure e =>
      (w, Raise {| exc_class := StorageError;
                   exc_msg := ascii_str "Failed to delete file " ++
                              object_name ++ ascii_str ": " ++ exc_msg e |})
  | OtherFailure e => (w, Raise e)
  end.

(** One of the two [try] blocks of the loop: the path goes to
    [deleted_files] or to [failed_files]. *)
Definition delete_one (remove : pystr -> RemoveAnswer) (path : pystr)
           (state : World * list pystr * list pystr)
  : World * list pystr * list pystr :=
  let '(w, deleted_files, failed_files) := state in
  match delete_file remove path w with
  | (w', Ok _) => (w', deleted_files ++ [path], failed_files)
  | (w', Raise _) => (w', deleted_files, failed_files ++ [path])
  end.

(** The body of [for snapshot in snapshots]: the image, then the thumbnail
    when [snapshot.thumbnail_path] is truthy. *)
Definition delete_snapshot_files (remove : pystr -> RemoveAnswer)
           (state : World * list pystr * list pystr)
           (snapshot : PDFPageSnapshot)
  : World * list pystr * list pystr :=
  let state := delete_one remove (ps_minio_path snapshot) state in
  match ps_thumbnail_path snapshot with
  | Some ((_ :: _) as thumbnail_path) => delete_one remove thumbnail_path state
  | _ => state
  end.

(** The content of the answer. *)
Record Deletion := {
  deleted_records : Z;
  deleted : list pystr;
  failed : list pystr
}.

(** A JSON answer, or an [HTTPException] with its status code. *)
Inductive Response :=
| Json (content : Deletion)
| HttpError (status_code : Z).

(** [query.filter(task_id == id).delete()] and [db.commit()] *)
Definition delete_records (id : pystr) (w : World) : World :=
  {| tasks := tasks w; results := results w; block_rows := block_rows w;
     snapshot_rows :=
       filter (fun r => negb (pystr_eqb (ps_task_id r) id)) (snapshot_rows w);
     objects := objects w |}.

(** [delete_task_snapshots]: the [HTTPException] with status 404 is raised
    inside the [try] block, caught by [except Exception] and raised again
    with status 500. *)
Definition delete_task_snapshots (remove : pystr -> RemoveAnswer)
           (task_id : pystr) (w : World) : World * Response :=
  match snapshots_of task_id w with
  | [] => (w, HttpError 500)
  | (_ :: _) as snapshots =>
      let '(w1, deleted_files, failed_files) :=
        fold_left (delete_snapshot_files remove) snapshots (w, [], []) in
      (delete_records task_id w1,
       Json {| deleted_records := len snapshots;
               deleted := deleted_files;
               failed := failed_files |})
  end.

(** The files of a record: its image and, when it has one, its
    thumbnail. *)
Definition files_of (snapshot : PDFPageSnapshot) : list pystr :=
  ps_minio_path snapshot ::
  match ps_thumbnail_path snapshot with
  | Some ((_ :: _) as thumbnail_path) => [thumbnail_path]
  | _ => []
  end.

End Routes.


(** The second world has the tables of the first and no object that the
    first has not. *)
Definition kept (w w' : Store.World) : Prop :=
  Store.tasks w' = Store.tasks w /\ Store.results w' = Store.results w /\
  Store.block_rows w' = Store.block_rows w /\
  Store.snapshot_rows w' = Store.snapshot_rows w /\
  incl (Store.objects w') (Store.objects w).

(** The world and the paths handled so far in a state of the deletion
    loop. *)
Definition state_world (state : Store.World * list pystr * list pystr)
  : Store.World := fst (fst state).
Definition handled (state : Store.World * list pystr * list pystr)
  : list pystr := snd (fst state) ++ snd state.

(** A record of task T1 for page 1, with a thumbnail. *)
Definition snapshot_T1_page1 : Store.PDFPageSnapshot :=
  PageSnapshotService.snapshot_record Sample.task_T1 0 150
    {| PageSnapshotService.si_minio_path :=
         PageSnapshotService.snapshot_key Sample.task_T1 0;
       PageSnapshotService.si_thumbnail_path :=
         Some (PageSnapshotService.thumbnail_key Sample.task_T1 0);
       PageSnapshotService.si_page_width := Float.of_Z 595;
       PageSnapshotService.si_page_height := Float.of_Z 842;
       PageSnapshotService.si_image_width := 1240;
       PageSnapshotService.si_image_height := 1754;
       PageSnapshotService.si_image_size := 4;
       PageSnapshotService.si_text_blocks_count := 1;
       PageSnapshotService.si_images_count := 0;
       PageSnapshotService.si_tables_count := 0;
       PageSnapshotService.si_has_header := true;
       PageSnapshotService.si_has_footer := false;
       PageSnapshotService.si_columns_count := 1 |}.


(** A world that holds the record of page 1 of task T1. *)
Definition world_one_snapshot : Store.World :=
  Store.commit_snapshots [snapshot_T1_page1] Sample.world_T1.

(** A store that refuses every removal. *)
Definition remove_refused (key : pystr) : Routes.RemoveAnswer :=
  Routes.S3Failure (Sample.exc S3Error "AccessDenied").

(* ================================================================== *)
(** ** PageSnapshotService: reading the records back *)

Module SnapshotQueries.
Import Store.

(** [get_page_snapshot]: the first record of the task with that page
    number. *)
Definition get_page_snapshot (task_id : pystr) (page_num : Z) (w : World)
  : option PDFPageSnapshot :=
  find (fun r => pystr_eqb (ps_task_id r) task_id &&
                 (ps_page_num r =? page_num)%Z)
       (snapshot_rows w).

(** [order_by(PDFPageSnapshot.page_num)]: records of equal page number
    keep the order of the table. *)
Fixpoint insert_by_page (r : PDFPageSnapshot) (l : list PDFPageSnapshot)
  : list PDFPageSnapshot :=
  match l with
  | [] => [r]
  | r' :: rest =>
      if (ps_page_num r <=? ps_page_num r')%Z then r :: l
      else r' :: insert_by_page r rest
  end.

Definition order_by_page (l : list PDFPageSnapshot) : list PDFPageSnapshot :=
  fold_right insert_by_page [] l.

(** [get_all_snapshots] *)
Definition get_all_snapshots (task_id : pystr) (w : World)
  : list PDFPageSnapshot :=
  order_by_page (snapshots_of task_id w).

End SnapshotQueries.


(** A path of 5000 letters [a], longer than any path the system
    accepts. *)
Definition long_path : pystr := repeat 0x61%N 5000.

(** [OSError(36, "File name too long", p)] *)
Definition name_too_long (p : pystr) : PyExc :=
  {| exc_class := OSError;
     exc_msg := ascii_str "[Errno 36] File name too long: '" ++ p ++
                ascii_str "'" |}.

(** A file system without files, on which [stat] raises ENAMETOOLONG for
    a path of more than 4096 characters. *)
Definition fs_name_limit : Fitz.FileSystem :=
  {| Fitz.fs_file := fun _ => None;
     Fitz.fs_oserror := fun p =>
       if (4096 <? len p)%Z then Some (name_too_long p) else None |}.


(** The settings of the service with [MAX_RETRY_ATTEMPTS = 1]. *)
Definition settings_one_retry : Settings :=
  {| PDF_MAX_FILE_SIZE := 50 * 1024 * 1024;
     PDF_EXTRACT_IMAGES := true;
     PDF_EXTRACT_TABLES := true;
     MAX_RETRY_ATTEMPTS := 1 |}.

(** [FileNotFoundError("Local file not found: /data/doc.pdf")] *)
Definition local_file_not_found : PyExc :=
  {| exc_class := FileNotFoundError;
     exc_msg := ascii_str "Local file not found: " ++ Sample.local_path |}.

(** The deliveries 0 and 1 of task T1 with one retry allowed, while the
    file is missing: the world after the first, and the second with its
    answer. *)
Definition first_failure : Store.World :=
  fst (Worker.validate_pdf_task settings_one_retry (envs_file_at_2 0) 0
         Sample.task_T1 Sample.local_path (ascii_str "standard") None
         Sample.world_T1).

Definition second_failure
  : Store.World * (Worker.TaskOutput + Worker.Signal) :=
  Worker.validate_pdf_task settings_one_retry (envs_file_at_2 1) 1
    Sample.task_T1 Sample.local_path (ascii_str "standard") None
    first_failure.


(** The world after the snapshots of the two pages of task T1 have been
    taken once. *)
Definition world_two_snapshots : Store.World :=
  fst (PageSnapshotService.extract_page_snapshots
         (Sample.env_with Sample.no_files 0) Sample.task_T1 Sample.doc_A_B
         150 true Sample.world_T1).

(* ================================================================== *)
(** * Properties *)

(** ** Floats and lists *)

Lemma ltb_lt (x y : Qc) : Float.ltb x y = true <-> (x < y)%Qc.
Proof.
  unfold Float.ltb. rewrite Qclt_alt.
  destruct (x ?= y)%Qc; split; congruence.
Qed.

Lemma leb_le (x y : Qc) : Float.leb x y = true <-> (x <= y)%Qc.
Proof.
  unfold Float.leb. rewrite negb_true_iff. split.
  - intros H. apply Qcnot_lt_le. intros Hlt.
    apply ltb_lt in Hlt. congruence.
  - intros H. destruct (Float.ltb y x) eqn:E; [|reflexivity].
    apply ltb_lt in E. exfalso. exact (Qcle_not_lt _ _ H E).
Qed.

Lemma eqb_eq (x y : Qc) : Float.eqb x y = true <-> x = y.
Proof.
  unfold Float.eqb. rewrite Qeq_bool_iff. split.
  - apply Qc_is_canon.
  - intros ->. reflexivity.
Qed.

Lemma in_py_set (x : Qc) (l : list Qc) : In x (py_set l) <-> In x l.
Proof.
  induction l as [|a l IH]; simpl; [tauto|].
  destruct (existsb (Float.eqb a) l) eqn:E.
  - rewrite IH. split; [tauto|]. intros [->|H]; [|exact H].
    apply existsb_exists in E. destruct E as [z [Hz Ez]].
    apply eqb_eq in Ez. subst z. exact Hz.
  - simpl. rewrite IH. tauto.
Qed.

Lemma NoDup_py_set (l : list Qc) : NoDup (py_set l).
Proof.
  induction l as [|a l IH]; simpl; [constructor|].
  destruct (existsb (Float.eqb a) l) eqn:E; [exact IH|].
  constructor; [|exact IH].
  rewrite in_py_set. intros Hin.
  assert (existsb (Float.eqb a) l = true) as E'.
  { apply existsb_exists. exists a. split; [exact Hin|]. now apply eqb_eq. }
  congruence.
Qed.

Lemma in_insert (x a : Qc) (l : list Qc) : In x (insert a l) <-> x = a \/ In x l.
Proof.
  induction l as [|b l IH]; simpl.
  - split; intros [H|H]; auto; contradiction.
  - destruct (Float.leb a b); simpl.
    + split; intros [H|H]; auto.
    + rewrite IH. split; intros H; intuition auto.
Qed.

Lemma in_sorted (x : Qc) (l : list Qc) : In x (sorted l) <-> In x l.
Proof.
  induction l as [|a l IH]; simpl; [tauto|].
  rewrite in_insert, IH. split; intros [H|H]; auto.
Qed.

Lemma length_insert (a : Qc) (l : list Qc) : length (insert a l) = S (length l).
Proof.
  induction l as [|b l IH]; simpl; [reflexivity|].
  destruct (Float.leb a b); simpl; congruence.
Qed.

Lemma length_sorted (l : list Qc) : length (sorted l) = length l.
Proof.
  induction l as [|a l IH]; simpl; [reflexivity|].
  now rewrite length_insert, IH.
Qed.

Lemma increasing_insert (a : Qc) (l : list Qc) :
  increasing l -> ~ In a l -> increasing (insert a l).
Proof.
  unfold increasing. induction l as [|b l IH]; simpl; intros Hs Hn.
  - constructor; constructor.
  - inversion Hs as [|? ? Hs' Hall]; subst.
    destruct (Float.leb a b) eqn:E.
    + apply leb_le in E.
      assert (a < b)%Qc as Hab.
      { destruct (Qcle_lt_or_eq _ _ E) as [H|H]; [exact H|].
        exfalso. apply Hn. now left. }
      constructor; [exact Hs|].
      constructor; [exact Hab|].
      eapply Forall_impl; [|exact Hall].
      intros c Hc. eapply Qclt_trans; eauto.
    + assert (b < a)%Qc as Hba.
      { apply Qcnot_le_lt. intros H. apply leb_le in H. congruence. }
      constructor.
      * apply IH; [exact Hs'|]. intros H. apply Hn. now right.
      * apply Forall_forall. intros c Hc. apply in_insert in Hc.
        destruct Hc as [->|Hc]; [exact Hba|].
        rewrite Forall_forall in Hall. now apply Hall.
Qed.

Lemma increasing_sorted (l : list Qc) : NoDup l -> increasing (sorted l).
Proof.
  induction 1 as [|a l Hn Hd IH]; simpl.
  - constructor.
  - apply increasing_insert; [exact IH|]. now rewrite in_sorted.
Qed.

(** Two strictly increasing lists with the same elements are the same list. *)
Lemma increasing_unique (l1 l2 : list Qc) :
  increasing l1 -> increasing l2 ->
  (forall x, In x l1 <-> In x l2) -> l1 = l2.
Proof.
  unfold increasing. revert l2.
  induction l1 as [|a l1 IH]; intros l2 H1 H2 Heq.
  - destruct l2 as [|b l2]; [reflexivity|].
    exfalso. apply (proj2 (Heq b)). now left.
  - destruct l2 as [|b l2].
    + exfalso. apply (proj1 (Heq a)). now left.
    + inversion H1 as [|? ? H1' A1]; subst.
      inversion H2 as [|? ? H2' A2]; subst.
      rewrite Forall_forall in A1, A2.
      assert (a = b) as ->.
      { destruct (proj1 (Heq a) (or_introl eq_refl)) as [E|Hin]; [now symmetry|].
        destruct (proj2 (Heq b) (or_introl eq_refl)) as [E|Hin']; [exact E|].
        exfalso. apply A2 in Hin. apply A1 in Hin'.
        exact (Qclt_not_le _ _ Hin (Qclt_le_weak _ _ Hin')). }
      f_equal. apply IH; auto.
      intros x. split; intros Hx.
      * destruct (proj1 (Heq x) (or_intror Hx)) as [E|Hin]; [|exact Hin].
        subst x. apply A1 in Hx. exfalso.
        exact (Qclt_not_eq _ _ Hx eq_refl).
      * destruct (proj2 (Heq x) (or_intror Hx)) as [E|Hin]; [|exact Hin].
        subst x. apply A2 in Hx. exfalso.
        exact (Qclt_not_eq _ _ Hx eq_refl).
Qed.

(** [sorted(set(xs))] depends only on the set of values of [xs]. *)
Lemma sorted_set_ext (l1 l2 : list Qc) :
  (forall x, In x l1 <-> In x l2) ->
  sorted (py_set l1) = sorted (py_set l2).
Proof.
  intros H. apply increasing_unique.
  - apply increasing_sorted, NoDup_py_set.
  - apply increasing_sorted, NoDup_py_set.
  - intros x. rewrite !in_sorted, !in_py_set. apply H.
Qed.

(* ------------------------------------------------------------------ *)
(** ** Hierarchy classification *)

Module HierarchyFacts.
Import Hierarchy.

Lemma len_nonneg {A} (l : list A) : (0 <= len l)%Z.
Proof. unfold len. lia. Qed.

Lemma from_end_last (l : list Qc) : from_end l 1 = last l (Float.of_Z 0).
Proof.
  unfold from_end. induction l as [|a l IH]; [reflexivity|].
  destruct l as [|b l]; [reflexivity|].
  change (last (a :: b :: l) (Float.of_Z 0)) with (last (b :: l) (Float.of_Z 0)).
  rewrite <- IH. simpl. now rewrite Nat.sub_0_r.
Qed.

Lemma first_within_bounds (x : Qc) (l : list Qc) :
  forall i j, first_within x i l = Some j -> (i <= j < i + len l)%Z.
Proof.
  unfold len. induction l as [|a l IH]; simpl; intros i j H; [discriminate|].
  destruct (Float.ltb (Float.dist x a) 10%Z).
  - inversion H; subst. lia.
  - apply IH in H. lia.
Qed.

Lemma first_within_shift (x : Qc) (l : list Qc) :
  forall i, first_within x i l =
            option_map (fun j => (j + i)%Z) (first_within x 0 l).
Proof.
  induction l as [|a l IH]; simpl; intros i; [reflexivity|].
  destruct (Float.ltb (Float.dist x a) 10%Z); [reflexivity|].
  rewrite (IH (i + 1)%Z), (IH 1%Z).
  destruct (first_within x 0 l); simpl; [f_equal; lia|reflexivity].
Qed.

Lemma first_within_none (x : Qc) (l : list Qc) (i : Z) :
  first_within x i l = None <->
  (forall t, In t l -> ~ (Float.dist x t < 10%Z)%Qc).
Proof.
  revert i. induction l as [|a l IH]; simpl; intros i.
  - split; [intros _ t []|reflexivity].
  - destruct (Float.ltb (Float.dist x a) 10%Z) eqn:E.
    + split; [discriminate|]. intros H. exfalso.
      apply (H a); [now left|]. now apply ltb_lt.
    + rewrite IH. split.
      * intros H t [->|Ht]; [|now apply H].
        intros Hlt. apply ltb_lt in Hlt. congruence.
      * intros H t Ht. apply H. now right.
Qed.

(** [_get_indent_level] does not raise on a non-empty tier list, and its
    result is an index or the tier count. *)
Lemma get_indent_level_ok (x : Qc) (l : list Qc) :
  l <> [] ->
  exists k, _get_indent_level x l = Ok k /\ (0 <= k <= len l)%Z.
Proof.
  intros Hne. unfold _get_indent_level.
  destruct (first_within x 0 l) as [j|] eqn:E.
  - exists j. split; [reflexivity|]. apply first_within_bounds in E. lia.
  - destruct l as [|a l]; [congruence|].
    eexists. split; [reflexivity|].
    pose proof (len_nonneg (a :: l)).
    destruct (Float.ltb _ _); lia.
Qed.

Lemma fold_grow_nonempty (rest : list Qc) :
  forall acc, acc <> [] -> fold_left grow_levels rest acc <> [].
Proof.
  induction rest as [|r rest IH]; simpl; intros acc H; [exact H|].
  apply IH. unfold grow_levels.
  destruct (Float.ltb _ _); [|exact H].
  destruct acc; simpl; discriminate.
Qed.

Lemma get_indent_levels_nonempty (l : list Qc) :
  l <> [] -> _get_indent_levels l <> [].
Proof.
  destruct l as [|a l]; [congruence|]. intros _. simpl.
  pose proof (@fold_grow_nonempty l [a]) as H.
  destruct (fold_left grow_levels l [a]) as [|b t].
  - exfalso. apply H; [discriminate|reflexivity].
  - simpl. discriminate.
Qed.

Lemma get_indent_levels_length (l : list Qc) :
  (len (_get_indent_levels l) <= 4)%Z.
Proof.
  unfold len, _get_indent_levels. destruct l as [|a l]; [simpl; lia|].
  rewrite length_firstn. lia.
Qed.

Lemma indentations_nonempty (blocks : list Block) :
  blocks <> [] -> indentations_of blocks <> [].
Proof.
  destruct blocks as [|b bs]; [congruence|]. intros _ H.
  assert (In (indentation b) (indentations_of (b :: bs))) as Hin.
  { unfold indentations_of. rewrite in_sorted, in_py_set. now left. }
  rewrite H in Hin. exact Hin.
Qed.

Lemma size_level_range (fs : list Qc) (s : Qc) :
  (1 <= size_level fs s <= 4)%Z.
Proof.
  unfold size_level.
  repeat match goal with
         | |- context [if ?c then _ else _] => destruct c
         end; lia.
Qed.

Lemma indent_adjust_range (level il : Z) :
  (1 <= level <= 4)%Z -> (0 <= il)%Z ->
  (1 <= indent_adjust level il <= 4)%Z.
Proof.
  unfold indent_adjust. intros H1 H2.
  destruct (0 <? il)%Z eqn:E; lia.
Qed.

Lemma bold_adjust_range (level : Z) (bold : bool) :
  (1 <= level <= 4)%Z -> (1 <= bold_adjust level bold <= 4)%Z.
Proof.
  unfold bold_adjust. intros H.
  destruct bold; simpl; [|lia].
  destruct (1 <? level)%Z eqn:E; [apply Z.ltb_lt in E|]; lia.
Qed.

Lemma block_level_range (fs tiers : list Qc) (b : Block) :
  tiers <> [] ->
  exists l, block_level fs tiers b = Ok l /\ (1 <= l <= 4)%Z.
Proof.
  intros Hne. unfold block_level.
  destruct (get_indent_level_ok (indentation b) Hne) as [k [-> Hk]].
  simpl. eexists. split; [reflexivity|].
  apply bold_adjust_range, indent_adjust_range; [|lia].
  apply size_level_range.
Qed.

Lemma mapM_ok {A B} (f : A -> Exc B) (P : A -> B -> Prop) (xs : list A) :
  (forall x, In x xs -> exists y, f x = Ok y /\ P x y) ->
  exists ys, mapM f xs = Ok ys /\ Forall2 P xs ys.
Proof.
  induction xs as [|x xs IH]; simpl; intros H.
  - exists []. split; [reflexivity|constructor].
  - destruct (H x (or_introl eq_refl)) as [y [-> Hy]].
    destruct IH as [ys [-> Hys]]; [intros z Hz; apply H; now right|].
    simpl. exists (y :: ys). split; [reflexivity|now constructor].
Qed.

(** The pass written as one per-block function applied to every block. *)
Lemma analyze_hierarchy_unfold (blocks : list Block) :
  _analyze_hierarchy blocks =
  mapM (classify (font_sizes_of blocks)
                 (_get_indent_levels (indentations_of blocks))) blocks.
Proof. destruct blocks; reflexivity. Qed.

Lemma analyze_hierarchy_levels (blocks : list Block) :
  exists out,
    _analyze_hierarchy blocks = Ok out /\
    Forall2 (fun b b' =>
               exists l, block_level (font_sizes_of blocks)
                           (_get_indent_levels (indentations_of blocks)) b
                         = Ok l /\
                         b' = set_hierarchy_level b l /\ (1 <= l <= 4)%Z)
            blocks out.
Proof.
  rewrite analyze_hierarchy_unfold.
  apply mapM_ok. intros b Hb. unfold classify.
  destruct (@block_level_range (font_sizes_of blocks)
              (_get_indent_levels (indentations_of blocks)) b)
    as [l [El Hl]].
  - apply get_indent_levels_nonempty, indentations_nonempty.
    intros ->. exact Hb.
  - rewrite El. simpl. eexists. split; [reflexivity|].
    exists l. auto.
Qed.

End HierarchyFacts.

Module OrderFacts.
Import Hierarchy HierarchyFacts.

Lemma analyze_hierarchy_map (blocks : list Block) :
  _analyze_hierarchy blocks =
  Ok (map (relevel (font_sizes_of blocks) (tiers_of blocks)) blocks).
Proof.
  destruct (analyze_hierarchy_levels blocks) as [out [-> H]].
  f_equal. unfold tiers_of.
  revert H. generalize (font_sizes_of blocks).
  generalize (_get_indent_levels (indentations_of blocks)).
  intros tiers fs H.
  induction H as [|b b' bs out' [l [El [-> _]]] _ IH]; [reflexivity|].
  simpl. unfold relevel at 1, classify. rewrite El. simpl. now f_equal.
Qed.

Lemma relevel_cases (fs tiers : list Qc) (b : Block) :
  relevel fs tiers b = b \/
  exists l, block_level fs tiers b = Ok l /\
            relevel fs tiers b = set_hierarchy_level b l.
Proof.
  unfold relevel, classify.
  destruct (block_level fs tiers b) as [l|e]; simpl; eauto.
Qed.

Lemma relevel_font_size fs tiers b :
  font_size (relevel fs tiers b) = font_size b.
Proof. destruct (relevel_cases fs tiers b) as [->|[l [_ ->]]]; reflexivity. Qed.

Lemma relevel_indentation fs tiers b :
  indentation (relevel fs tiers b) = indentation b.
Proof. destruct (relevel_cases fs tiers b) as [->|[l [_ ->]]]; reflexivity. Qed.

Lemma relevel_is_bold fs tiers b :
  is_bold (relevel fs tiers b) = is_bold b.
Proof. destruct (relevel_cases fs tiers b) as [->|[l [_ ->]]]; reflexivity. Qed.

(** The level of a block does not read its [hierarchy_level] key. *)
Lemma block_level_attrs fs tiers b b' :
  font_size b' = font_size b -> indentation b' = indentation b ->
  is_bold b' = is_bold b ->
  block_level fs tiers b' = block_level fs tiers b.
Proof. unfold block_level. now intros -> -> ->. Qed.

Lemma relevel_idem fs tiers b :
  relevel fs tiers (relevel fs tiers b) = relevel fs tiers b.
Proof.
  unfold relevel at 1, classify.
  rewrite (@block_level_attrs fs tiers b (relevel fs tiers b))
    by (auto using relevel_font_size, relevel_indentation, relevel_is_bold).
  destruct (relevel_cases fs tiers b) as [E|[l [El E]]].
  - unfold relevel, classify in *.
    destruct (block_level fs tiers b) as [l|e]; simpl in *; [|reflexivity].
    rewrite E at 1. reflexivity.
  - rewrite El, E. reflexivity.
Qed.

Lemma in_positive_sizes (blocks : list Block) (s : Qc) :
  In s (map font_size (filter (fun b => Float.ltb 0%Z (font_size b)) blocks))
  <-> Float.ltb 0%Z s = true /\ In s (map font_size blocks).
Proof.
  rewrite !in_map_iff. split.
  - intros [b [<- Hb]]. apply filter_In in Hb. destruct Hb as [Hb Hp].
    split; [exact Hp|]. now exists b.
  - intros [Hp [b [<- Hb]]]. exists b. split; [reflexivity|].
    apply filter_In. now split.
Qed.

Lemma font_sizes_of_ext (blocks blocks' : list Block) :
  (forall s, In s (map font_size blocks) <-> In s (map font_size blocks')) ->
  font_sizes_of blocks = font_sizes_of blocks'.
Proof.
  intros H. unfold font_sizes_of. apply sorted_set_ext.
  intros s. rewrite !in_positive_sizes, H. tauto.
Qed.

Lemma tiers_of_ext (blocks blocks' : list Block) :
  (forall s, In s (map indentation blocks) <-> In s (map indentation blocks')) ->
  tiers_of blocks = tiers_of blocks'.
Proof.
  intros H. unfold tiers_of, indentations_of. f_equal.
  now apply sorted_set_ext.
Qed.

Lemma map_attr_relevel {A} (attr : Block -> A) fs tiers blocks :
  (forall b, attr (relevel fs tiers b) = attr b) ->
  map attr (map (relevel fs tiers) blocks) = map attr blocks.
Proof.
  intros H. rewrite map_map. apply map_ext. exact H.
Qed.

Lemma perm_in_map {A} (attr : Block -> A) (blocks blocks' : list Block) :
  Permutation blocks blocks' ->
  forall s, In s (map attr blocks) <-> In s (map attr blocks').
Proof.
  intros P s. pose proof (Permutation_map attr P) as Pm.
  split; apply Permutation_in; [exact Pm|now apply Permutation_sym].
Qed.

End OrderFacts.

(* ------------------------------------------------------------------ *)
(** ** Claims on the hierarchy classifier *)

(** A document without any positive font size, and one with a single
    size: the levels stay between 1 and 4. *)
Example levels_without_font_size :
  Hierarchy.levels
    (Hierarchy._analyze_hierarchy
       [sample_block (Float.of_Z 0) (Float.of_Z 0) true;
        sample_block (Float.of_Z 0) (Float.of_Z 40) false;
        sample_block (Float.of_Z 0) (Float.of_Z 80) true])
  = Some [Some 3%Z; Some 4%Z; Some 3%Z].
Proof. reflexivity. Qed.

Example levels_with_one_font_size :
  Hierarchy.levels
    (Hierarchy._analyze_hierarchy
       [sample_block (Float.of_Z 12) (Float.of_Z 0) true;
        sample_block (Float.of_Z 12) (Float.of_Z 0) false;
        sample_block (Float.of_Z 12) (Float.of_Z 30) false;
        sample_block (Float.of_Z 12) (Float.of_Z 60) false;
        sample_block (Float.of_Z 12) (Float.of_Z 90) true;
        sample_block (Float.of_Z 12) (Float.of_Z 120) false])
  = Some [Some 1%Z; Some 1%Z; Some 2%Z; Some 3%Z; Some 3%Z; Some 4%Z].
Proof. reflexivity. Qed.



(** C6, as stated, fails: with the tiers 0 and 16 built from the
    indentations 0, 9, 16, the value 9 is within 10 units of both; the code
    answers 0 (distance 9), the nearest tier is index 1 (distance 7). *)
Lemma C6_nearest_counterexample :
  tiers_0_9_16 <> [] /\
  Hierarchy._get_indent_level (Float.of_Z 9) tiers_0_9_16 = Ok 0%Z /\
  Hierarchy.spec_indent_level (Float.of_Z 9) tiers_0_9_16 = 1%Z /\
  Hierarchy._get_indent_level (Float.of_Z 9) tiers_0_9_16
    <> Ok (Hierarchy.spec_indent_level (Float.of_Z 9) tiers_0_9_16).
Proof.
  repeat split; try (vm_compute; congruence).
Qed.

Lemma first_within_some (x : Qc) (l : list Qc) :
  forall k j, Hierarchy.first_within x k l = Some j ->
    exists i t, j = (k + Z.of_nat i)%Z /\ nth_error l i = Some t /\
                (Float.dist x t < 10%Z)%Qc /\
                (forall i' t', (i' < i)%nat -> nth_error l i' = Some t' ->
                               ~ (Float.dist x t' < 10%Z)%Qc).
Proof.
  induction l as [|a l IH]; simpl; intros k j H; [discriminate|].
  destruct (Float.ltb (Float.dist x a) 10%Z) eqn:E.
  - inversion H; subst. exists 0%nat, a. repeat split.
    + lia.
    + now apply ltb_lt.
    + intros i' t' Hi. lia.
  - apply IH in H. destruct H as [i [t [-> [Hn [Hd Hmin]]]]].
    exists (S i), t. repeat split.
    + lia.
    + exact Hn.
    + exact Hd.
    + intros [|i'] t' Hi Hn'; simpl in Hn'.
      * inversion Hn'; subst. intros Hlt. apply ltb_lt in Hlt. congruence.
      * apply (Hmin i' t'); [lia|exact Hn'].
Qed.

(** C6 (amended). On a non-empty tier list [_get_indent_level] returns the
    index of the first tier representative whose distance to [x] is below
    10; when no representative is that close it returns the tier count if
    [x] exceeds the last representative and 0 otherwise. *)
Theorem C6_indent_level_first_within (x : Qc) (levels : list Qc) :
  levels <> [] ->
  exists r,
    Hierarchy._get_indent_level x levels = Ok r /\
    ((exists i t,
         r = Z.of_nat i /\ nth_error levels i = Some t /\
         (Float.dist x t < 10%Z)%Qc /\
         (forall i' t', (i' < i)%nat -> nth_error levels i' = Some t' ->
                        ~ (Float.dist x t' < 10%Z)%Qc))
     \/
     ((forall t, In t levels -> ~ (Float.dist x t < 10%Z)%Qc) /\
      ((last levels (Float.of_Z 0) < x)%Qc -> r = len levels) /\
      (~ (last levels (Float.of_Z 0) < x)%Qc -> r = 0%Z))).
Proof.
  intros Hne. unfold Hierarchy._get_indent_level.
  destruct (Hierarchy.first_within x 0 levels) as [j|] eqn:E.
  - exists j. split; [reflexivity|]. left.
    apply first_within_some in E. destruct E as [i [t [-> H]]].
    exists i, t. split; [lia|exact H].
  - destruct levels as [|a l]; [congruence|].
    eexists. split; [reflexivity|]. right.
    split; [now apply (HierarchyFacts.first_within_none x (a :: l) 0)|].
    rewrite HierarchyFacts.from_end_last.
    destruct (Float.ltb (last (a :: l) (Float.of_Z 0)) x) eqn:L.
    + split; [reflexivity|]. intros H. apply ltb_lt in L. contradiction.
    + split; [|reflexivity]. intros H. apply ltb_lt in H. congruence.
Qed.

(** The theorem at the value 9 and the tiers 0 and 16. *)
Lemma C6_indent_level_first_within_witness :
  exists r,
    Hierarchy._get_indent_level (Float.of_Z 9) tiers_0_9_16 = Ok r /\
    ((exists i t,
         r = Z.of_nat i /\ nth_error tiers_0_9_16 i = Some t /\
         (Float.dist (Float.of_Z 9) t < 10%Z)%Qc /\
         (forall i' t', (i' < i)%nat -> nth_error tiers_0_9_16 i' = Some t' ->
                        ~ (Float.dist (Float.of_Z 9) t' < 10%Z)%Qc))
     \/
     ((forall t, In t tiers_0_9_16 ->
                 ~ (Float.dist (Float.of_Z 9) t < 10%Z)%Qc) /\
      ((last tiers_0_9_16 (Float.of_Z 0) < Float.of_Z 9)%Qc ->
       r = len tiers_0_9_16) /\
      (~ (last tiers_0_9_16 (Float.of_Z 0) < Float.of_Z 9)%Qc -> r = 0%Z))).
Proof.
  apply (@C6_indent_level_first_within (Float.of_Z 9) tiers_0_9_16).
  vm_compute. discriminate.
Defined.

(** C7. The classifier is reproducible and independent of the order of the
    blocks: running it again on its own output changes nothing; the level
    of a block is a function of the block, of the set of font sizes and of
    the set of indentations of the document; and on a permuted list every
    block is rewritten by the same per-block function. *)
Theorem C7_classification_order_independent :
  (forall blocks : list Block,
      exists out,
        Hierarchy._analyze_hierarchy blocks = Ok out /\
        Hierarchy._analyze_hierarchy out = Ok out) /\
  (forall (blocks blocks' : list Block) (b : Block),
      (forall s, In s (map font_size blocks) <->
                 In s (map font_size blocks')) ->
      (forall s, In s (map indentation blocks) <->
                 In s (map indentation blocks')) ->
      Hierarchy.block_level (Hierarchy.font_sizes_of blocks)
                            (Hierarchy.tiers_of blocks) b =
      Hierarchy.block_level (Hierarchy.font_sizes_of blocks')
                            (Hierarchy.tiers_of blocks') b) /\
  (forall blocks blocks' : list Block,
      Permutation blocks blocks' ->
      exists g : Block -> Block,
        Hierarchy._analyze_hierarchy blocks = Ok (map g blocks) /\
        Hierarchy._analyze_hierarchy blocks' = Ok (map g blocks') /\
        (forall b, In b blocks ->
                   exists l, Hierarchy.block_level
                               (Hierarchy.font_sizes_of blocks)
                               (Hierarchy.tiers_of blocks) b = Ok l /\
                             g b = set_hierarchy_level b l)).
Proof.
  split; [|split].
  - intros blocks. eexists. split; [apply OrderFacts.analyze_hierarchy_map|].
    set (fs := Hierarchy.font_sizes_of blocks).
    set (ts := Hierarchy.tiers_of blocks).
    rewrite OrderFacts.analyze_hierarchy_map.
    assert (Hierarchy.font_sizes_of (map (Hierarchy.relevel fs ts) blocks) = fs)
      as ->.
    { apply OrderFacts.font_sizes_of_ext. intros s.
      rewrite OrderFacts.map_attr_relevel;
        [tauto|apply OrderFacts.relevel_font_size]. }
    assert (Hierarchy.tiers_of (map (Hierarchy.relevel fs ts) blocks) = ts)
      as ->.
    { apply OrderFacts.tiers_of_ext. intros s.
      rewrite OrderFacts.map_attr_relevel;
        [tauto|apply OrderFacts.relevel_indentation]. }
    f_equal. rewrite map_map. apply map_ext.
    intros b. apply OrderFacts.relevel_idem.
  - intros blocks blocks' b Hs Hi.
    now rewrite (OrderFacts.font_sizes_of_ext _ _ Hs),
                (OrderFacts.tiers_of_ext _ _ Hi).
  - intros blocks blocks' P.
    exists (Hierarchy.relevel (Hierarchy.font_sizes_of blocks)
                               (Hierarchy.tiers_of blocks)).
    split; [apply OrderFacts.analyze_hierarchy_map|]. split.
    + rewrite OrderFacts.analyze_hierarchy_map.
      rewrite (@OrderFacts.font_sizes_of_ext blocks blocks')
        by (apply OrderFacts.perm_in_map, P).
      rewrite (@OrderFacts.tiers_of_ext blocks blocks')
        by (apply OrderFacts.perm_in_map, P).
      reflexivity.
    + intros b Hb.
      destruct (@HierarchyFacts.block_level_range
                  (Hierarchy.font_sizes_of blocks)
                  (Hierarchy.tiers_of blocks) b) as [l [El _]].
      { apply HierarchyFacts.get_indent_levels_nonempty,
              HierarchyFacts.indentations_nonempty.
        intros ->. exact Hb. }
      exists l. split; [exact El|].
      unfold Hierarchy.relevel, Hierarchy.classify. now rewrite El.
Qed.

(** The theorem at a heading and a body line, in both orders. *)
Lemma C7_classification_order_independent_witness :
  Hierarchy.block_level
    (Hierarchy.font_sizes_of [heading_block; body_block])
    (Hierarchy.tiers_of [heading_block; body_block]) heading_block
  = Hierarchy.block_level
      (Hierarchy.font_sizes_of [body_block; heading_block; body_block])
      (Hierarchy.tiers_of [body_block; heading_block; body_block])
      heading_block /\
  exists g : Block -> Block,
    Hierarchy._analyze_hierarchy [heading_block; body_block]
    = Ok (map g [heading_block; body_block]) /\
    Hierarchy._analyze_hierarchy [body_block; heading_block]
    = Ok (map g [body_block; heading_block]) /\
    (forall b, In b [heading_block; body_block] ->
               exists l, Hierarchy.block_level
                           (Hierarchy.font_sizes_of
                              [heading_block; body_block])
                           (Hierarchy.tiers_of [heading_block; body_block]) b
                         = Ok l /\
                         g b = set_hierarchy_level b l).
Proof.
  split.
  - apply (proj1 (proj2 C7_classification_order_independent)
                 [heading_block; body_block]
                 [body_block; heading_block; body_block] heading_block);
      intros s; simpl; tauto.
  - apply (proj2 (proj2 C7_classification_order_independent)
                 [heading_block; body_block] [body_block; heading_block]).
    apply perm_swap.
Defined.

(* ------------------------------------------------------------------ *)
(** ** Code / label association *)

Module AssociationFacts.
Import Association.

(** The scan stops at the first candidate that passes the label
    predicate and lies on the same or on the next row. *)
Lemma scan_candidates_find (block : Block) (candidates : list Block) :
  scan_candidates block candidates =
  match find (qualifies block) candidates with
  | Some c =>
      set_occupation block (text c)
        (if same_row block c then conf_same_row else conf_next_row)
  | None => block
  end.
Proof.
  induction candidates as [|c rest IH]; simpl; [reflexivity|].
  unfold qualifies at 1.
  destruct (same_row block c) eqn:S, (_is_occupation_name (text c)) eqn:L,
           (next_row block c) eqn:X; simpl; rewrite ?S; auto.
Qed.

Lemma match_occupation_info_nth (blocks : list Block) :
  forall (i : nat) (block : Block),
    nth_error blocks i = Some block ->
    nth_error (_match_occupation_info blocks) i
    = Some (if has_code block
            then scan_candidates block (firstn 4 (skipn (S i) blocks))
            else block).
Proof.
  induction blocks as [|b rest IH]; intros [|i] block H;
    try discriminate.
  - simpl in H. inversion H; subst. reflexivity.
  - simpl in H. simpl nth_error. rewrite (IH i block H). reflexivity.
Qed.

Lemma match_occupation_info_length (blocks : list Block) :
  length (_match_occupation_info blocks)
  = length blocks.
Proof. induction blocks; simpl; congruence. Qed.

End AssociationFacts.

(** C3, as stated, fails: a coded block at y = 100 of height 10 is followed
    by a label on the next row (y = 112) and then by a label on its own row
    (y = 105).  A same-row candidate passing the label predicate exists
    among the next four blocks, yet the code takes the next-row label, met
    first, with confidence 0.7. *)
Lemma C3_same_row_priority_counterexample :
  In label_beside (firstn 4 (skipn 1 rows_example)) /\
  Association.has_code coded_row = true /\
  Association.same_row coded_row label_beside = true /\
  Association._is_occupation_name (text label_beside) = true /\
  Association.spec_association coded_row (firstn 4 (skipn 1 rows_example))
    = Some (label_technician, Association.conf_same_row) /\
  map (fun b => (occupation_name b, confidence b))
      (Association._match_occupation_info rows_example)
    = [(Some label_engineer, Some Association.conf_next_row);
       (None, None); (None, None)] /\
  Association.conf_next_row <> Association.conf_same_row.
Proof.
  repeat split; try reflexivity.
  - right. left. reflexivity.
  - intros H. apply (f_equal this) in H. vm_compute in H. discriminate.
Qed.

(** C3 (amended). For every block [i] carrying a code, the blocks
    [i+1 .. i+4] are scanned once, in order; the first one that passes the
    label predicate and lies on the same row or on the next row gives its
    text as [occupation_name], with confidence exactly 0.9 when it is on
    the same row and exactly 0.7 otherwise; when none qualifies the block
    is left as it was.  Blocks without a code are never changed. *)
Theorem C3_association_first_qualifying
        (blocks : list Block) (i : nat) (block : Block) :
  nth_error blocks i = Some block ->
  nth_error
    (Association._match_occupation_info blocks) i
  = Some
      (if Association.has_code block then
         match find (Association.qualifies block)
                    (firstn 4 (skipn (S i) blocks)) with
         | Some c =>
             set_occupation block (text c)
               (if Association.same_row block c
                then Association.conf_same_row
                else Association.conf_next_row)
         | None => block
         end
       else block).
Proof.
  intros H.
  rewrite (AssociationFacts.match_occupation_info_nth
             blocks i H).
  now rewrite AssociationFacts.scan_candidates_find.
Qed.

(** The theorem at the coded block of [rows_example]. *)
Lemma C3_association_first_qualifying_witness :
  nth_error
    (Association._match_occupation_info rows_example) 0
  = Some (set_occupation coded_row label_engineer Association.conf_next_row).
Proof.
  exact (@C3_association_first_qualifying rows_example 0 coded_row eq_refl).
Defined.

(* ------------------------------------------------------------------ *)
(** ** The table heuristic *)

Module LayoutFacts.
Import Layout.

Lemma eqb_refl (k : Qc) : Float.eqb k k = true.
Proof. now apply eqb_eq. Qed.

Lemma eqb_sym (a b : Qc) : Float.eqb a b = Float.eqb b a.
Proof.
  destruct (Float.eqb a b) eqn:E1, (Float.eqb b a) eqn:E2; auto.
  - apply eqb_eq in E1. subst. rewrite eqb_refl in E2. discriminate.
  - apply eqb_eq in E2. subst. rewrite eqb_refl in E1. discriminate.
Qed.

Lemma lookup_counter_add (k k' : Qc) (c : list (Qc * Z)) :
  lookup k (counter_add k' c) =
  (lookup k c + if Float.eqb k k' then 1 else 0)%Z.
Proof.
  induction c as [|[a n] c IH]; simpl.
  - destruct (Float.eqb k k'); reflexivity.
  - destruct (Float.eqb k' a) eqn:E; simpl.
    + apply eqb_eq in E. subst a.
      destruct (Float.eqb k k'); lia.
    + destruct (Float.eqb k a) eqn:E2; [|exact IH].
      apply eqb_eq in E2. subst a.
      rewrite eqb_sym, E. lia.
Qed.

Lemma lookup_fold (k : Qc) (keys : list Qc) :
  forall c, lookup k (fold_left (fun c k => counter_add k c) keys c)
            = (lookup k c + occurrences k keys)%Z.
Proof.
  unfold occurrences, len.
  induction keys as [|a keys IH]; intros c; simpl; [lia|].
  rewrite IH, lookup_counter_add.
  destruct (Float.eqb k a); simpl length; lia.
Qed.

Lemma lookup_Counter (k : Qc) (keys : list Qc) :
  lookup k (Counter keys) = occurrences k keys.
Proof. unfold Counter. now rewrite lookup_fold. Qed.

Lemma keys_counter_add (k a : Qc) (c : list (Qc * Z)) :
  In a (map fst (counter_add k c)) <-> a = k \/ In a (map fst c).
Proof.
  induction c as [|[b n] c IH]; simpl.
  - intuition auto.
  - destruct (Float.eqb k b) eqn:E; simpl.
    + apply eqb_eq in E. subst b. intuition auto.
    + rewrite IH. intuition auto.
Qed.

Lemma NoDup_counter_add (k : Qc) (c : list (Qc * Z)) :
  NoDup (map fst c) -> NoDup (map fst (counter_add k c)).
Proof.
  induction c as [|[b n] c IH]; simpl; intros H.
  - constructor; [intros []|constructor].
  - inversion H as [|? ? Hn Hd]; subst.
    destruct (Float.eqb k b) eqn:E; simpl.
    + constructor; assumption.
    + constructor; [|now apply IH].
      rewrite keys_counter_add. intros [->|Hin]; [|contradiction].
      rewrite eqb_refl in E. discriminate.
Qed.

Lemma NoDup_Counter (keys : list Qc) : NoDup (map fst (Counter keys)).
Proof.
  unfold Counter.
  assert (forall c, NoDup (map fst c) ->
                    NoDup (map fst (fold_left (fun c k => counter_add k c)
                                              keys c))) as H.
  { induction keys as [|a keys IH]; intros c Hc; simpl; [exact Hc|].
    apply IH, NoDup_counter_add, Hc. }
  apply H. constructor.
Qed.

Lemma NoDup_well_formed (c : list (Qc * Z)) :
  NoDup (map fst c) -> well_formed c.
Proof.
  unfold well_formed.
  induction c as [|[a m] c IH]; simpl; intros H k n Hin; [contradiction|].
  inversion H as [|? ? Hn Hd]; subst.
  destruct Hin as [E|Hin].
  - inversion E; subst. now rewrite eqb_refl.
  - destruct (Float.eqb k a) eqn:E; [|now apply IH].
    apply eqb_eq in E. subst a. exfalso. apply Hn.
    apply in_map_iff. exists (k, n). now split.
Qed.

Lemma lookup_in (k : Qc) (c : list (Qc * Z)) :
  lookup k c <> 0%Z -> In (lookup k c) (map snd c).
Proof.
  induction c as [|[a m] c IH]; simpl; intros H; [congruence|].
  destruct (Float.eqb k a); [now left|right; now apply IH].
Qed.

Lemma occurrences_group (k : Qc) (text_blocks : list TextBlock) :
  occurrences k (map round1 (map tb_y0 text_blocks))
  = group_size k text_blocks.
Proof.
  unfold occurrences, group_size, len. f_equal.
  induction text_blocks as [|b bs IH]; simpl; [reflexivity|].
  destruct (Float.eqb k (round1 (tb_y0 b))); simpl; congruence.
Qed.

(** Some count of the counter reaches 3 exactly when some row holds at
    least three blocks. *)
Lemma some_count_ge_3 (text_blocks : list TextBlock) :
  existsb (fun count => (3 <=? count)%Z)
          (map snd (Counter (map round1 (map tb_y0 text_blocks)))) = true
  <-> exists key, (3 <= group_size key text_blocks)%Z.
Proof.
  set (keys := map round1 (map tb_y0 text_blocks)).
  rewrite existsb_exists. split.
  - intros [n [Hin Hn]]. apply Z.leb_le in Hn.
    apply in_map_iff in Hin. destruct Hin as [[k m] [E Hin]].
    simpl in E. subst m. exists k.
    rewrite <- occurrences_group. fold keys.
    rewrite <- lookup_Counter.
    now rewrite (@NoDup_well_formed _ (NoDup_Counter keys) _ _ Hin).
  - intros [k Hk]. rewrite <- occurrences_group in Hk. fold keys in Hk.
    rewrite <- lookup_Counter in Hk.
    exists (lookup k (Counter keys)). split.
    + apply lookup_in. lia.
    + now apply Z.leb_le.
Qed.

End LayoutFacts.

(** C4, as stated, fails: a page of exactly three blocks that share one
    rounded top y has a row of three blocks and reports tables = 0. *)
Lemma C4_three_blocks_counterexample :
  Layout.group_size (Float.of_Z 10) Layout.three_in_a_row = 3%Z /\
  Layout._detect_tables Layout.three_in_a_row = 0%Z.
Proof. split; reflexivity. Qed.

(** With a fourth block elsewhere on the page the same row is reported. *)
Example detect_tables_four_blocks :
  Layout._detect_tables Layout.three_in_a_row_and_one = 1%Z.
Proof. reflexivity. Qed.

(** C4 (amended). The page reports tables = 1 if and only if it has more
    than three blocks and, the top y of every block rounded to one decimal,
    some rounded value is shared by at least three blocks; it reports
    tables = 0 otherwise. *)
Theorem C4_detect_tables_iff (text_blocks : list Layout.TextBlock) :
  (Layout._detect_tables text_blocks = 1%Z <->
   (3 < len text_blocks)%Z /\
   exists key, (3 <= Layout.group_size key text_blocks)%Z) /\
  (Layout._detect_tables text_blocks = 1%Z \/
   Layout._detect_tables text_blocks = 0%Z).
Proof.
  unfold Layout._detect_tables.
  destruct (3 <? len text_blocks)%Z eqn:L.
  - apply Z.ltb_lt in L.
    pose proof (LayoutFacts.some_count_ge_3 text_blocks) as H.
    destruct (existsb _ _).
    + split; [|now left]. split; [|reflexivity].
      intros _. split; [exact L|]. now apply H.
    + split; [|now right]. split; [discriminate|].
      intros [_ Hk]. apply H in Hk. discriminate.
  - apply Z.ltb_ge in L. split; [|now right].
    split; [discriminate|]. intros [H _]. lia.
Qed.

(* ------------------------------------------------------------------ *)
(** ** Standard validation and [validate_pdf] *)

Module ProcessorFacts.
Import Fitz PDFProcessor.

Lemma stat_found (fs : FileSystem) (p : pystr) (f : File) :
  fs p = Some f -> stat fs p = Ok (Some f).
Proof. unfold stat. now intros ->. Qed.

(** [stat] answers with the file of the path, or raises the [OSError] of a
    path that names no file. *)
Lemma stat_cases (fs : FileSystem) (p : pystr) :
  match stat fs p with
  | Ok entry => fs p = entry
  | Raise e => fs p = None /\ fs_oserror fs p = Some e
  end.
Proof.
  unfold stat. destruct (fs p) as [f|]; [reflexivity|].
  destruct (fs_oserror fs p); [split|]; reflexivity.
Qed.

(** On a readable document the extracted text is the page texts joined by
    the separator of the source, a backslash followed by the letter n. *)
Lemma standard_validation_text (fs : FileSystem) (doc : Document)
      (file_path : pystr) (f : File) (texts : list pystr) :
  fs file_path = Some f ->
  page_texts doc = Ok texts ->
  exists result,
    _standard_validation fs doc file_path = Ok result /\
    r_is_valid result = true /\
    r_text result = Unicode.join Msg.backslash_n texts.
Proof.
  intros Hf Ht. unfold _standard_validation, stat_size.
  rewrite (stat_found _ _ Hf), Ht. simpl.
  eexists. split; [reflexivity|]. split; reflexivity.
Qed.

Lemma validate_file_basic_ok (settings : Settings) (fs : FileSystem)
      (file_path : pystr) :
  _validate_file_basic settings fs file_path = Ok tt ->
  exists f, fs file_path = Some f /\ f_is_file f = true /\
            f_size f <> 0%Z /\ (f_size f <= PDF_MAX_FILE_SIZE settings)%Z.
Proof.
  unfold _validate_file_basic, raise_, exists_, is_file, stat_size, stat.
  destruct (fs file_path) as [f|];
    [|destruct (fs_oserror fs file_path); discriminate].
  cbn. destruct (f_is_file f) eqn:F; cbn; [|discriminate].
  destruct (PDF_MAX_FILE_SIZE settings <? f_size f)%Z eqn:L; [discriminate|].
  destruct (f_size f =? 0)%Z eqn:Z0; [discriminate|].
  intros _. exists f. apply Z.ltb_ge in L. apply Z.eqb_neq in Z0.
  repeat split; auto.
Qed.

(** What [_validate_file_basic] raises, by what [stat] answers. *)
Lemma validate_file_basic_raises (settings : Settings) (fs : FileSystem)
      (file_path : pystr) (e : PyExc) :
  _validate_file_basic settings fs file_path = Raise e ->
  match stat fs file_path with
  | Raise e0 => e = e0
  | Ok None => exc_class e = FileNotFoundError
  | Ok (Some _) => exc_class e = PDFValidationError
  end.
Proof.
  unfold _validate_file_basic, raise_, exists_, is_file, stat_size.
  destruct (stat fs file_path) as [[f|]|e0]; cbn.
  - destruct (f_is_file f); cbn; [|now intros [= <-]].
    destruct (PDF_MAX_FILE_SIZE settings <? f_size f)%Z; [now intros [= <-]|].
    destruct (f_size f =? 0)%Z; [now intros [= <-]|discriminate].
  - now intros [= <-].
  - now intros [= <-].
Qed.

(** An [OSError] of [stat] leaves [validate_pdf]: it is raised in the
    [try] block and again in the handler. *)
Lemma validate_pdf_raises (settings : Settings) (fs : FileSystem)
      (file_path validation_type : pystr)
      (metadata : option (list (pystr * pystr))) (e : PyExc) :
  stat fs file_path = Raise e ->
  validate_pdf settings fs file_path validation_type metadata = Raise e.
Proof.
  intros H.
  unfold validate_pdf, validate_pdf_try, _validate_file_basic, exists_.
  rewrite H. reflexivity.
Qed.

(** When [stat] answers, the handler of [validate_pdf] answers with a
    failure dictionary. *)
Lemma validate_pdf_handler (settings : Settings) (fs : FileSystem)
      (file_path validation_type : pystr)
      (metadata : option (list (pystr * pystr))) (e : PyExc)
      (entry : option File) :
  stat fs file_path = Ok entry ->
  validate_pdf_try settings fs file_path validation_type = Raise e ->
  exists result,
    validate_pdf settings fs file_path validation_type metadata = Ok result /\
    r_is_valid result = false /\
    r_errors result = [Msg.pdf_processing_failed ++ exc_msg e] /\
    r_validation_type result = Some validation_type.
Proof.
  intros Hs H. unfold validate_pdf. rewrite H.
  unfold exists_, stat_size. rewrite Hs. destruct entry as [f|]; cbn;
    eexists; (split; [reflexivity|repeat split]).
Qed.

Lemma try_raises_on_failure (settings : Settings) (fs : FileSystem)
      (file_path validation_type : pystr) :
  fs file_path = None \/
  (exists f, fs file_path = Some f /\
             (f_size f = 0%Z \/ (PDF_MAX_FILE_SIZE settings < f_size f)%Z)) \/
  recognised validation_type = false \/
  (exists e, _open_pdf_document fs file_path = Raise e) ->
  exists e, validate_pdf_try settings fs file_path validation_type = Raise e.
Proof.
  intros H. unfold validate_pdf_try.
  destruct (_validate_file_basic settings fs file_path) as [[]|e0] eqn:B;
    [|eexists; reflexivity].
  apply validate_file_basic_ok in B. destruct B as [f [Hf [_ [Hz Hmax]]]].
  destruct (_open_pdf_document fs file_path) as [doc|e1] eqn:O;
    [|eexists; reflexivity].
  destruct H as [H|[[f' [Hf' [H|H]]]|[H|[e H]]]].
  - congruence.
  - rewrite Hf in Hf'. inversion Hf'; subst. contradiction.
  - rewrite Hf in Hf'. inversion Hf'; subst. lia.
  - unfold recognised in H. apply orb_false_iff in H. destruct H as [H H3].
    apply orb_false_iff in H. destruct H as [H1 H2].
    simpl. rewrite H1, H2, H3. simpl. eexists. reflexivity.
  - discriminate.
Qed.

(** [validate_pdf] returns exactly when [stat] answers for the path. *)
Lemma validate_pdf_returns (settings : Settings) (fs : FileSystem)
      (file_path validation_type : pystr)
      (metadata : option (list (pystr * pystr))) (entry : option File) :
  stat fs file_path = Ok entry ->
  exists result,
    validate_pdf settings fs file_path validation_type metadata = Ok result.
Proof.
  intros Hs.
  destruct (validate_pdf_try settings fs file_path validation_type)
    as [r|e] eqn:T.
  - exists r. unfold validate_pdf. now rewrite T.
  - destruct (validate_pdf_handler settings fs file_path validation_type
                metadata Hs T) as [r [H _]]. now exists r.
Qed.

End ProcessorFacts.

(** C5 at a two-page document whose pages read "A" and "B": the text the
    code returns is "A", a backslash, the letter n, "B"; with the line feed
    as separator it would be "A", line feed, "B". *)
Theorem C5_standard_text_separator :
  exists result,
    PDFProcessor._standard_validation (Sample.fs_with Sample.doc_A_B)
      Sample.doc_A_B Sample.local_path = Ok result /\
    PDFProcessor.r_text result = [0x41; 0x5C; 0x6E; 0x42]%N /\
    PDFProcessor.r_text result
      = Unicode.join Msg.backslash_n [ascii_str "A"; ascii_str "B"] /\
    PDFProcessor.r_text result
      <> Unicode.join Msg.newline [ascii_str "A"; ascii_str "B"].
Proof.
  eexists. split; [reflexivity|]. simpl.
  repeat split; try reflexivity. discriminate.
Qed.

(** When [stat] answers for the path, [validate_pdf] returns a result
    dictionary for every validation type and every metadata argument; when
    the file is missing, empty or larger than the limit, when the
    validation type is not one of the three known ones, or when the
    document cannot be opened, the dictionary has [is_valid = False] and a
    non-empty [errors] list. *)
Lemma validate_pdf_total_when_stat_answers
      (settings : Settings) (fs : Fitz.FileSystem)
      (file_path validation_type : pystr)
      (metadata : option (list (pystr * pystr)))
      (entry : option Fitz.File) :
  Fitz.stat fs file_path = Ok entry ->
  exists result,
    PDFProcessor.validate_pdf settings fs file_path validation_type metadata
    = Ok result /\
    (fs file_path = None \/
     (exists f, fs file_path = Some f /\
                (Fitz.f_size f = 0%Z \/
                 (PDF_MAX_FILE_SIZE settings < Fitz.f_size f)%Z)) \/
     PDFProcessor.recognised validation_type = false \/
     (exists e, PDFProcessor._open_pdf_document fs file_path = Raise e) ->
     PDFProcessor.r_is_valid result = false /\
     PDFProcessor.r_errors result <> []).
Proof.
  intros Hs.
  destruct (PDFProcessor.validate_pdf_try settings fs file_path
              validation_type) as [r|e] eqn:T.
  - exists r. split; [unfold PDFProcessor.validate_pdf; now rewrite T|].
    intros H. apply (ProcessorFacts.try_raises_on_failure settings fs
                       file_path validation_type) in H.
    destruct H as [e H]. congruence.
  - destruct (ProcessorFacts.validate_pdf_handler settings fs file_path
                validation_type metadata Hs T) as [r [H [V [E _]]]].
    exists r. split; [exact H|]. intros _. split; [exact V|].
    rewrite E. discriminate.
Qed.

(** C10. [validate_pdf] is not total.  Its [except Exception] handler
    answers every exception of the [try] block with a failure dictionary,
    but it asks [file_path_obj.exists()] while building that dictionary:
    an [OSError] of [stat] other than "not found" (an over-long path, a
    directory that cannot be searched) is raised by [_validate_file_basic]
    inside the [try] block and raised again inside the handler, so it
    leaves [validate_pdf], whatever the validation type and the metadata
    argument. *)
Theorem C10_validate_pdf_oserror_escapes
        (settings : Settings) (fs : Fitz.FileSystem)
        (file_path validation_type : pystr)
        (metadata : option (list (pystr * pystr))) (e : PyExc) :
  Fitz.stat fs file_path = Raise e ->
  PDFProcessor._validate_file_basic settings fs file_path = Raise e /\
  PDFProcessor.validate_pdf settings fs file_path validation_type metadata
  = Raise e.
Proof.
  intros H. split.
  - unfold PDFProcessor._validate_file_basic, Fitz.exists_.
    rewrite H. reflexivity.
  - now apply ProcessorFacts.validate_pdf_raises.
Qed.

(** The theorem at a path of 5000 characters, on which [stat] raises
    [OSError] (ENAMETOOLONG). *)
Lemma C10_validate_pdf_oserror_escapes_witness :
  PDFProcessor._validate_file_basic default_settings fs_name_limit long_path
  = Raise (name_too_long long_path) /\
  PDFProcessor.validate_pdf default_settings fs_name_limit long_path
    (ascii_str "standard") None
  = Raise (name_too_long long_path).
Proof.
  apply (@C10_validate_pdf_oserror_escapes default_settings fs_name_limit
           long_path (ascii_str "standard") None (name_too_long long_path)).
  vm_compute. reflexivity.
Defined.

(* ------------------------------------------------------------------ *)
(** ** The tables under the snapshot service *)

Module SnapshotFacts.
Import Fitz Store PageSnapshotService.

Lemma same_tables_refl (w : World) : same_tables w w.
Proof. repeat split. Qed.

Lemma same_tables_trans (w1 w2 w3 : World) :
  same_tables w1 w2 -> same_tables w2 w3 -> same_tables w1 w3.
Proof.
  unfold same_tables. intros [A [B [C D]]] [A' [B' [C' D']]].
  repeat split; congruence.
Qed.

Lemma upload_file_tables (env : Env) (key : pystr) (w : World) :
  same_tables w (fst (upload_file env key w)).
Proof.
  unfold upload_file. destruct (env_upload env key) as [u|e].
  - repeat split.
  - destruct (exc_class e); apply same_tables_refl.
Qed.

Lemma upload_file_result (env : Env) (key : pystr) (w : World) :
  (exists e, snd (upload_file env key w) = Raise e) <->
  (exists e, env_upload env key = Raise e).
Proof.
  unfold upload_file. destruct (env_upload env key) as [u|e]; simpl.
  - split; intros [e H]; discriminate.
  - split; intros _; [now exists e|].
    destruct (exc_class e); simpl; eexists; reflexivity.
Qed.

Lemma create_thumbnail_tables (env : Env) (task_id : pystr) (page_num : Z)
      (img : list N) (w : World) :
  same_tables w (fst (_create_thumbnail env task_id page_num img w)).
Proof.
  unfold _create_thumbnail. destruct (env_thumbnail env img) as [t|e];
    [|apply same_tables_refl].
  pose proof (upload_file_tables env (thumbnail_key task_id page_num) w) as H.
  destruct (upload_file env (thumbnail_key task_id page_num) w) as [w' [u|e]];
    exact H.
Qed.

Lemma extract_single_page_tables (env : Env) (task_id : pystr)
      (loaded : Exc Page) (page_num dpi : Z) (save_thumbnail : bool)
      (w : World) :
  same_tables w (fst (_extract_single_page env task_id loaded page_num dpi
                                           save_thumbnail w)).
Proof.
  unfold _extract_single_page.
  destruct loaded as [page|e]; [|apply same_tables_refl].
  destruct (page_pixmap page dpi) as [pix|e]; [|apply same_tables_refl].
  pose proof (upload_file_tables env (snapshot_key task_id page_num) w) as H.
  destruct (upload_file env (snapshot_key task_id page_num) w)
    as [w1 [u|e]]; simpl in H; [|exact H].
  assert (same_tables w
            (fst (if save_thumbnail
                  then _create_thumbnail env task_id page_num (pix_png pix) w1
                  else (w1, None)))) as H2.
  { destruct save_thumbnail; [|exact H].
    eapply same_tables_trans; [exact H|apply create_thumbnail_tables]. }
  destruct (if save_thumbnail
            then _create_thumbnail env task_id page_num (pix_png pix) w1
            else (w1, None)) as [w2 thumb].
  destruct (analyze_page page) as [[[[a b] c] [[d e'] f]]|e]; exact H2.
Qed.

(** Taking the snapshot of a page raises exactly when
    [page_snapshot_fails] says so, whatever the world. *)
Lemma extract_single_page_result (env : Env) (task_id : pystr)
      (loaded : Exc Page) (page_num dpi : Z) (save_thumbnail : bool)
      (w : World) :
  (exists e, snd (_extract_single_page env task_id loaded page_num dpi
                                       save_thumbnail w) = Raise e) <->
  page_snapshot_fails env task_id dpi page_num loaded = true.
Proof.
  unfold _extract_single_page, page_snapshot_fails.
  assert (forall (w0 : World) (e0 : PyExc),
             (exists e1, snd (w0, @Raise SnapshotInfo e0) = Raise e1)
             <-> true = true) as Fails.
  { intros w0 e0. split; [reflexivity|]. intros _. now exists e0. }
  destruct loaded as [page|e]; [|apply Fails].
  destruct (page_pixmap page dpi) as [pix|e]; [|apply Fails].
  unfold upload_file.
  destruct (env_upload env (snapshot_key task_id page_num)) as [u|e].
  - destruct (if save_thumbnail
              then _create_thumbnail env task_id page_num (pix_png pix)
                                     (put_object (snapshot_key task_id page_num) w)
              else (put_object (snapshot_key task_id page_num) w, None))
      as [w2 thumb].
    destruct (analyze_page page) as [[[[a b] c] [[d e'] f]]|e];
      [|apply Fails].
    simpl. split; [intros [e H]; discriminate|discriminate].
  - destruct (exc_class e); apply Fails.
Qed.

Lemma page_numbers_S (first : Z) (n : nat) :
  page_numbers first (S n) = (first + 1)%Z :: page_numbers (first + 1) n.
Proof.
  unfold page_numbers. simpl. f_equal; [lia|].
  rewrite <- seq_shift, map_map. apply map_ext. intros i. lia.
Qed.

Lemma snapshot_loop_spec (env : Env) (task_id : pystr) (dpi : Z)
      (save_thumbnail : bool) (pages : list (Exc Page)) :
  forall (page_num : Z) (w : World) (pending : list PDFPageSnapshot)
         (snapshots : list SnapshotInfo),
    let out := snapshot_loop env task_id dpi save_thumbnail pages page_num w
                             pending snapshots in
    same_tables w (fst out) /\
    match snd out with
    | Ok (pending', snapshots') =>
        (forall i loaded, nth_error pages i = Some loaded ->
           page_snapshot_fails env task_id dpi (page_num + Z.of_nat i) loaded
           = false) /\
        exists records,
          pending' = pending ++ records /\
          length snapshots' = (length snapshots + length pages)%nat /\
          map ps_task_id records = repeat task_id (length pages) /\
          map ps_page_num records = page_numbers page_num (length pages)
    | Raise _ =>
        exists i loaded,
          nth_error pages i = Some loaded /\
          page_snapshot_fails env task_id dpi (page_num + Z.of_nat i) loaded
          = true
    end.
Proof.
  induction pages as [|loaded rest IH]; intros page_num w pending snapshots.
  - simpl. split; [apply same_tables_refl|]. split.
    + intros [|i] l H; discriminate.
    + exists []. rewrite app_nil_r. repeat split. simpl. lia.
  - cbn zeta. cbn [snapshot_loop].
    pose proof (extract_single_page_tables env task_id loaded page_num dpi
                  save_thumbnail w) as T.
    pose proof (extract_single_page_result env task_id loaded page_num dpi
                  save_thumbnail w) as R.
    destruct (_extract_single_page env task_id loaded page_num dpi
                                   save_thumbnail w) as [w1 [info|e]];
      simpl in T, R.
    + specialize (IH (page_num + 1)%Z w1
                     (pending ++ [snapshot_record task_id page_num dpi info])
                     (snapshots ++ [info])).
      cbn zeta in IH. destruct IH as [T' IH]. split.
      * eapply same_tables_trans; eassumption.
      * destruct (snd (snapshot_loop env task_id dpi save_thumbnail rest
                         (page_num + 1) w1
                         (pending ++ [snapshot_record task_id page_num dpi info])
                         (snapshots ++ [info]))) as [[p' s']|e].
        -- destruct IH as [Hall [records [Hp [Hl [Ht Hn]]]]]. split.
           ++ intros [|i] l H; simpl in H.
              ** inversion H; subst. rewrite Z.add_0_r.
                 destruct (page_snapshot_fails env task_id dpi page_num l)
                   eqn:F; [|reflexivity].
                 destruct (proj2 R eq_refl) as [e F']. discriminate.
              ** replace (page_num + Z.of_nat (S i))%Z
                   with (page_num + 1 + Z.of_nat i)%Z by lia.
                 now apply Hall.
           ++ exists (snapshot_record task_id page_num dpi info :: records).
              rewrite Hp, <- app_assoc. split; [reflexivity|].
              split; [rewrite Hl, length_app; simpl; lia|].
              split; [simpl; now rewrite Ht|].
              change (length (loaded :: rest)) with (S (length rest)).
              rewrite page_numbers_S. simpl. now rewrite Hn.
        -- destruct IH as [i [l [Hn Hf]]]. exists (S i), l. split; [exact Hn|].
           replace (page_num + Z.of_nat (S i))%Z
             with (page_num + 1 + Z.of_nat i)%Z by lia. exact Hf.
    + split; [exact T|]. exists 0%nat, loaded. split; [reflexivity|].
      rewrite Z.add_0_r. apply R. eauto.
Qed.

Lemma extract_page_snapshots_tables (env : Env) (task_id : pystr)
      (doc : Document) (dpi : Z) (save_thumbnail : bool) (w : World) :
  let w' := fst (extract_page_snapshots env task_id doc dpi save_thumbnail w)
  in tasks w' = tasks w /\ results w' = results w /\
     block_rows w' = block_rows w.
Proof.
  unfold extract_page_snapshots.
  pose proof (snapshot_loop_spec env task_id dpi save_thumbnail (doc_pages doc)
                0 w [] []) as H.
  cbn zeta in H. destruct H as [[A [B [C D]]] _].
  destruct (snapshot_loop env task_id dpi save_thumbnail (doc_pages doc) 0 w
                          [] []) as [w1 [[p s]|e]]; simpl in *; auto.
Qed.

End SnapshotFacts.

(** C9, as stated, fails: task T1 has the two snapshot records of an
    earlier run and is processed again, this time with a document whose
    second page cannot be loaded.  The extraction raises and rolls back
    the record added for page 1, but the task is left with its two
    earlier records, not with zero. *)
Lemma C9_earlier_records_counterexample :
  length (snapshots_of Sample.task_T1 world_two_snapshots) = 2%nat /\
  (exists e,
      snd (PageSnapshotService.extract_page_snapshots
             (Sample.env_with Sample.no_files 0) Sample.task_T1
             Sample.doc_A_broken 150 true world_two_snapshots) = Raise e) /\
  length (snapshots_of Sample.task_T1
            (fst (PageSnapshotService.extract_page_snapshots
                    (Sample.env_with Sample.no_files 0) Sample.task_T1
                    Sample.doc_A_broken 150 true world_two_snapshots)))
  = 2%nat /\
  snapshots_of Sample.task_T1
    (fst (PageSnapshotService.extract_page_snapshots
            (Sample.env_with Sample.no_files 0) Sample.task_T1
            Sample.doc_A_broken 150 true world_two_snapshots)) <> [].
Proof.
  split; [reflexivity|]. split; [eexists; reflexivity|].
  split; [reflexivity|].
  intros H. apply (f_equal (@length _)) in H. discriminate H.
Qed.

(** C9 (amended). The snapshot records of one task are committed in a
    single batch after the last page.  When the snapshot of some page fails
    before the commit, [extract_page_snapshots] raises and the committed
    snapshot table is left as it was: no record of this call is persisted,
    so a task without committed records has none afterwards (records
    committed by an earlier call stay); when no page fails, exactly one
    record per page, numbered from 1, is appended for the task. *)
Theorem C9_snapshot_records_atomic
        (env : Env) (task_id : pystr) (doc : Fitz.Document) (dpi : Z)
        (save_thumbnail : bool) (w : Store.World) :
  let out := PageSnapshotService.extract_page_snapshots
               env task_id doc dpi save_thumbnail w in
  ((exists i loaded,
       nth_error (Fitz.doc_pages doc) i = Some loaded /\
       page_snapshot_fails env task_id dpi (Z.of_nat i) loaded = true) ->
   (exists e, snd out = Raise e) /\
   Store.snapshot_rows (fst out) = Store.snapshot_rows w /\
   (snapshots_of task_id w = [] -> snapshots_of task_id (fst out) = [])) /\
  ((forall i loaded,
       nth_error (Fitz.doc_pages doc) i = Some loaded ->
       page_snapshot_fails env task_id dpi (Z.of_nat i) loaded = false) ->
   exists snapshots records,
     snd out = Ok snapshots /\
     length snapshots = length (Fitz.doc_pages doc) /\
     Store.snapshot_rows (fst out) = Store.snapshot_rows w ++ records /\
     map Store.ps_task_id records
       = repeat task_id (length (Fitz.doc_pages doc)) /\
     map Store.ps_page_num records
       = PageSnapshotService.page_numbers 0 (length (Fitz.doc_pages doc))).
Proof.
  cbn zeta. unfold PageSnapshotService.extract_page_snapshots.
  pose proof (SnapshotFacts.snapshot_loop_spec env task_id dpi save_thumbnail
                (Fitz.doc_pages doc) 0 w [] []) as H.
  cbn zeta in H. destruct H as [[_ [_ [_ D]]] H].
  destruct (PageSnapshotService.snapshot_loop env task_id dpi save_thumbnail
              (Fitz.doc_pages doc) 0 w [] []) as [w1 [[p s]|e]];
    simpl in *.
  - destruct H as [Hall [records [Hp [Hl [Ht Hn]]]]]. split.
    + intros [i [l [Hi Hf]]]. rewrite (Hall i l Hi) in Hf. discriminate.
    + intros _. exists s, records. subst p.
      repeat split; auto. now rewrite D.
  - destruct H as [i [l [Hi Hf]]]. split.
    + intros _. split; [eauto|]. split; [exact D|].
      unfold snapshots_of. now rewrite D.
    + intros Hall. rewrite (Hall i l Hi) in Hf. discriminate.
Qed.

(** The theorem at a document whose second page cannot be loaded and at a
    document whose two pages are fine. *)
Lemma C9_snapshot_records_atomic_witness :
  ((exists e,
       snd (PageSnapshotService.extract_page_snapshots
              (Sample.env_with Sample.no_files 0) Sample.task_T1
              Sample.doc_A_broken 150 true Sample.world_T1) = Raise e) /\
   Store.snapshot_rows
     (fst (PageSnapshotService.extract_page_snapshots
             (Sample.env_with Sample.no_files 0) Sample.task_T1
             Sample.doc_A_broken 150 true Sample.world_T1))
   = Store.snapshot_rows Sample.world_T1 /\
   (snapshots_of Sample.task_T1 Sample.world_T1 = [] ->
    snapshots_of Sample.task_T1
      (fst (PageSnapshotService.extract_page_snapshots
              (Sample.env_with Sample.no_files 0) Sample.task_T1
              Sample.doc_A_broken 150 true Sample.world_T1)) = [])) /\
  (exists snapshots records,
      snd (PageSnapshotService.extract_page_snapshots
             (Sample.env_with Sample.no_files 0) Sample.task_T1
             Sample.doc_A_B 150 true Sample.world_T1) = Ok snapshots /\
      length snapshots = length (Fitz.doc_pages Sample.doc_A_B) /\
      Store.snapshot_rows
        (fst (PageSnapshotService.extract_page_snapshots
                (Sample.env_with Sample.no_files 0) Sample.task_T1
                Sample.doc_A_B 150 true Sample.world_T1))
      = Store.snapshot_rows Sample.world_T1 ++ records /\
      map Store.ps_task_id records
      = repeat Sample.task_T1 (length (Fitz.doc_pages Sample.doc_A_B)) /\
      map Store.ps_page_num records
      = PageSnapshotService.page_numbers 0
          (length (Fitz.doc_pages Sample.doc_A_B))).
Proof.
  split.
  - apply (proj1 (C9_snapshot_records_atomic
                    (Sample.env_with Sample.no_files 0) Sample.task_T1
                    Sample.doc_A_broken 150 true Sample.world_T1)).
    exists 1%nat, (Raise (Sample.exc OtherError "cannot load page")).
    split; reflexivity.
  - apply (proj2 (C9_snapshot_records_atomic
                    (Sample.env_with Sample.no_files 0) Sample.task_T1
                    Sample.doc_A_B 150 true Sample.world_T1)).
    intros [|[|i]] loaded H; simpl in H.
    + inversion H. reflexivity.
    + inversion H. reflexivity.
    + destruct i; discriminate.
Defined.

(* ------------------------------------------------------------------ *)
(** ** Block extraction and the task life cycle *)

Module WorkerFacts.
Import Fitz Store EnhancedPDFProcessor Worker.

Lemma read_pages_result (env : Env) (task_id : pystr)
      (pages : list (Exc Page)) :
  forall page_num,
    (exists e, read_pages env task_id pages page_num = Raise e) <->
    existsb page_read_fails pages = true.
Proof.
  induction pages as [|loaded rest IH]; intros page_num; simpl.
  - split; [intros [e H]; discriminate|discriminate].
  - destruct loaded as [page|e]; simpl; [|split; eauto].
    unfold _extract_page_blocks.
    destruct (page_text_dict page) as [d|e]; simpl; [|split; eauto].
    destruct (page_text page) as [t|e]; simpl; [|split; eauto].
    rewrite <- (IH (page_num + 1)%Z).
    destruct (read_pages env task_id rest (page_num + 1)) as [[[b ts] cs]|e];
      simpl.
    + split; intros [e H]; discriminate.
    + split; eauto.
Qed.


(** [process_pdf_with_blocks] never touches the task and result tables,
    and the block table either stays as it is or receives the rows of all
    the blocks of the document at once. *)
Lemma process_pdf_with_blocks_tables (env : Env)
      (task_id file_path : pystr) (save_to_db extract_snapshots : bool)
      (w : World) :
  let out := process_pdf_with_blocks env task_id file_path save_to_db
                                     extract_snapshots w in
  tasks (fst out) = tasks w /\ results (fst out) = results w /\
  (block_rows (fst out) = block_rows w \/
   exists doc all_blocks texts codes classified,
     Fitz.open (env_fs env) file_path = Ok doc /\
     read_pages env task_id (doc_pages doc) 0
       = Ok (all_blocks, texts, codes) /\
     Hierarchy._analyze_hierarchy all_blocks = Ok classified /\
     block_rows (fst out)
       = block_rows w ++
         map (block_row task_id)
             (Association._match_occupation_info classified)).
Proof.
  cbn zeta. unfold process_pdf_with_blocks, process_try.
  destruct (Fitz.open (env_fs env) file_path) as [doc|e] eqn:O;
    [|simpl; auto].
  destruct (read_pages env task_id (doc_pages doc) 0)
    as [[[all_blocks texts] codes]|e] eqn:R; [|simpl; auto].
  assert (exists w1 infos,
             (if extract_snapshots
              then match PageSnapshotService.extract_page_snapshots
                           env task_id doc 150 true w with
                   | (w', Ok infos) => (w', infos)
                   | (w', Raise _) => (w', [])
                   end
              else (w, [])) = (w1, infos) /\
             tasks w1 = tasks w /\ results w1 = results w /\
             block_rows w1 = block_rows w) as [w1 [infos [E [T1 [T2 T3]]]]].
  { destruct extract_snapshots; [|exists w, []; auto].
    pose proof (SnapshotFacts.extract_page_snapshots_tables
                  env task_id doc 150 true w) as H. cbn zeta in H.
    destruct (PageSnapshotService.extract_page_snapshots
                env task_id doc 150 true w) as [w' [i|e]]; simpl in H;
      eexists; eexists; (split; [reflexivity|exact H]). }
  rewrite E.
  destruct (Hierarchy._analyze_hierarchy all_blocks) as [classified|e] eqn:A;
    [|simpl; auto].
  destruct save_to_db; simpl; [|auto].
  split; [exact T1|]. split; [exact T2|]. right.
  exists doc, all_blocks, texts, codes, classified.
  repeat split; auto. now rewrite T3.
Qed.

Lemma find_task_tasks (id : pystr) (w w' : World) :
  tasks w' = tasks w -> find_task id w' = find_task id w.
Proof. unfold find_task. now intros ->. Qed.

Lemma find_task_update (id : pystr) (f : ValidationTask -> ValidationTask)
      (w : World) (t : ValidationTask) :
  (forall x, vt_task_id (f x) = vt_task_id x) ->
  find_task id w = Some t ->
  find_task id (update_task id f w) = Some (f t).
Proof.
  intros Hf. unfold find_task, update_task. simpl.
  induction (tasks w) as [|x rest IH]; simpl; [discriminate|].
  destruct (pystr_eqb (vt_task_id x) id) eqn:E; simpl.
  - intros H. inversion H; subst. now rewrite Hf, E.
  - rewrite E. exact IH.
Qed.

Lemma find_task_commit_results (id : pystr) (rows : list ValidationResult)
      (w : World) :
  find_task id (commit_results rows w) = find_task id w.
Proof. reflexivity. Qed.

(** One attempt on an existing task: it returns or raises as
    [attempt_error] says, and leaves the task row completed or failed. *)
Lemma process_validation_task_spec (settings : Settings) (env : Env)
      (task_id pdf_file_path validation_type : pystr)
      (metadata : option (list (pystr * pystr))) (w : World)
      (t : ValidationTask) :
  find_task task_id w = Some t ->
  let out := process_validation_task settings env task_id pdf_file_path
                                     validation_type metadata w in
  match attempt_error env pdf_file_path with
  | None =>
      exists o t',
        snd out = Ok o /\
        out_result o = attempt_result settings env pdf_file_path
                                      validation_type metadata /\
        find_task task_id (fst out) = Some t' /\
        vt_status t' = COMPLETED /\
        vt_completed_at t' = Some (env_now env) /\
        vt_result_summary t' = Some (summary_of (out_result o))
  | Some e =>
      exists t',
        snd out = Raise e /\
        find_task task_id (fst out) = Some t' /\
        vt_status t' = FAILED /\
        vt_completed_at t' = Some (env_now env) /\
        vt_error_message t' = Some (exc_msg e)
  end.
Proof.
  intros Ht. cbn zeta.
  unfold process_validation_task, attempt_error, attempt_result.
  rewrite Ht. unfold process_steps.
  pose proof (@find_task_update task_id (set_processing (env_now env)) w t
                (fun x => eq_refl) Ht) as H0.
  destruct (fetch_file env pdf_file_path) as [temp_path|e] eqn:F.
  - set (vr := _validate_pdf_file settings env temp_path validation_type
                                  metadata).
    set (w0 := update_task task_id (set_processing (env_now env)) w) in *.
    pose proof (process_pdf_with_blocks_tables env task_id temp_path true true
                  w0) as P. cbn zeta in P. destruct P as [P _].
    set (w1 := fst (process_pdf_with_blocks env task_id temp_path true true
                      w0)) in *.
    assert (find_task task_id w1 = Some (set_processing (env_now env) t))
      as H1 by (rewrite (@find_task_tasks task_id _ _ P); exact H0).
    pose proof (@find_task_update task_id
                  (set_completed (env_now env) (summary_of vr)) w1 _
                  (fun x => eq_refl) H1) as H2.
    assert (forall o,
               out_result o = vr ->
               exists o' t',
                 Ok o = Ok o' /\ out_result o' = vr /\
                 find_task task_id
                   (commit_results
                      [result_row task_id pdf_file_path validation_type vr]
                      (update_task task_id
                         (set_completed (env_now env) (summary_of vr)) w1))
                 = Some t' /\
                 vt_status t' = COMPLETED /\
                 vt_completed_at t' = Some (env_now env) /\
                 vt_result_summary t' = Some (summary_of (out_result o')))
      as Done.
    { intros o Ho. exists o. eexists. split; [reflexivity|].
      split; [exact Ho|]. split; [exact H2|]. rewrite Ho. repeat split. }
    destruct (is_local_path pdf_file_path).
    + simpl. now apply Done.
    + destruct (bind (exists_ (env_fs env) temp_path) _) as [u|e]; simpl.
      * now apply Done.
      * eexists. split; [reflexivity|]. split.
        -- apply find_task_update; [reflexivity|].
           rewrite find_task_commit_results. exact H2.
        -- repeat split.
  - simpl. eexists. split; [reflexivity|]. split.
    + apply find_task_update; [reflexivity|exact H0].
    + repeat split.
Qed.

End WorkerFacts.




Module RetryFacts.
Import Fitz Store Worker.

Lemma starts_with_app (p r : pystr) : Unicode.starts_with p (p ++ r) = true.
Proof.
  induction p as [|c p IH]; simpl; [reflexivity|].
  now rewrite N.eqb_refl, IH.
Qed.

Lemma contains_skip (p a s : pystr) :
  Unicode.contains p s = true -> Unicode.contains p (a ++ s) = true.
Proof.
  intros H. induction a as [|c a IH]; simpl; [exact H|].
  rewrite IH. apply orb_true_r.
Qed.

Lemma contains_starts (p s : pystr) :
  Unicode.starts_with p s = true -> Unicode.contains p s = true.
Proof. intros H. destruct s; simpl in *; rewrite H; reflexivity. Qed.

(** The message written on retry exhaustion carries the phrase "maximum
    number of retries reached" in front of the cause. *)
Lemma max_retries_message_marked (cause : pystr) :
  Unicode.contains Msg.max_retries_phrase (Msg.max_retries_reached ++ cause)
  = true.
Proof.
  change Msg.max_retries_reached
    with ([0x4EFB; 0x52A1; 0x5931; 0x8D25; 0xFF0C]%N ++
          (Msg.max_retries_phrase ++ [0x3A; 0x20]%N)).
  rewrite <- !app_assoc. apply contains_skip, contains_starts, starts_with_app.
Qed.

Lemma validate_pdf_task_spec (settings : Settings) (env : Env) (retries : Z)
      (task_id pdf_file_path validation_type : pystr)
      (metadata : option (list (pystr * pystr))) (w : World)
      (t : ValidationTask) :
  find_task task_id w = Some t ->
  let out := validate_pdf_task settings env retries task_id pdf_file_path
                               validation_type metadata w in
  match attempt_error env pdf_file_path with
  | None =>
      exists o t',
        snd out = inl o /\
        out_result o = attempt_result settings env pdf_file_path
                                      validation_type metadata /\
        find_task task_id (fst out) = Some t' /\
        vt_status t' = COMPLETED /\
        vt_completed_at t' = Some (env_now env) /\
        vt_result_summary t' = Some (summary_of (out_result o))
  | Some e =>
      exists t',
        snd out = inr (self_retry task_max_retries retries e) /\
        find_task task_id (fst out) = Some t' /\
        vt_status t' = FAILED /\
        vt_completed_at t' = Some (env_now env) /\
        vt_error_message t' = Some (failure_message settings retries e)
  end.
Proof.
  intros Ht. cbn zeta. unfold validate_pdf_task, failure_message.
  pose proof (@WorkerFacts.process_validation_task_spec settings env task_id
                pdf_file_path validation_type metadata w t Ht) as S.
  cbn zeta in S.
  destruct (process_validation_task settings env task_id pdf_file_path
                                    validation_type metadata w) as [w' r].
  simpl in S.
  destruct (attempt_error env pdf_file_path) as [e|].
  - destruct S as [t' [-> [Hf [Hs [Hc Hm]]]]].
    destruct (MAX_RETRY_ATTEMPTS settings <=? retries)%Z.
    + rewrite Hf. simpl. eexists. split; [reflexivity|]. split.
      * apply WorkerFacts.find_task_update; [reflexivity|exact Hf].
      * repeat split.
    + simpl. exists t'. repeat split; auto.
  - destruct S as [o [t' [-> S]]]. simpl. exists o, t'. split; [reflexivity|].
    exact S.
Qed.

(** What the queue gets after a failed delivery: the body asks for a retry
    while [retries < Task.max_retries], the wrapper while
    [retries < MAX_RETRY_ATTEMPTS]; the task is given up only when both
    bounds are reached. *)
Lemma autoretry_signal (settings : Settings) (retries : Z) (e : PyExc) :
  autoretry settings retries (inr (self_retry task_max_retries retries e))
  = inr (if (last_delivery settings <? retries + 1)%Z then GiveUp e
         else Retry e).
Proof.
  unfold autoretry, self_retry, last_delivery, task_max_retries.
  destruct (3 <? retries + 1)%Z eqn:A;
    destruct (MAX_RETRY_ATTEMPTS settings <? retries + 1)%Z eqn:B;
    destruct (Z.max 3 (MAX_RETRY_ATTEMPTS settings) <? retries + 1)%Z eqn:C;
    try reflexivity; exfalso;
    rewrite ?Z.ltb_lt, ?Z.ltb_ge in A, B, C; lia.
Qed.

(** The deliveries from [retries] on, on an existing task, when
    [deliveries] further ones remain before the last delivery. *)
Lemma deliver_spec (settings : Settings) (envs : Z -> Env)
      (task_id pdf_file_path validation_type : pystr)
      (metadata : option (list (pystr * pystr))) (deliveries : nat) :
  forall (retries : Z) (w : World) (t : ValidationTask),
    find_task task_id w = Some t ->
    (retries + Z.of_nat deliveries = last_delivery settings)%Z ->
    let out := deliver settings envs deliveries retries task_id pdf_file_path
                       validation_type metadata w in
    ((forall n, (retries <= n <= last_delivery settings)%Z ->
                attempt_error (envs n) pdf_file_path <> None) ->
     exists exc t',
       snd out = inr exc /\
       attempt_error (envs (last_delivery settings)) pdf_file_path
       = Some exc /\
       find_task task_id (fst out) = Some t' /\
       vt_status t' = FAILED /\
       vt_completed_at t' = Some (env_now (envs (last_delivery settings))) /\
       vt_error_message t' = Some (Msg.max_retries_reached ++ exc_msg exc)) /\
    (forall k,
        (retries <= k <= last_delivery settings)%Z ->
        (forall n, (retries <= n < k)%Z ->
                   attempt_error (envs n) pdf_file_path <> None) ->
        attempt_error (envs k) pdf_file_path = None ->
        exists o t',
          snd out = inl o /\
          out_result o = attempt_result settings (envs k) pdf_file_path
                                        validation_type metadata /\
          find_task task_id (fst out) = Some t' /\
          vt_status t' = COMPLETED /\
          vt_completed_at t' = Some (env_now (envs k)) /\
          vt_result_summary t' = Some (summary_of (out_result o))).
Proof.
  assert (MAX_RETRY_ATTEMPTS settings <= last_delivery settings)%Z as Hle
    by (unfold last_delivery; lia).
  induction deliveries as [|d IH]; intros retries w t Ht Hm; cbn zeta;
    cbn [deliver];
    pose proof (@validate_pdf_task_spec settings (envs retries) retries
                  task_id pdf_file_path validation_type metadata w t Ht) as S;
    cbn zeta in S;
    destruct (validate_pdf_task settings (envs retries) retries task_id
                pdf_file_path validation_type metadata w) as [w' r];
    simpl in S.
  - (* the last delivery *)
    assert (retries = last_delivery settings) as E by lia.
    split.
    + intros Hall.
      destruct (attempt_error (envs retries) pdf_file_path) as [e|] eqn:A;
        [|exfalso; apply (Hall retries); [lia|exact A]].
      destruct S as [t' [-> [Hf [Hs [Hc Hmsg]]]]].
      rewrite autoretry_signal. unfold failure_message in Hmsg.
      replace (last_delivery settings <? retries + 1)%Z with true
        by (symmetry; apply Z.ltb_lt; lia).
      replace (MAX_RETRY_ATTEMPTS settings <=? retries)%Z with true in Hmsg
        by (symmetry; apply Z.leb_le; lia).
      simpl. exists e, t'. rewrite <- E. repeat split; auto.
    + intros k Hk Hprev Hok.
      assert (k = retries) as -> by lia.
      rewrite Hok in S. destruct S as [o [t' [-> S]]].
      simpl. exists o, t'. split; [reflexivity|exact S].
  - split.
    + intros Hall.
      destruct (attempt_error (envs retries) pdf_file_path) as [e|] eqn:A;
        [|exfalso; apply (Hall retries); [lia|exact A]].
      destruct S as [t' [-> [Hf _]]].
      rewrite autoretry_signal.
      replace (last_delivery settings <? retries + 1)%Z with false
        by (symmetry; apply Z.ltb_ge; lia).
      destruct (IH (retries + 1)%Z w' t' Hf ltac:(lia)) as [IHf _].
      apply IHf. intros n Hn. apply Hall. lia.
    + intros k Hk Hprev Hok.
      destruct (Z.eq_dec k retries) as [->|Hne].
      * rewrite Hok in S. destruct S as [o [t' [-> S]]].
        simpl. exists o, t'. split; [reflexivity|exact S].
      * destruct (attempt_error (envs retries) pdf_file_path) as [e|] eqn:A;
          [|exfalso; apply (Hprev retries); [lia|exact A]].
        destruct S as [t' [-> [Hf _]]].
        rewrite autoretry_signal.
        replace (last_delivery settings <? retries + 1)%Z with false
          by (symmetry; apply Z.ltb_ge; lia).
        destruct (IH (retries + 1)%Z w' t' Hf ltac:(lia)) as [_ IHs].
        apply IHs; [lia| |exact Hok].
        intros n Hn. apply Hprev. lia.
Qed.

End RetryFacts.

(** The outcomes of a queued task that has a row, with the bound on the
    deliveries that the code really has, [last_delivery]: when every
    delivery up to it raises, the task ends failed with the max-retries
    message; when the deliveries before [k] raise and delivery [k] returns,
    it ends completed with the summary of delivery [k] alone. *)
Lemma run_task_outcomes
      (settings : Settings) (envs : Z -> Env)
      (task_id pdf_file_path validation_type : pystr)
      (metadata : option (list (pystr * pystr)))
      (w : Store.World) (t : Store.ValidationTask) :
  Store.find_task task_id w = Some t ->
  ((forall n, (0 <= n <= Worker.last_delivery settings)%Z ->
              attempt_error (envs n) pdf_file_path <> None) ->
   exists exc t',
     snd (Worker.run_task settings envs task_id pdf_file_path
            validation_type metadata w) = inr exc /\
     Store.find_task task_id
       (fst (Worker.run_task settings envs task_id pdf_file_path
               validation_type metadata w)) = Some t' /\
     Store.vt_status t' = Store.FAILED /\
     Store.vt_error_message t'
     = Some (Msg.max_retries_reached ++ exc_msg exc) /\
     Unicode.contains Msg.max_retries_phrase
       (Msg.max_retries_reached ++ exc_msg exc) = true) /\
  (forall k,
      (0 <= k <= Worker.last_delivery settings)%Z ->
      (forall n, (0 <= n < k)%Z ->
                 attempt_error (envs n) pdf_file_path <> None) ->
      attempt_error (envs k) pdf_file_path = None ->
      exists out t',
        snd (Worker.run_task settings envs task_id pdf_file_path
               validation_type metadata w) = inl out /\
        Worker.out_result out
        = attempt_result settings (envs k) pdf_file_path validation_type
                         metadata /\
        Store.find_task task_id
          (fst (Worker.run_task settings envs task_id pdf_file_path
                  validation_type metadata w)) = Some t' /\
        Store.vt_status t' = Store.COMPLETED /\
        Store.vt_completed_at t' = Some (env_now (envs k)) /\
        Store.vt_result_summary t'
        = Some (Worker.summary_of
                  (attempt_result settings (envs k) pdf_file_path
                                  validation_type metadata))).
Proof.
  intros Ht. unfold Worker.run_task.
  assert (0 <= Worker.last_delivery settings)%Z as Hpos
    by (unfold Worker.last_delivery, Worker.task_max_retries; lia).
  destruct (@RetryFacts.deliver_spec settings envs task_id pdf_file_path
              validation_type metadata
              (Z.to_nat (Worker.last_delivery settings)) 0%Z w t Ht
              ltac:(lia)) as [F S].
  split.
  - intros Hall. destruct (F Hall) as [exc [t' [A [_ [B [C [D E]]]]]]].
    exists exc, t'. split; [exact A|]. split; [exact B|].
    split; [exact C|]. split; [exact E|].
    apply RetryFacts.max_retries_message_marked.
  - intros k Hk Hprev Hok.
    destruct (S k Hk Hprev Hok) as [o [t' [A [B [C [D [E G]]]]]]].
    exists o, t'. repeat split; auto. now rewrite <- B.
Qed.

(** C8. The deliveries do not stop at [MAX_RETRY_ATTEMPTS].  With
    [MAX_RETRY_ATTEMPTS = 1] and a file that is missing during the
    deliveries 0 and 1 and present from delivery 2 on, both attempts that
    the setting allows raise, and the second one leaves the task failed
    with the max-retries message; but [self.retry(exc=exc)] is called
    without [max_retries], so the default of Celery, 3, decides: a retry
    is requested, the task is delivered a third time and ends completed,
    the max-retries message still on its row. *)
Theorem C8_retry_continues_past_maximum :
  MAX_RETRY_ATTEMPTS settings_one_retry = 1%Z /\
  attempt_error (envs_file_at_2 0) Sample.local_path
  = Some local_file_not_found /\
  attempt_error (envs_file_at_2 1) Sample.local_path
  = Some local_file_not_found /\
  snd second_failure = inr (Worker.Retry local_file_not_found) /\
  option_map Store.vt_status
    (Store.find_task Sample.task_T1 (fst second_failure))
  = Some Store.FAILED /\
  option_map Store.vt_error_message
    (Store.find_task Sample.task_T1 (fst second_failure))
  = Some (Some (Msg.max_retries_reached ++ exc_msg local_file_not_found)) /\
  (exists out,
      snd (Worker.run_task settings_one_retry envs_file_at_2 Sample.task_T1
             Sample.local_path (ascii_str "standard") None Sample.world_T1)
      = inl out /\
      PDFProcessor.r_is_valid (Worker.out_result out) = true) /\
  option_map Store.vt_status
    (Store.find_task Sample.task_T1
       (fst (Worker.run_task settings_one_retry envs_file_at_2
               Sample.task_T1 Sample.local_path (ascii_str "standard") None
               Sample.world_T1)))
  = Some Store.COMPLETED /\
  option_map Store.vt_error_message
    (Store.find_task Sample.task_T1
       (fst (Worker.run_task settings_one_retry envs_file_at_2
               Sample.task_T1 Sample.local_path (ascii_str "standard") None
               Sample.world_T1)))
  = Some (Some (Msg.max_retries_reached ++ exc_msg local_file_not_found)).
Proof.
  split; [reflexivity|]. split; [reflexivity|]. split; [reflexivity|].
  split; [reflexivity|]. split; [reflexivity|]. split; [reflexivity|].
  split; [eexists; split; reflexivity|].
  split; reflexivity.
Qed.

(* ================================================================== *)
(** * Further properties of the code *)

(** Rational arithmetic on floats: the goal and the hypotheses are read in
    [Q], where [lra] decides them. *)
Ltac float_arith :=
  unfold Float.ltb, Float.leb, Float.dist, Float.frac, Float.of_Z,
         Qcabs.Qcabs, Qclt, Qcle, Qcminus, Qcplus, Qcopp, Qcmult, Q2Qc in *;
  cbn [this] in *;
  repeat rewrite Qred_correct in *;
  unfold inject_Z in *.

Module TierFacts.
Import Hierarchy.

Lemma spaced_app (gap x : Qc) (l : list Qc) :
  spaced gap l ->
  (l = [] \/ (gap < x - last l (Float.of_Z 0))%Qc) ->
  spaced gap (l ++ [x]).
Proof.
  induction l as [|a l IH]; intros Hs Hx; [exact I|].
  destruct l as [|b l].
  - simpl. destruct Hx as [Hx|Hx]; [discriminate|]. split; [exact Hx|exact I].
  - destruct Hs as [Hab Hs]. split; [exact Hab|].
    apply IH; [exact Hs|]. right.
    destruct Hx as [Hx|Hx]; [discriminate|exact Hx].
Qed.

Lemma spaced_firstn (gap : Qc) (n : nat) :
  forall l, spaced gap l -> spaced gap (firstn n l).
Proof.
  induction n as [|n IH]; intros l Hs; [exact I|].
  destruct l as [|a l]; [exact I|].
  destruct l as [|b l]; [destruct n; exact I|].
  destruct Hs as [Hab Hs]. specialize (IH (b :: l) Hs).
  destruct n as [|n]; [exact I|]. split; [exact Hab|exact IH].
Qed.

Lemma in_firstn (A : Type) (n : nat) :
  forall (l : list A) (x : A), In x (firstn n l) -> In x l.
Proof.
  induction n as [|n IH]; intros [|a l] x H; try contradiction.
  destruct H as [H|H]; [now left|right; now apply IH].
Qed.

Lemma fold_grow_spaced (rest : list Qc) :
  forall acc, spaced (Float.of_Z 15) acc ->
              spaced (Float.of_Z 15) (fold_left grow_levels rest acc).
Proof.
  induction rest as [|r rest IH]; intros acc Hs; [exact Hs|].
  simpl. apply IH. unfold grow_levels.
  destruct (Float.ltb (Float.of_Z 15) (r - last acc (Float.of_Z 0))) eqn:E;
    [|exact Hs].
  apply spaced_app; [exact Hs|]. right. now apply ltb_lt.
Qed.

Lemma fold_grow_head (rest : list Qc) :
  forall a acc, hd_error (fold_left grow_levels rest (a :: acc)) = Some a.
Proof.
  induction rest as [|r rest IH]; intros a acc; [reflexivity|].
  simpl. unfold grow_levels.
  destruct (Float.ltb _ _); [apply (IH a (acc ++ [r]))|apply IH].
Qed.

Lemma fold_grow_incl (rest : list Qc) :
  forall acc t, In t (fold_left grow_levels rest acc) ->
                In t acc \/ In t rest.
Proof.
  induction rest as [|r rest IH]; intros acc t H; [now left|].
  simpl in H. apply IH in H. destruct H as [H|H]; [|right; now right].
  unfold grow_levels in H. destruct (Float.ltb _ _); [|now left].
  apply in_app_or in H. destruct H as [H|[H|[]]]; [now left|].
  right. now left.
Qed.

Lemma spaced_gap (l : list Qc) :
  spaced (Float.of_Z 15) l ->
  forall i j a b, (i < j)%nat ->
                  nth_error l i = Some a -> nth_error l j = Some b ->
                  (Float.of_Z 15 < b - a)%Qc.
Proof.
  induction l as [|x l IH]; intros Hs i j a b Hij Ha Hb;
    [destruct i; discriminate|].
  destruct l as [|y l]; [destruct j as [|[|j]]; try lia; discriminate|].
  destruct Hs as [Hxy Hs].
  destruct j as [|j]; [lia|]. simpl in Hb.
  destruct i as [|i].
  - simpl in Ha. inversion Ha; subst x.
    destruct j as [|j].
    + simpl in Hb. inversion Hb; subst y. exact Hxy.
    + assert (Float.of_Z 15 < b - y)%Qc as Hyb
        by (apply (IH Hs 0%nat (S j) y b); [lia|reflexivity|exact Hb]).
      clear - Hxy Hyb. float_arith. lra.
  - simpl in Ha. apply (IH Hs i j a b); [lia|exact Ha|exact Hb].
Qed.

Lemma spaced_increasing (l : list Qc) :
  spaced (Float.of_Z 15) l -> increasing l.
Proof.
  unfold increasing. induction l as [|a l IH]; intros Hs; [constructor|].
  constructor.
  - apply IH. destruct l as [|b l]; [exact I|apply Hs].
  - apply Forall_forall. intros b Hb.
    apply In_nth_error in Hb. destruct Hb as [j Hj].
    assert (Float.of_Z 15 < b - a)%Qc as H
      by (apply (@spaced_gap _ Hs 0%nat (S j) a b); [lia|reflexivity|exact Hj]).
    clear - H. float_arith. lra.
Qed.

(** A tier representative is closer than 10 units to no earlier tier. *)
Lemma first_within_self (l : list Qc) :
  spaced (Float.of_Z 15) l ->
  forall i t k, nth_error l i = Some t ->
                first_within t k l = Some (k + Z.of_nat i)%Z.
Proof.
  induction l as [|a l IH]; intros Hs i t k Ht; [destruct i; discriminate|].
  destruct i as [|i].
  - simpl in Ht. inversion Ht; subst a. simpl.
    replace (Float.ltb (Float.dist t t) (Float.of_Z 10)) with true.
    + f_equal. lia.
    + symmetry. apply ltb_lt. float_arith.
      apply Qabs.Qabs_case; intros; lra.
  - simpl in Ht. cbn [first_within].
    replace (Float.ltb (Float.dist t a) (Float.of_Z 10)) with false.
    + rewrite (IH (match l as l0 return spaced (Float.of_Z 15) (a :: l0) ->
                                         spaced (Float.of_Z 15) l0 with
                   | [] => fun _ => I
                   | _ :: _ => fun H => proj2 H
                   end Hs) i t (k + 1)%Z Ht).
      f_equal. lia.
    + symmetry. destruct (Float.ltb (Float.dist t a) (Float.of_Z 10)) eqn:E;
        [|reflexivity].
      exfalso. apply ltb_lt in E.
      assert (Float.of_Z 15 < t - a)%Qc as H
        by (apply (@spaced_gap _ Hs 0%nat (S i) a t);
            [lia|reflexivity|exact Ht]).
      clear - E H. float_arith. revert E.
      apply Qabs.Qabs_case; intros; lra.
Qed.

Lemma get_indent_levels_head (indentations : list Qc) :
  hd_error (_get_indent_levels indentations) = hd_error indentations.
Proof.
  unfold _get_indent_levels.
  destruct indentations as [|a rest]; [reflexivity|].
  pose proof (fold_grow_head rest a []) as H.
  destruct (fold_left grow_levels rest [a]) as [|b l]; [discriminate|].
  simpl in *. exact H.
Qed.

Lemma get_indent_levels_spaced (indentations : list Qc) :
  spaced (Float.of_Z 15) (_get_indent_levels indentations).
Proof.
  unfold _get_indent_levels.
  destruct indentations as [|a rest]; [exact I|].
  apply spaced_firstn, fold_grow_spaced. exact I.
Qed.

End TierFacts.

(** X1. The tier builder keeps at most four tiers, starts with the first
    indentation it is given, takes every tier among the indentations it is
    given, and builds tiers that each exceed the one before by more than
    15 units, hence strictly increasing. *)
Theorem X1_indent_levels_shape (indentations : list Qc) :
  (len (Hierarchy._get_indent_levels indentations) <= 4)%Z /\
  hd_error (Hierarchy._get_indent_levels indentations)
  = hd_error indentations /\
  (forall t, In t (Hierarchy._get_indent_levels indentations) ->
             In t indentations) /\
  spaced (Float.of_Z 15) (Hierarchy._get_indent_levels indentations) /\
  increasing (Hierarchy._get_indent_levels indentations).
Proof.
  pose proof (TierFacts.get_indent_levels_spaced indentations) as Hs.
  split; [apply HierarchyFacts.get_indent_levels_length|].
  split; [|split; [|split; [exact Hs|now apply TierFacts.spaced_increasing]]].
  - apply TierFacts.get_indent_levels_head.
  - intros t Ht. unfold Hierarchy._get_indent_levels in Ht.
    destruct indentations as [|a rest]; [contradiction|].
    apply TierFacts.in_firstn, TierFacts.fold_grow_incl in Ht.
    destruct Ht as [[<-|[]]|Ht]; [now left|now right].
Qed.

(** X2. On the tiers that the tier builder returns, every tier
    representative is mapped to its own index: no other tier lies within 10
    units of it. *)
Theorem X2_tier_representative_index
        (indentations : list Qc) (i : nat) (t : Qc) :
  nth_error (Hierarchy._get_indent_levels indentations) i = Some t ->
  Hierarchy._get_indent_level t (Hierarchy._get_indent_levels indentations)
  = Ok (Z.of_nat i).
Proof.
  intros Ht. unfold Hierarchy._get_indent_level.
  rewrite (@TierFacts.first_within_self _
             (TierFacts.get_indent_levels_spaced indentations) i t 0%Z Ht).
  reflexivity.
Qed.

Lemma X2_tier_representative_index_witness :
  nth_error (Hierarchy._get_indent_levels indents_0_5_20_40) 1
  = Some (Float.of_Z 20) /\
  Hierarchy._get_indent_level (Float.of_Z 20)
    (Hierarchy._get_indent_levels indents_0_5_20_40) = Ok 1%Z.
Proof.
  assert (nth_error (Hierarchy._get_indent_levels indents_0_5_20_40) 1
          = Some (Float.of_Z 20)) as H by reflexivity.
  split; [exact H|].
  exact (@X2_tier_representative_index indents_0_5_20_40 1 (Float.of_Z 20) H).
Defined.

Lemma ltb_ge (x y : Qc) : Float.ltb x y = false <-> (y <= x)%Qc.
Proof.
  split.
  - intros H. apply Qcnot_lt_le. intros Hlt. apply ltb_lt in Hlt. congruence.
  - intros H. destruct (Float.ltb x y) eqn:E; [|reflexivity].
    apply ltb_lt in E. exfalso. exact (Qcle_not_lt _ _ H E).
Qed.

Lemma leb_gt (x y : Qc) : Float.leb x y = false <-> (y < x)%Qc.
Proof.
  unfold Float.leb. rewrite negb_false_iff. apply ltb_lt.
Qed.

(** Case analysis on every float comparison of the goal. *)
Ltac float_cases :=
  repeat match goal with
  | |- context [Float.ltb ?a ?b] =>
      let E := fresh "E" in
      destruct (Float.ltb a b) eqn:E;
      [apply ltb_lt in E | apply ltb_ge in E]
  | |- context [Float.leb ?a ?b] =>
      let E := fresh "E" in
      destruct (Float.leb a b) eqn:E;
      [apply leb_le in E | apply leb_gt in E]
  end.

Module LevelFacts.
Import Hierarchy.

Lemma size_level_mono (fs : list Qc) (s1 s2 : Qc) :
  (s1 <= s2)%Qc -> (size_level fs s2 <= size_level fs s1)%Z.
Proof.
  intros H. unfold size_level.
  destruct (len fs =? 0)%Z, (1 <=? len fs)%Z, (2 <=? len fs)%Z,
           (3 <=? len fs)%Z;
    float_cases; cbn; try lia; exfalso; float_arith; lra.
Qed.

Lemma indent_adjust_mono (l1 l2 k : Z) :
  (l1 <= l2)%Z -> (indent_adjust l1 k <= indent_adjust l2 k)%Z.
Proof. intros H. unfold indent_adjust. destruct (0 <? k)%Z; lia. Qed.

Lemma bold_adjust_mono (l1 l2 : Z) (bold : bool) :
  (l1 <= l2)%Z -> (bold_adjust l1 bold <= bold_adjust l2 bold)%Z.
Proof.
  intros H. unfold bold_adjust.
  destruct bold; cbn; [|exact H].
  destruct (1 <? l1)%Z eqn:E1, (1 <? l2)%Z eqn:E2; lia.
Qed.

Lemma size_level_unsized (fs : list Qc) (s : Qc) :
  (s <= Float.of_Z 0)%Qc -> size_level fs s = 4%Z.
Proof.
  intros H. unfold size_level.
  apply ltb_ge in H. now rewrite H.
Qed.

Lemma indent_adjust_4 (k : Z) : (0 <= k)%Z -> indent_adjust 4 k = 4%Z.
Proof. intros H. unfold indent_adjust. destruct (0 <? k)%Z; lia. Qed.

Lemma get_indent_level_nonneg (x : Qc) (l : list Qc) (k : Z) :
  _get_indent_level x l = Ok k -> (0 <= k)%Z.
Proof.
  unfold _get_indent_level.
  destruct (first_within x 0 l) as [j|] eqn:E.
  - intros [= <-]. apply HierarchyFacts.first_within_bounds in E. lia.
  - destruct l as [|a l]; [discriminate|].
    intros [= <-]. destruct (Float.ltb _ _); [apply HierarchyFacts.len_nonneg|lia].
Qed.

Lemma last_in (l : list Qc) (d : Qc) : l <> [] -> In (last l d) l.
Proof.
  induction l as [|a l IH]; [congruence|]. intros _.
  destruct l as [|b l]; [now left|].
  right. apply IH. discriminate.
Qed.

Lemma hd_increasing (a : Qc) (l : list Qc) (x : Qc) :
  increasing (a :: l) -> In x (a :: l) -> (a <= x)%Qc.
Proof.
  intros H [<-|Hx]; [apply Qcle_refl|].
  apply StronglySorted_inv in H. destruct H as [_ H].
  rewrite Forall_forall in H. apply Qclt_le_weak. now apply H.
Qed.

End LevelFacts.

(** X3. Of two blocks with the same indentation and the same bold flag,
    classified against the same font sizes and tiers, the one with the
    larger font size never gets the deeper level. *)
Theorem X3_larger_font_never_deeper
        (fs tiers : list Qc) (b1 b2 : Block) (l1 l2 : Z) :
  Hierarchy.block_level fs tiers b1 = Ok l1 ->
  Hierarchy.block_level fs tiers b2 = Ok l2 ->
  indentation b1 = indentation b2 ->
  is_bold b1 = is_bold b2 ->
  (font_size b1 <= font_size b2)%Qc ->
  (l2 <= l1)%Z.
Proof.
  unfold Hierarchy.block_level. intros H1 H2 Ei Eb Hs.
  rewrite Ei, Eb in H1.
  destruct (Hierarchy._get_indent_level (indentation b2) tiers) as [k|e];
    [|discriminate].
  simpl in H1, H2. inversion H1; inversion H2; subst l1 l2.
  apply LevelFacts.bold_adjust_mono, LevelFacts.indent_adjust_mono.
  now apply LevelFacts.size_level_mono.
Qed.

Lemma X3_larger_font_never_deeper_witness :
  Hierarchy.block_level [Float.of_Z 10; Float.of_Z 14] [Float.of_Z 0]
    (sample_block (Float.of_Z 10) (Float.of_Z 0) false) = Ok 2%Z /\
  Hierarchy.block_level [Float.of_Z 10; Float.of_Z 14] [Float.of_Z 0]
    (sample_block (Float.of_Z 14) (Float.of_Z 0) false) = Ok 1%Z /\
  (1 <= 2)%Z.
Proof.
  split; [reflexivity|]. split; [reflexivity|].
  apply (@X3_larger_font_never_deeper
           [Float.of_Z 10; Float.of_Z 14] [Float.of_Z 0]
           (sample_block (Float.of_Z 10) (Float.of_Z 0) false)
           (sample_block (Float.of_Z 14) (Float.of_Z 0) false) 2 1);
    [reflexivity|reflexivity|reflexivity|reflexivity|].
  intros H. vm_compute in H. discriminate.
Defined.

(** X4. A block whose font size is not positive gets level 4, or level 3
    when it is bold, whatever its indentation and whatever the font sizes
    and tiers of the document. *)
Theorem X4_unsized_block_level
        (fs tiers : list Qc) (b : Block) (l : Z) :
  Hierarchy.block_level fs tiers b = Ok l ->
  (font_size b <= Float.of_Z 0)%Qc ->
  l = if is_bold b then 3%Z else 4%Z.
Proof.
  unfold Hierarchy.block_level. intros H Hs.
  destruct (Hierarchy._get_indent_level (indentation b) tiers) as [k|e] eqn:E;
    [|discriminate].
  simpl in H. inversion H; subst l.
  rewrite (@LevelFacts.size_level_unsized fs _ Hs).
  rewrite LevelFacts.indent_adjust_4
    by (now apply (@LevelFacts.get_indent_level_nonneg (indentation b) tiers)).
  now destruct (is_bold b).
Qed.

Lemma X4_unsized_block_level_witness :
  Hierarchy.block_level [Float.of_Z 10] [Float.of_Z 0]
    (sample_block (Float.of_Z 0) (Float.of_Z 30) true) = Ok 3%Z /\
  3%Z = (if is_bold (sample_block (Float.of_Z 0) (Float.of_Z 30) true)
         then 3%Z else 4%Z).
Proof.
  split; [reflexivity|].
  apply (@X4_unsized_block_level [Float.of_Z 10] [Float.of_Z 0]
           (sample_block (Float.of_Z 0) (Float.of_Z 30) true) 3);
    [reflexivity|].
  intros H. vm_compute in H. discriminate.
Defined.

(** X5. In a document, a block that has a positive font size no smaller
    than any other block's and an indentation no larger than any other
    block's is given level 1 by the hierarchy pass, bold or not. *)
Theorem X5_top_block_level_1 (blocks : list Block) (i : nat) (b : Block) :
  nth_error blocks i = Some b ->
  (Float.of_Z 0 < font_size b)%Qc ->
  (forall b', In b' blocks -> (font_size b' <= font_size b)%Qc) ->
  (forall b', In b' blocks -> (indentation b <= indentation b')%Qc) ->
  exists out,
    Hierarchy._analyze_hierarchy blocks = Ok out /\
    nth_error out i = Some (set_hierarchy_level b 1).
Proof.
  intros Hi Hpos Hmax Hmin.
  assert (In b blocks) as Hb by (eapply nth_error_In; exact Hi).
  eexists. split; [apply OrderFacts.analyze_hierarchy_map|].
  rewrite nth_error_map, Hi. simpl. f_equal.
  assert (Hierarchy.block_level (Hierarchy.font_sizes_of blocks)
            (Hierarchy.tiers_of blocks) b = Ok 1%Z) as E.
  2: { unfold Hierarchy.relevel, Hierarchy.classify. now rewrite E. }
  unfold Hierarchy.block_level.
  (* the indentation is within the first tier *)
  assert (Hierarchy._get_indent_level (indentation b)
            (Hierarchy.tiers_of blocks) = Ok 0%Z) as ->.
  { unfold Hierarchy.tiers_of.
    pose proof (TierFacts.get_indent_levels_head
                  (Hierarchy.indentations_of blocks)) as Hh.
    assert (In (indentation b) (Hierarchy.indentations_of blocks)) as Hin.
    { unfold Hierarchy.indentations_of. rewrite in_sorted, in_py_set.
      now apply in_map. }
    assert (increasing (Hierarchy.indentations_of blocks)) as Hinc
      by (apply increasing_sorted, NoDup_py_set).
    destruct (Hierarchy.indentations_of blocks) as [|a rest] eqn:Ea;
      [contradiction|].
    destruct (Hierarchy._get_indent_levels (a :: rest)) as [|t ts] eqn:Et;
      [discriminate|].
    simpl in Hh. inversion Hh; subst t.
    assert (a = indentation b) as ->.
    { assert (In a (Hierarchy.indentations_of blocks)) as Ha
        by (rewrite Ea; now left).
      unfold Hierarchy.indentations_of in Ha.
      rewrite in_sorted, in_py_set, in_map_iff in Ha.
      destruct Ha as [b' [<- Hb']].
      apply Qcle_antisym; [|now apply Hmin].
      now apply (@LevelFacts.hd_increasing _ rest). }
    unfold Hierarchy._get_indent_level. cbn [Hierarchy.first_within].
    replace (Float.ltb (Float.dist (indentation b) (indentation b))
                       (Float.of_Z 10)) with true; [reflexivity|].
    symmetry. apply ltb_lt. float_arith.
    apply Qabs.Qabs_case; intros; lra. }
  simpl.
  (* the font size is the largest one *)
  assert (Hierarchy.size_level (Hierarchy.font_sizes_of blocks) (font_size b)
          = 1%Z) as ->.
  { assert (In (font_size b) (Hierarchy.font_sizes_of blocks)) as Hin.
    { unfold Hierarchy.font_sizes_of.
      rewrite in_sorted, in_py_set, OrderFacts.in_positive_sizes. split.
      - now apply ltb_lt.
      - now apply in_map. }
    assert (Hierarchy.font_sizes_of blocks <> []) as Hne
      by (intros E0; rewrite E0 in Hin; exact Hin).
    pose proof (@LevelFacts.last_in _ (Float.of_Z 0) Hne) as Hl.
    unfold Hierarchy.font_sizes_of in Hl at 2.
    rewrite in_sorted, in_py_set, OrderFacts.in_positive_sizes in Hl.
    destruct Hl as [_ Hl]. apply in_map_iff in Hl.
    destruct Hl as [b' [Eb' Hb']].
    unfold Hierarchy.size_level.
    rewrite HierarchyFacts.from_end_last, <- Eb'.
    replace (Float.ltb (Float.of_Z 0) (font_size b)) with true
      by (symmetry; now apply ltb_lt).
    replace (Float.leb (font_size b') (font_size b)) with true
      by (symmetry; apply leb_le; now apply Hmax).
    assert (1 <= len (Hierarchy.font_sizes_of blocks))%Z as Hlen.
    { unfold len. destruct (Hierarchy.font_sizes_of blocks);
        [congruence|simpl; lia]. }
    replace (len (Hierarchy.font_sizes_of blocks) =? 0)%Z with false
      by (symmetry; apply Z.eqb_neq; lia).
    replace (1 <=? len (Hierarchy.font_sizes_of blocks))%Z with true
      by (symmetry; apply Z.leb_le; lia).
    reflexivity. }
  unfold Hierarchy.indent_adjust, Hierarchy.bold_adjust. simpl.
  now rewrite andb_false_r.
Qed.

Lemma X5_top_block_level_1_witness :
  exists out,
    Hierarchy._analyze_hierarchy [heading_block; body_block] = Ok out /\
    nth_error out 0 = Some (set_hierarchy_level heading_block 1).
Proof.
  apply (@X5_top_block_level_1 [heading_block; body_block] 0 heading_block).
  - reflexivity.
  - reflexivity.
  - intros b' [<-|[<-|[]]]; intros H; vm_compute in H; discriminate.
  - intros b' [<-|[<-|[]]]; intros H; vm_compute in H; discriminate.
Defined.

(** X6. The hierarchy pass is idempotent: run on its own result it returns
    that result unchanged, because the levels depend only on font size,
    indentation and bold flag, which the pass does not touch. *)
Theorem X6_analyze_hierarchy_idempotent (blocks : list Block) :
  analyze_twice blocks = Hierarchy._analyze_hierarchy blocks.
Proof.
  unfold analyze_twice.
  rewrite (OrderFacts.analyze_hierarchy_map blocks). simpl.
  rewrite OrderFacts.analyze_hierarchy_map. f_equal.
  rewrite (@OrderFacts.font_sizes_of_ext _ blocks).
  2: { intros s. rewrite OrderFacts.map_attr_relevel; [tauto|].
       apply OrderFacts.relevel_font_size. }
  rewrite (@OrderFacts.tiers_of_ext _ blocks).
  2: { intros s. rewrite OrderFacts.map_attr_relevel; [tauto|].
       apply OrderFacts.relevel_indentation. }
  rewrite map_map. apply map_ext. intros b. apply OrderFacts.relevel_idem.
Qed.

Module NameFacts.
Import Association.

(** [c / n > 0.5] on the integers. *)
Lemma ratio_gt_half (c n : Z) :
  (0 < n)%Z ->
  Float.ltb (Float.frac 1 2) (Float.of_Z c / Float.of_Z n)%Qc = true
  <-> (n < 2 * c)%Z.
Proof.
  intros Hn. rewrite ltb_lt. destruct n as [|p|p]; try lia.
  unfold Qclt, Qcdiv, Qcmult, Qcinv, Float.of_Z, Float.frac, Q2Qc.
  cbn [this]. rewrite !Qred_correct.
  unfold inject_Z, Qinv, Qlt, Qmult. cbn. destruct c; lia.
Qed.

Lemma digit_zeros_not_chinese :
  forallb (fun z => (z + 9 <? 0x4E00)%N || (0x9FA5 <? z)%N)
          Unicode.digit_zeros = true.
Proof. vm_compute. reflexivity. Qed.

Lemma chinese_not_code (c : N) : is_chinese c = true -> code_char c = false.
Proof.
  unfold is_chinese. rewrite andb_true_iff, !N.leb_le. intros [Hlo Hhi].
  apply not_true_is_false. unfold code_char.
  rewrite !orb_true_iff, !N.eqb_eq. intros [[[H|H]|H]|H]; try lia.
  - unfold Unicode.is_digit in H. apply existsb_exists in H.
    destruct H as [z [Hz H]].
    rewrite andb_true_iff, !N.leb_le in H.
    pose proof digit_zeros_not_chinese as T.
    rewrite forallb_forall in T. specialize (T z Hz).
    rewrite orb_true_iff, !N.ltb_lt in T. lia.
  - unfold Unicode.is_space in H.
    rewrite !orb_true_iff, !andb_true_iff, !N.eqb_eq, !N.leb_le in H. lia.
Qed.

Lemma code_chars_no_chinese (l : pystr) :
  forallb code_char l = true -> filter is_chinese l = [].
Proof.
  induction l as [|c l IH]; [reflexivity|]. simpl.
  rewrite andb_true_iff. intros [Hc Hl].
  destruct (is_chinese c) eqn:E; [|now apply IH].
  apply chinese_not_code in E. congruence.
Qed.

Lemma chinese_count_bounds (text : pystr) :
  (0 <= chinese_count text <= len text)%Z.
Proof.
  unfold chinese_count, len.
  pose proof (filter_length_le is_chinese text). lia.
Qed.

Lemma majority_not_code (text : pystr) :
  (len text < 2 * chinese_count text)%Z -> only_code_chars text = false.
Proof.
  intros H. unfold only_code_chars.
  destruct text as [|c t] eqn:Et; [reflexivity|]. rewrite <- Et in *.
  apply not_true_is_false.
  rewrite orb_true_iff, !andb_true_iff, N.eqb_eq.
  pose proof (HierarchyFacts.len_nonneg text) as Hn.
  unfold chinese_count in H.
  intros [F|[[F L] _]].
  - rewrite (code_chars_no_chinese _ F) in H. unfold len in H at 2.
    simpl in H. lia.
  - assert (text <> []) as Hne by (rewrite Et; discriminate).
    assert (filter is_chinese text = []) as E.
    { rewrite (app_removelast_last 0%N Hne) at 1.
      rewrite filter_app, (code_chars_no_chinese _ F), L. reflexivity. }
    rewrite E in H. unfold len in H at 2. simpl in H. lia.
Qed.

Lemma is_occupation_name_iff (text : pystr) :
  _is_occupation_name text = true
  <-> only_code_chars text = false /\
      (has_job_keyword text = true \/
       (len text < 2 * chinese_count text)%Z).
Proof.
  unfold _is_occupation_name, has_job_keyword.
  destruct (only_code_chars text);
    [split; [discriminate|intros [? _]; discriminate]|].
  destruct (existsb _ job_keywords); [tauto|].
  destruct text as [|c t] eqn:Et.
  - split; [discriminate|]. intros [_ [H|H]]; [discriminate|].
    unfold chinese_count, len in H. simpl in H. lia.
  - rewrite <- Et. fold (chinese_count text).
    rewrite ratio_gt_half by (rewrite Et; unfold len; simpl; lia).
    split; [now auto|]. intros [_ [H|H]]; [discriminate|exact H].
Qed.

End NameFacts.

(** X7. The label predicate accepts a text exactly when the text is not
    made of digits, white space, hyphens and dots only, and either contains
    one of the job keywords or has more than half of its characters in
    U+4E00..U+9FA5; the empty text is rejected without a division by
    zero. *)
Theorem X7_is_occupation_name_iff (text : pystr) :
  Association._is_occupation_name text = true
  <-> Association.only_code_chars text = false /\
      (has_job_keyword text = true \/
       (len text < 2 * chinese_count text)%Z).
Proof. apply NameFacts.is_occupation_name_iff. Qed.

(** X8. A text more than half of whose characters lie in U+4E00..U+9FA5 is
    always accepted by the label predicate: such a text can never consist
    of code characters only. *)
Theorem X8_majority_chinese_accepted (text : pystr) :
  (len text < 2 * chinese_count text)%Z ->
  Association._is_occupation_name text = true.
Proof.
  intros H. apply NameFacts.is_occupation_name_iff; split; [now apply NameFacts.majority_not_code|].
  now right.
Qed.

Lemma X8_majority_chinese_accepted_witness :
  Association._is_occupation_name [0x4E2D; 0x6587; 0x41]%N = true.
Proof.
  apply (@X8_majority_chinese_accepted [0x4E2D; 0x6587; 0x41]%N).
  vm_compute. reflexivity.
Defined.

Module PassFacts.
Import Association.

Lemma scan_candidates_reads (block : Block) (candidates : list Block) :
  same_reads block (scan_candidates block candidates) /\
  height (scan_candidates block candidates) = height block /\
  has_code (scan_candidates block candidates) = has_code block.
Proof.
  rewrite AssociationFacts.scan_candidates_find.
  destruct (find (qualifies block) candidates); repeat split.
Qed.

Lemma match_occupation_info_reads (blocks : list Block) :
  Forall2 same_reads blocks (_match_occupation_info blocks).
Proof.
  induction blocks as [|b rest IH]; simpl; constructor; [|exact IH].
  destruct (has_code b); [apply scan_candidates_reads|split; reflexivity].
Qed.

Lemma Forall2_firstn (A B : Type) (R : A -> B -> Prop) (n : nat) :
  forall l l', Forall2 R l l' -> Forall2 R (firstn n l) (firstn n l').
Proof.
  induction n as [|n IH]; intros l l' H; [constructor|].
  destruct H; simpl; constructor; auto.
Qed.

Lemma find_qualifies_reads (b b1 : Block) (cs cs' : list Block) :
  center_y b1 = center_y b -> height b1 = height b ->
  Forall2 same_reads cs cs' ->
  match find (qualifies b) cs, find (qualifies b1) cs' with
  | Some c, Some c' => text c' = text c /\ same_row b1 c' = same_row b c
  | None, None => True
  | _, _ => False
  end.
Proof.
  intros Ey Eh H. induction H as [|c c' cs cs' [Et Ec] _ IH]; [exact I|].
  simpl.
  assert (same_row b1 c' = same_row b c) as Es
    by (unfold same_row; now rewrite Ey, Eh, Ec).
  assert (qualifies b1 c' = qualifies b c) as ->
    by (unfold qualifies, next_row; now rewrite Es, Et, Ey, Eh, Ec).
  destruct (qualifies b c); [split; assumption|exact IH].
Qed.

Lemma scan_candidates_again (b : Block) (cs cs' : list Block) :
  Forall2 same_reads cs cs' ->
  scan_candidates (scan_candidates b cs) cs' = scan_candidates b cs.
Proof.
  intros H.
  destruct (scan_candidates_reads b cs) as [[_ Ey] [Eh _]].
  pose proof (@find_qualifies_reads b (scan_candidates b cs) cs cs' Ey Eh H)
    as F.
  rewrite (AssociationFacts.scan_candidates_find (scan_candidates b cs) cs').
  destruct (find (qualifies (scan_candidates b cs)) cs') as [c'|];
    rewrite (AssociationFacts.scan_candidates_find b cs) in *;
    destruct (find (qualifies b) cs) as [c|]; try contradiction;
    [|reflexivity].
  destruct F as [-> ->]. reflexivity.
Qed.

End PassFacts.

(** X9. The association pass is idempotent: it reads only the text, the
    vertical centre, the height and the code of the blocks, which it never
    writes, so a second run finds the same labels and stores the same
    names and confidences. *)
Theorem X9_match_occupation_info_idempotent (blocks : list Block) :
  match_twice blocks = Association._match_occupation_info blocks.
Proof.
  unfold match_twice.
  induction blocks as [|b rest IH]; [reflexivity|].
  cbn [Association._match_occupation_info]. rewrite IH. f_equal.
  destruct (Association.has_code b) eqn:E; [|now rewrite E].
  destruct (PassFacts.scan_candidates_reads b (firstn 4 rest))
    as [_ [_ ->]].
  rewrite E. apply PassFacts.scan_candidates_again.
  apply PassFacts.Forall2_firstn, PassFacts.match_occupation_info_reads.
Qed.

Module ExtractFacts.
Import Fitz EnhancedPDFProcessor.

Lemma with_code_block (env : Env) (tid : pystr) (pn n : Z) (t : pystr)
      (span : Span) :
  let b := with_code (make_block tid pn n t span None)
                     (env_xixi_findall env t) in
  block_num b = n /\ page_num b = (pn + 1)%Z /\ task_id b = tid /\
  text b = t /\ fresh_block b /\
  (x0 b, y0 b, x1 b, y1 b) = span_bbox span /\
  font b = span_font span /\ font_size b = span_size span /\
  font_flags b = span_flags span /\ font_color b = span_color span.
Proof.
  cbn zeta. unfold make_block, fresh_block.
  destruct (span_bbox span) as [[[a b] c] d].
  destruct (env_xixi_findall env t); cbn; repeat split.
Qed.

Lemma blocks_of_spans_nth (env : Env) (tid : pystr) (pn : Z)
      (spans : list Span) :
  forall (n : Z) (k : nat) (b : Block),
    nth_error (blocks_of_spans env tid pn n spans) k = Some b ->
    block_num b = (n + Z.of_nat k)%Z /\
    page_num b = (pn + 1)%Z /\ task_id b = tid /\ text b <> [] /\
    fresh_block b /\
    exists span, In span spans /\ block_of_span b span.
Proof.
  induction spans as [|span rest IH]; intros n k b H;
    [destruct k; discriminate|].
  cbn [blocks_of_spans] in H.
  destruct (Unicode.strip (span_text span)) as [|c t] eqn:Et.
  - destruct (IH n k b H) as (? & ? & ? & ? & ? & s & Hs & ?).
    repeat (split; [assumption|]). exists s. split; [now right|assumption].
  - destruct k as [|k].
    + simpl in H. inversion H as [Hb]. clear H.
      destruct (with_code_block env tid pn n (c :: t) span)
        as (E1 & E2 & E3 & E4 & E5 & E6 & E7 & E8 & E9 & E10).
      rewrite Hb in *.
      split; [lia|]. split; [exact E2|]. split; [exact E3|].
      split; [rewrite E4; discriminate|]. split; [exact E5|].
      exists span. split; [now left|].
      unfold block_of_span. rewrite Et. repeat split; assumption.
    + simpl in H.
      destruct (IH (n + 1)%Z k b H) as (? & ? & ? & ? & ? & s & Hs & ?).
      split; [lia|]. repeat (split; [assumption|]).
      exists s. split; [now right|assumption].
Qed.

Lemma blocks_of_spans_length (env : Env) (tid : pystr) (pn : Z)
      (spans : list Span) :
  forall n, (length (blocks_of_spans env tid pn n spans) <= length spans)%nat.
Proof.
  induction spans as [|span rest IH]; intros n; [simpl; lia|].
  cbn [blocks_of_spans].
  destruct (Unicode.strip (span_text span)).
  - specialize (IH n). simpl. lia.
  - specialize (IH (n + 1)%Z). simpl. lia.
Qed.

End ExtractFacts.

(** X10. When [_extract_page_blocks] returns, the k-th block it returns
    has block number k (the blank spans that are skipped leave no gap),
    the one-based page number and the task id; its text is not empty and
    is the stripped text of a span of a text block of the page, whose font
    attributes and bounding box it carries; width, height, centre and
    indentation are derived from that box, and no level, name or
    confidence is set yet.  No more blocks are returned than the page has
    spans. *)
Theorem X10_extract_page_blocks_shape
        (env : Env) (page : Fitz.Page) (page_no : Z) (tid : pystr)
        (page_dict : list Fitz.DictBlock) (blocks : list Block) :
  Fitz.page_text_dict page = Ok page_dict ->
  EnhancedPDFProcessor._extract_page_blocks env page page_no tid = Ok blocks ->
  (len blocks <= len (EnhancedPDFProcessor.text_spans page_dict))%Z /\
  forall (k : nat) (b : Block),
    nth_error blocks k = Some b ->
    block_num b = Z.of_nat k /\
    page_num b = (page_no + 1)%Z /\
    task_id b = tid /\
    text b <> [] /\
    fresh_block b /\
    exists span,
      In span (EnhancedPDFProcessor.text_spans page_dict) /\
      block_of_span b span.
Proof.
  unfold EnhancedPDFProcessor._extract_page_blocks. intros -> H.
  simpl in H. inversion H as [Hb]. clear H. split.
  - unfold len.
    pose proof (ExtractFacts.blocks_of_spans_length env tid page_no
                  (EnhancedPDFProcessor.text_spans page_dict) 0).
    lia.
  - intros k b Hk.
    destruct (ExtractFacts.blocks_of_spans_nth _ _ _ _ _ _ Hk)
      as (E & R).
    split; [lia|exact R].
Qed.

Lemma X10_extract_page_blocks_shape_witness :
  exists blocks,
    EnhancedPDFProcessor._extract_page_blocks
      (Sample.env_with Sample.no_files 0) (Sample.page_of (ascii_str "A")) 0
      Sample.task_T1 = Ok blocks /\
    forall (k : nat) (b : Block),
      nth_error blocks k = Some b ->
      block_num b = Z.of_nat k /\ page_num b = (0 + 1)%Z /\
      task_id b = Sample.task_T1 /\ text b <> [] /\ fresh_block b.
Proof.
  eexists. split; [reflexivity|]. intros k b Hk.
  destruct (@X10_extract_page_blocks_shape
              (Sample.env_with Sample.no_files 0)
              (Sample.page_of (ascii_str "A")) 0 Sample.task_T1
              _ _ eq_refl eq_refl) as [_ H].
  destruct (H k b Hk) as (E1 & E2 & E3 & E4 & E5 & _).
  exact (conj E1 (conj E2 (conj E3 (conj E4 E5)))).
Defined.

Module SuccessFacts.
Import Fitz Store EnhancedPDFProcessor.

Lemma match_occupation_info_level (blocks : list Block) :
  map hierarchy_level (Association._match_occupation_info blocks)
  = map hierarchy_level blocks.
Proof.
  induction blocks as [|b rest IH]; [reflexivity|].
  cbn [Association._match_occupation_info map]. rewrite IH. f_equal.
  destruct (Association.has_code b); [|reflexivity].
  rewrite AssociationFacts.scan_candidates_find.
  now destruct (find _ _).
Qed.

Lemma analyze_hierarchy_levelled (blocks out : list Block) :
  Hierarchy._analyze_hierarchy blocks = Ok out ->
  Forall (fun l => exists z, l = Some z /\ (1 <= z <= 4)%Z)
         (map hierarchy_level out).
Proof.
  intros E.
  destruct (HierarchyFacts.analyze_hierarchy_levels blocks) as [out' [E' H]].
  rewrite E in E'. inversion E'; subst out'. clear E E'.
  induction H as [|b b' bs out' [l [_ [-> Hl]]] _ IH]; constructor;
    [|exact IH].
  exists l. split; [reflexivity|exact Hl].
Qed.

(** The snapshot step of [process_pdf_with_blocks]: whether it raises or
    not, the block table is left alone and either no snapshot or one per
    page is reported. *)
Lemma snapshot_step (env : Env) (tid : pystr) (doc : Document)
      (extract_snapshots : bool) (w : World) :
  let step :=
    if extract_snapshots then
      match PageSnapshotService.extract_page_snapshots
              env tid doc 150 true w with
      | (w', Ok infos) => (w', infos)
      | (w', Raise _) => (w', [])
      end
    else (w, []) in
  block_rows (fst step) = block_rows w /\
  (len (snd step) = 0%Z \/ len (snd step) = len (doc_pages doc)).
Proof.
  cbn zeta. destruct extract_snapshots; [|split; [reflexivity|now left]].
  pose proof (SnapshotFacts.extract_page_snapshots_tables
                env tid doc 150 true w) as T.
  cbn zeta in T. destruct T as [_ [_ T]].
  unfold PageSnapshotService.extract_page_snapshots in *.
  pose proof (SnapshotFacts.snapshot_loop_spec env tid 150 true
                (doc_pages doc) 0 w [] []) as L.
  cbn zeta in L. destruct L as [_ L].
  destruct (PageSnapshotService.snapshot_loop env tid 150 true
              (doc_pages doc) 0 w [] []) as [w' [[pending infos]|e]];
    simpl in *; (split; [exact T|]); [|now left].
  destruct L as [_ [records [_ [Hl _]]]]. right. unfold len.
  simpl in Hl. now rewrite Hl.
Qed.

End SuccessFacts.

(** X11. When the document opens and every page can be read,
    [process_pdf_with_blocks] with [save_to_db] returns a result, whether
    or not the snapshot extraction fails: it appends to the block table
    exactly [total_blocks] rows, all of the task and all with a level
    between 1 and 4; the reported page count is the length of the
    document, the number of coded blocks does not exceed the number of
    blocks, and the number of snapshots reported is either zero or the
    page count. *)
Theorem X11_process_pdf_with_blocks_success
        (env : Env) (tid file_path : pystr) (extract_snapshots : bool)
        (w : Store.World) :
  document_read_fails env file_path = false ->
  exists result rows doc,
    snd (EnhancedPDFProcessor.process_pdf_with_blocks
           env tid file_path true extract_snapshots w) = Ok result /\
    Store.block_rows
      (fst (EnhancedPDFProcessor.process_pdf_with_blocks
              env tid file_path true extract_snapshots w))
    = Store.block_rows w ++ rows /\
    EnhancedPDFProcessor.br_total_blocks result = len rows /\
    Forall (levelled_row tid) rows /\
    Fitz.open (env_fs env) file_path = Ok doc /\
    EnhancedPDFProcessor.br_page_count result = len (Fitz.doc_pages doc) /\
    (0 <= EnhancedPDFProcessor.br_with_occupation_code result
       <= EnhancedPDFProcessor.br_total_blocks result)%Z /\
    (EnhancedPDFProcessor.br_snapshots_extracted result = 0%Z \/
     EnhancedPDFProcessor.br_snapshots_extracted result
     = EnhancedPDFProcessor.br_page_count result).
Proof.
  unfold document_read_fails. intros F.
  unfold EnhancedPDFProcessor.process_pdf_with_blocks,
         EnhancedPDFProcessor.process_try.
  destruct (Fitz.open (env_fs env) file_path) as [doc|e]; [|discriminate].
  destruct (EnhancedPDFProcessor.read_pages env tid (Fitz.doc_pages doc) 0)
    as [[[all_blocks texts] codes]|e] eqn:R.
  2: { assert (existsb page_read_fails (Fitz.doc_pages doc) = true) as T
         by (apply (WorkerFacts.read_pages_result env tid (Fitz.doc_pages doc) 0);
             now exists e).
       congruence. }
  pose proof (SuccessFacts.snapshot_step env tid doc extract_snapshots w) as S.
  cbn zeta in S.
  destruct (if extract_snapshots
            then match PageSnapshotService.extract_page_snapshots
                         env tid doc 150 true w with
                 | (w', Ok infos) => (w', infos)
                 | (w', Raise _) => (w', [])
                 end
            else (w, [])) as [w1 infos].
  simpl in S. destruct S as [Sw Sn].
  destruct (HierarchyFacts.analyze_hierarchy_levels all_blocks)
    as [classified [E _]].
  rewrite E.
  pose proof (SuccessFacts.analyze_hierarchy_levelled _ E) as Hl.
  rewrite <- SuccessFacts.match_occupation_info_level in Hl.
  eexists. exists (map (EnhancedPDFProcessor.block_row tid)
                       (Association._match_occupation_info classified)).
  exists doc. cbn.
  split; [reflexivity|]. split; [now rewrite Sw|].
  split; [unfold len; now rewrite length_map|].
  split.
  { apply Forall_forall. intros row Hr. apply in_map_iff in Hr.
    destruct Hr as [b [<- Hb]]. split; [reflexivity|].
    rewrite Forall_forall in Hl.
    destruct (Hl (hierarchy_level b)) as [z [Ez Hz]];
      [now apply in_map|].
    exists z. split; [exact Ez|exact Hz]. }
  split; [reflexivity|]. split; [reflexivity|]. split; [|exact Sn].
  cbn. unfold len.
  pose proof (filter_length_le Association.has_code
                (Association._match_occupation_info classified)).
  lia.
Qed.

Lemma X11_process_pdf_with_blocks_success_witness :
  exists result rows doc,
    snd (EnhancedPDFProcessor.process_pdf_with_blocks
           (Sample.env_with (Sample.fs_with Sample.doc_A_B) 0)
           Sample.task_T1 Sample.local_path true true Sample.world_T1)
    = Ok result /\
    Store.block_rows
      (fst (EnhancedPDFProcessor.process_pdf_with_blocks
              (Sample.env_with (Sample.fs_with Sample.doc_A_B) 0)
              Sample.task_T1 Sample.local_path true true Sample.world_T1))
    = Store.block_rows Sample.world_T1 ++ rows /\
    EnhancedPDFProcessor.br_total_blocks result = len rows /\
    Forall (levelled_row Sample.task_T1) rows /\
    Fitz.open (env_fs (Sample.env_with (Sample.fs_with Sample.doc_A_B) 0))
              Sample.local_path = Ok doc /\
    EnhancedPDFProcessor.br_page_count result = len (Fitz.doc_pages doc) /\
    (0 <= EnhancedPDFProcessor.br_with_occupation_code result
       <= EnhancedPDFProcessor.br_total_blocks result)%Z /\
    (EnhancedPDFProcessor.br_snapshots_extracted result = 0%Z \/
     EnhancedPDFProcessor.br_snapshots_extracted result
     = EnhancedPDFProcessor.br_page_count result).
Proof.
  apply (@X11_process_pdf_with_blocks_success
           (Sample.env_with (Sample.fs_with Sample.doc_A_B) 0)
           Sample.task_T1 Sample.local_path true Sample.world_T1).
  reflexivity.
Defined.

Module DistributionFacts.
Import Blocks.

Lemma get_set (d : IntDict) (k v k' default : Z) :
  dict_get (dict_set d k v) k' default
  = if (k =? k')%Z then v else dict_get d k' default.
Proof.
  induction d as [|[k0 v0] d IH]; simpl.
  - reflexivity.
  - destruct (k0 =? k)%Z eqn:E; simpl.
    + apply Z.eqb_eq in E. subst k0.
      destruct (k =? k')%Z; reflexivity.
    + rewrite IH. destruct (k0 =? k')%Z eqn:E'; [|reflexivity].
      apply Z.eqb_eq in E'. subst k0. now rewrite Z.eqb_sym, E.
Qed.

Lemma total_set (d : IntDict) (k v : Z) :
  total (dict_set d k v) = (total d - dict_get d k 0 + v)%Z.
Proof.
  unfold total. induction d as [|[k0 v0] d IH]; simpl; [lia|].
  destruct (k0 =? k)%Z; simpl; lia.
Qed.

Lemma keys_set (d : IntDict) (k v : Z) :
  keys (dict_set d k v)
  = if existsb (Z.eqb k) (keys d) then keys d else keys d ++ [k].
Proof.
  unfold keys. induction d as [|[k0 v0] d IH]; simpl; [reflexivity|].
  rewrite (Z.eqb_sym k k0).
  destruct (k0 =? k)%Z eqn:E; simpl.
  - apply Z.eqb_eq in E. now subst k0.
  - rewrite IH. now destruct (existsb (Z.eqb k) (map fst d)).
Qed.

Lemma keys_set_NoDup (d : IntDict) (k v : Z) :
  NoDup (keys d) -> NoDup (keys (dict_set d k v)).
Proof.
  intros H. rewrite keys_set.
  destruct (existsb (Z.eqb k) (keys d)) eqn:E; [exact H|].
  apply NoDup_app; [exact H|repeat constructor; intros []|].
  intros x Hx [Ex|[]]. subst x.
  assert (existsb (Z.eqb k) (keys d) = true) as T
    by (apply existsb_exists; exists k; split; [exact Hx|apply Z.eqb_refl]).
  congruence.
Qed.

Lemma count_levels_spec (blocks : list Block) :
  forall d,
    total (count_levels blocks d) = (total d + len blocks)%Z /\
    (forall k, dict_get (count_levels blocks d) k 0
               = (dict_get d k 0
                  + len (filter (fun b => (level_or_4 b =? k)%Z) blocks))%Z) /\
    (NoDup (keys d) -> NoDup (keys (count_levels blocks d))) /\
    incl (keys d) (keys (count_levels blocks d)) /\
    ((forall b, In b blocks -> In (level_or_4 b) (keys d)) ->
     keys (count_levels blocks d) = keys d).
Proof.
  induction blocks as [|b rest IH]; intros d.
  - unfold len. simpl. repeat split; auto; try lia. apply incl_refl.
  - unfold count_levels in *. cbn [fold_left].
    set (d' := dict_set d (level_or_4 b) (dict_get d (level_or_4 b) 0 + 1)).
    destruct (IH d') as (T & G & N & I & K).
    split; [|split; [|split; [|split]]].
    + rewrite T. unfold d'. rewrite total_set. unfold len. simpl length. lia.
    + intros k. rewrite G. unfold d'. rewrite get_set. cbn [filter].
      destruct (level_or_4 b =? k)%Z eqn:E; unfold len; simpl length;
        [apply Z.eqb_eq in E; subst k|]; lia.
    + intros H. apply N. unfold d'. now apply keys_set_NoDup.
    + intros k Hk. apply I. unfold d'. rewrite keys_set.
      destruct (existsb _ _); [exact Hk|apply in_or_app; now left].
    + intros H.
      assert (keys d' = keys d) as Ek.
      { unfold d'. rewrite keys_set.
        replace (existsb (Z.eqb (level_or_4 b)) (keys d)) with true;
          [reflexivity|].
        symmetry. apply existsb_exists. exists (level_or_4 b).
        split; [apply H; now left|apply Z.eqb_refl]. }
      rewrite K, Ek; [reflexivity|].
      intros b' Hb'. rewrite Ek. apply H. now right.
Qed.

End DistributionFacts.

(** X12. The level distribution counts every block exactly once: its
    values add up to the number of blocks, the value under each level is
    the number of blocks of that level (a block without a level counting
    as level 4), no key occurs twice, and the keys 1 to 4 are always
    present. *)
Theorem X12_hierarchy_distribution_counts (blocks : list Block) :
  Blocks.total (Blocks._get_hierarchy_distribution blocks) = len blocks /\
  (forall k,
      Blocks.dict_get (Blocks._get_hierarchy_distribution blocks) k 0
      = len (filter (fun b => (Blocks.level_or_4 b =? k)%Z) blocks)) /\
  NoDup (Blocks.keys (Blocks._get_hierarchy_distribution blocks)) /\
  incl [1; 2; 3; 4]%Z
       (Blocks.keys (Blocks._get_hierarchy_distribution blocks)).
Proof.
  unfold Blocks._get_hierarchy_distribution.
  destruct (DistributionFacts.count_levels_spec blocks
              [(1, 0); (2, 0); (3, 0); (4, 0)]%Z) as (T & G & N & I & _).
  split; [rewrite T; reflexivity|].
  split.
  - intros k. rewrite G.
    assert (Blocks.dict_get [(1, 0); (2, 0); (3, 0); (4, 0)]%Z k 0 = 0%Z)
      as ->; [|lia].
    cbn [Blocks.dict_get].
    destruct (1 =? k)%Z, (2 =? k)%Z, (3 =? k)%Z, (4 =? k)%Z;
      reflexivity.
  - split; [|exact I]. apply N. simpl.
    repeat constructor; simpl; intuition discriminate.
Qed.

(** X13. On the blocks that the hierarchy pass and the association pass
    leave, the distribution has exactly the keys 1, 2, 3 and 4, in that
    order, and its values add up to the number of blocks of the
    document. *)
Theorem X13_distribution_of_classified (blocks out : list Block) :
  Hierarchy._analyze_hierarchy blocks = Ok out ->
  Blocks.keys (Blocks._get_hierarchy_distribution
                 (Association._match_occupation_info out))
  = [1; 2; 3; 4]%Z /\
  Blocks.total (Blocks._get_hierarchy_distribution
                  (Association._match_occupation_info out))
  = len blocks.
Proof.
  intros E.
  pose proof (SuccessFacts.analyze_hierarchy_levelled _ E) as Hl.
  rewrite <- SuccessFacts.match_occupation_info_level in Hl.
  unfold Blocks._get_hierarchy_distribution.
  destruct (DistributionFacts.count_levels_spec
              (Association._match_occupation_info out)
              [(1, 0); (2, 0); (3, 0); (4, 0)]%Z) as (T & _ & _ & _ & K).
  split.
  - rewrite K; [reflexivity|]. intros b Hb.
    rewrite Forall_forall in Hl.
    destruct (Hl (hierarchy_level b)) as [z [Ez Hz]]; [now apply in_map|].
    unfold Blocks.level_or_4. rewrite Ez. simpl.
    assert (z = 1 \/ z = 2 \/ z = 3 \/ z = 4)%Z as D by lia.
    intuition.
  - rewrite T. unfold len.
    rewrite AssociationFacts.match_occupation_info_length.
    rewrite (OrderFacts.analyze_hierarchy_map blocks) in E.
    inversion E. rewrite length_map. reflexivity.
Qed.

Lemma X13_distribution_of_classified_witness :
  exists out,
    Hierarchy._analyze_hierarchy [heading_block; body_block] = Ok out /\
    Blocks.keys (Blocks._get_hierarchy_distribution
                   (Association._match_occupation_info out))
    = [1; 2; 3; 4]%Z /\
    Blocks.total (Blocks._get_hierarchy_distribution
                    (Association._match_occupation_info out))
    = len [heading_block; body_block].
Proof.
  eexists. split; [reflexivity|].
  apply (@X13_distribution_of_classified [heading_block; body_block]).
  reflexivity.
Defined.

Lemma pystr_eqb_eq (a b : pystr) : pystr_eqb a b = true <-> a = b.
Proof.
  revert b. induction a as [|x a IH]; intros [|y b]; simpl;
    try (split; [discriminate|discriminate]); [tauto|].
  rewrite andb_true_iff, N.eqb_eq, IH. split.
  - intros [-> ->]. reflexivity.
  - intros [= -> ->]. split; reflexivity.
Qed.

Lemma pystr_eqb_refl (a : pystr) : pystr_eqb a a = true.
Proof. now apply pystr_eqb_eq. Qed.

Lemma pystr_eqb_neq (a b : pystr) : a <> b -> pystr_eqb a b = false.
Proof.
  intros H. apply not_true_is_false. intros E. apply H.
  now apply pystr_eqb_eq.
Qed.

(** X14. Saving the blocks of a task and querying the task without
    filters gives the rows found before followed by one row per saved
    block, in order, each under the task id passed to the save; what any
    query of another task finds is not changed by the save. *)
Theorem X14_save_then_query
        (tid : pystr) (blocks : list Block) (w : Store.World) :
  Blocks.query_blocks tid None
    (EnhancedPDFProcessor._save_blocks_to_db tid blocks w)
  = Blocks.query_blocks tid None w
    ++ map (EnhancedPDFProcessor.block_row tid) blocks /\
  (forall (other : pystr) (filters : option Blocks.Filters),
      other <> tid ->
      Blocks.query_blocks other filters
        (EnhancedPDFProcessor._save_blocks_to_db tid blocks w)
      = Blocks.query_blocks other filters w).
Proof.
  unfold Blocks.query_blocks, EnhancedPDFProcessor._save_blocks_to_db.
  cbn [Store.commit_blocks Store.block_rows]. split.
  - rewrite filter_app. f_equal.
    induction blocks as [|b rest IH]; [reflexivity|].
    cbn [map filter EnhancedPDFProcessor.block_row task_id].
    rewrite pystr_eqb_refl. cbn [Blocks.matches andb]. now f_equal.
  - intros other filters Hne. rewrite filter_app.
    rewrite <- (app_nil_r (filter _ (Store.block_rows w))) at 2. f_equal.
    induction blocks as [|b rest IH]; [reflexivity|].
    cbn [map filter EnhancedPDFProcessor.block_row task_id].
    rewrite (@pystr_eqb_neq tid other) by congruence. exact IH.
Qed.

Lemma matches_by_level (l : Z) (r : Block) :
  Blocks.matches (Blocks.by_level l) r
  = match hierarchy_level r with
    | Some l' => (l' =? l)%Z
    | None => false
    end.
Proof.
  unfold Blocks.matches, Blocks.by_level. simpl. apply andb_true_r.
Qed.

(** X15. When every committed row of a task has a level between 1 and 4,
    as the rows saved by the block extraction have, the four level
    filters of [query_blocks] split the rows of the task: the unfiltered
    query finds as many rows as the four level queries together. *)
Theorem X15_level_filters_partition (tid : pystr) (w : Store.World) :
  Forall (levelled_row tid) (Blocks.query_blocks tid None w) ->
  len (Blocks.query_blocks tid None w)
  = (level_count tid 1 w + level_count tid 2 w
     + level_count tid 3 w + level_count tid 4 w)%Z.
Proof.
  unfold level_count, Blocks.query_blocks, len.
  generalize (Store.block_rows w). intros rows.
  induction rows as [|r rows IH]; intros H; [reflexivity|].
  cbn [filter] in *. rewrite !matches_by_level.
  destruct (pystr_eqb (task_id r) tid); cbn [andb Blocks.matches] in *.
  - inversion H as [|? ? [_ [l [El Hl]]] H']; subst.
    specialize (IH H'). rewrite El.
    assert (l = 1 \/ l = 2 \/ l = 3 \/ l = 4)%Z as D by lia.
    destruct D as [-> | [-> | [-> | ->]]]; cbn [Z.eqb Pos.eqb length]; lia.
  - apply IH. exact H.
Qed.

Lemma X15_level_filters_partition_witness :
  len (Blocks.query_blocks Sample.task_T1 None world_one_row)
  = (level_count Sample.task_T1 1 world_one_row
     + level_count Sample.task_T1 2 world_one_row
     + level_count Sample.task_T1 3 world_one_row
     + level_count Sample.task_T1 4 world_one_row)%Z.
Proof.
  apply (@X15_level_filters_partition Sample.task_T1 world_one_row).
  repeat constructor. exists 1%Z. split; [reflexivity|lia].
Defined.

Module BucketFacts.
Import Fitz Store Layout PageSnapshotService.

Lemma wide_gaps_length (threshold : Qc) (xs : list Qc) :
  (length (wide_gaps threshold xs) <= pred (length xs))%nat.
Proof.
  induction xs as [|a rest IH]; [simpl; lia|].
  destruct rest as [|b rest]; [simpl; lia|].
  cbn [wide_gaps]. cbn [wide_gaps] in IH.
  destruct (Float.ltb threshold (b - a)); simpl in *; lia.
Qed.

Lemma upload_file_objects (env : Env) (key : pystr) (w : World) :
  match snd (upload_file env key w) with
  | Ok _ => objects (fst (upload_file env key w)) = objects w ++ [key]
  | Raise _ => fst (upload_file env key w) = w
  end.
Proof.
  unfold upload_file. destruct (env_upload env key) as [u|e];
    [reflexivity|].
  destruct (exc_class e); reflexivity.
Qed.

Lemma create_thumbnail_objects (env : Env) (tid : pystr) (n : Z)
      (img : list N) (w : World) :
  match snd (_create_thumbnail env tid n img w) with
  | Some p =>
      p = thumbnail_key tid n /\
      objects (fst (_create_thumbnail env tid n img w)) = objects w ++ [p]
  | None => fst (_create_thumbnail env tid n img w) = w
  end.
Proof.
  unfold _create_thumbnail.
  destruct (env_thumbnail env img) as [t|e]; [|reflexivity].
  pose proof (upload_file_objects env (thumbnail_key tid n) w) as H.
  destruct (upload_file env (thumbnail_key tid n) w) as [w' [u|e]];
    simpl in *; [split; [reflexivity|exact H]|exact H].
Qed.

Lemma create_thumbnail_incl (env : Env) (tid : pystr) (n : Z)
      (img : list N) (w : World) :
  incl (objects w) (objects (fst (_create_thumbnail env tid n img w))).
Proof.
  pose proof (create_thumbnail_objects env tid n img w) as H.
  destruct (snd (_create_thumbnail env tid n img w)) as [p|].
  - destruct H as [_ ->]. apply incl_appl, incl_refl.
  - rewrite H. apply incl_refl.
Qed.

(** The bucket after [_extract_single_page]: nothing is removed, and the
    image of a page that was uploaded is there. *)
Lemma extract_single_page_objects (env : Env) (tid : pystr)
      (loaded : Exc Page) (page_num dpi : Z) (save_thumbnail : bool)
      (w : World) :
  incl (objects w)
       (objects (fst (_extract_single_page env tid loaded page_num dpi
                                           save_thumbnail w))) /\
  (page_uploads env tid dpi page_num loaded = true ->
   In (snapshot_key tid page_num)
      (objects (fst (_extract_single_page env tid loaded page_num dpi
                                          save_thumbnail w)))).
Proof.
  unfold _extract_single_page, page_uploads.
  destruct loaded as [page|e]; [|split; [apply incl_refl|discriminate]].
  destruct (page_pixmap page dpi) as [pix|e];
    [|split; [apply incl_refl|discriminate]].
  unfold upload_file.
  destruct (env_upload env (snapshot_key tid page_num)) as [u|e].
  2: { destruct (exc_class e); (split; [apply incl_refl|discriminate]). }
  set (w1 := put_object (snapshot_key tid page_num) w).
  assert (incl (objects w1)
            (objects (fst (if save_thumbnail
                           then _create_thumbnail env tid page_num
                                                  (pix_png pix) w1
                           else (w1, None))))) as H2.
  { destruct save_thumbnail; [apply create_thumbnail_incl|apply incl_refl]. }
  destruct (if save_thumbnail
            then _create_thumbnail env tid page_num (pix_png pix) w1
            else (w1, None)) as [w2 thumb].
  simpl in H2.
  assert (incl (objects w) (objects w2) /\
          In (snapshot_key tid page_num) (objects w2)) as [I1 I2].
  { split.
    - intros x Hx. apply H2. unfold w1. simpl. apply in_or_app. now left.
    - apply H2. unfold w1. simpl. apply in_or_app. right. now left. }
  destruct (analyze_page page) as [[[[a b] c] [[d e'] f]]|e]; simpl;
    (split; [exact I1|intros _; exact I2]).
Qed.

Lemma snapshot_loop_objects (env : Env) (tid : pystr) (dpi : Z)
      (save_thumbnail : bool) (pages : list (Exc Page)) :
  forall (page_num : Z) (w : World) (pending : list PDFPageSnapshot)
         (snapshots : list SnapshotInfo),
    incl (objects w)
         (objects (fst (snapshot_loop env tid dpi save_thumbnail pages
                                      page_num w pending snapshots))) /\
    forall (j : nat) (loaded : Exc Page),
      nth_error pages j = Some loaded ->
      (forall k l, (k < j)%nat -> nth_error pages k = Some l ->
                   page_snapshot_fails env tid dpi (page_num + Z.of_nat k) l
                   = false) ->
      page_uploads env tid dpi (page_num + Z.of_nat j) loaded = true ->
      In (snapshot_key tid (page_num + Z.of_nat j))
         (objects (fst (snapshot_loop env tid dpi save_thumbnail pages
                                      page_num w pending snapshots))).
Proof.
  induction pages as [|first rest IH]; intros page_num w pending snapshots.
  - split; [apply incl_refl|]. intros [|j] l H; discriminate.
  - cbn [snapshot_loop].
    destruct (extract_single_page_objects env tid first page_num dpi
                save_thumbnail w) as [I1 U1].
    pose proof (SnapshotFacts.extract_single_page_result env tid first
                  page_num dpi save_thumbnail w) as R.
    destruct (_extract_single_page env tid first page_num dpi
                                   save_thumbnail w) as [w' [info|e]].
    + simpl in I1, U1.
      destruct (IH (page_num + 1)%Z w'
                   (pending ++ [snapshot_record tid page_num dpi info])
                   (snapshots ++ [info])) as [I2 U2].
      split; [intros x Hx; apply I2, I1, Hx|].
      intros [|j] loaded Hj Hk Hu.
      * simpl in Hj. inversion Hj; subst loaded.
        rewrite Z.add_0_r in *. apply I2, U1, Hu.
      * simpl in Hj.
        replace (page_num + Z.of_nat (S j))%Z
          with (page_num + 1 + Z.of_nat j)%Z in * by lia.
        apply (U2 j loaded Hj); [|exact Hu].
        intros k l Hlt Hl.
        replace (page_num + 1 + Z.of_nat k)%Z
          with (page_num + Z.of_nat (S k))%Z by lia.
        apply Hk; [lia|exact Hl].
    + simpl in *. split; [exact I1|].
      intros [|j] loaded Hj Hk Hu.
      * inversion Hj; subst loaded. rewrite Z.add_0_r in *. now apply U1.
      * exfalso.
        assert (page_snapshot_fails env tid dpi page_num first = true) as F
          by (apply R; now exists e).
        pose proof (Hk 0%nat first ltac:(lia) eq_refl) as G.
        rewrite Z.add_0_r in G. congruence.
Qed.

End BucketFacts.

(** X16. When [_detect_layout] returns, the column count is 1, 2 or 3 and
    never exceeds the number of text blocks of the page (or 1 on a page
    with fewer than two); a page without text blocks has neither header
    nor footer. *)
Theorem X16_detect_layout_columns
        (page : Fitz.Page) (has_header has_footer : bool) (columns : Z) :
  PageSnapshotService._detect_layout page
  = Ok (has_header, has_footer, columns) ->
  (1 <= columns <= 3)%Z /\
  exists text_blocks,
    Fitz.page_text_blocks page = Ok text_blocks /\
    (columns <= Z.max 1 (len text_blocks))%Z /\
    (text_blocks = [] -> has_header = false /\ has_footer = false).
Proof.
  unfold PageSnapshotService._detect_layout.
  destruct (Fitz.page_text_blocks page) as [text_blocks|e]; [|discriminate].
  cbn [bind]. destruct text_blocks as [|b rest] eqn:Eb.
  - intros [= <- <- <-]. split; [lia|]. exists []. repeat split. simpl. lia.
  - rewrite <- Eb. cbn zeta.
    set (xs := sorted (map Layout.tb_x0 (filter _ text_blocks))).
    pose proof (BucketFacts.wide_gaps_length
                  (Fitz.page_width page * Float.frac 1 10)%Qc xs) as G.
    assert (length xs <= length text_blocks)%nat as L.
    { unfold xs. rewrite length_sorted, length_map. apply filter_length_le. }
    destruct (PageSnapshotService.wide_gaps _ xs) as [|g gaps] eqn:Eg.
    + intros [= <- <- <-]. split; [lia|]. exists text_blocks.
      split; [reflexivity|]. split; [lia|]. rewrite Eb. discriminate.
    + intros [= <- <- <-]. split; [unfold len; simpl length; lia|].
      exists text_blocks. split; [reflexivity|].
      split; [unfold len; simpl length in *; lia|].
      rewrite Eb. discriminate.
Qed.

Lemma X16_detect_layout_columns_witness :
  (1 <= 1 <= 3)%Z /\
  exists text_blocks,
    Fitz.page_text_blocks (Sample.page_of (ascii_str "A")) = Ok text_blocks /\
    (1 <= Z.max 1 (len text_blocks))%Z /\
    (text_blocks = [] -> true = false /\ false = false).
Proof.
  apply (@X16_detect_layout_columns (Sample.page_of (ascii_str "A"))
           true false 1).
  reflexivity.
Defined.

(** X17. [_create_thumbnail] answers with a path only when the thumbnail
    object has been stored: then the path is the thumbnail key of the page
    and that key is the one object added to the bucket; when it answers
    [None] the world is as before.  In both cases the four tables are
    untouched. *)
Theorem X17_create_thumbnail_bucket
        (env : Env) (tid : pystr) (page_no : Z) (img : list N)
        (w : Store.World) :
  Store.same_tables w
    (fst (PageSnapshotService._create_thumbnail env tid page_no img w)) /\
  match snd (PageSnapshotService._create_thumbnail env tid page_no img w) with
  | Some path =>
      path = PageSnapshotService.thumbnail_key tid page_no /\
      Store.objects
        (fst (PageSnapshotService._create_thumbnail env tid page_no img w))
      = Store.objects w ++ [path]
  | None =>
      fst (PageSnapshotService._create_thumbnail env tid page_no img w) = w
  end.
Proof.
  split; [apply SnapshotFacts.create_thumbnail_tables|].
  apply BucketFacts.create_thumbnail_objects.
Qed.

(** X18. An image that [extract_page_snapshots] has uploaded is never
    removed again: when the pages before page j give their snapshots and
    page j is loaded, rendered and stored, the key of page j is in the
    bucket afterwards and no earlier object is lost, even when the
    analysis of page j then fails, in which case no snapshot record is
    committed for the stored images. *)
Theorem X18_uploaded_image_stays
        (env : Env) (tid : pystr) (doc : Fitz.Document) (dpi : Z)
        (save_thumbnail : bool) (w : Store.World)
        (j : nat) (loaded : Exc Fitz.Page) :
  nth_error (Fitz.doc_pages doc) j = Some loaded ->
  (forall k l, (k < j)%nat -> nth_error (Fitz.doc_pages doc) k = Some l ->
               page_snapshot_fails env tid dpi (Z.of_nat k) l = false) ->
  page_uploads env tid dpi (Z.of_nat j) loaded = true ->
  In (PageSnapshotService.snapshot_key tid (Z.of_nat j))
     (Store.objects
        (fst (PageSnapshotService.extract_page_snapshots
                env tid doc dpi save_thumbnail w))) /\
  incl (Store.objects w)
       (Store.objects
          (fst (PageSnapshotService.extract_page_snapshots
                  env tid doc dpi save_thumbnail w))) /\
  (page_snapshot_fails env tid dpi (Z.of_nat j) loaded = true ->
   Store.snapshot_rows
     (fst (PageSnapshotService.extract_page_snapshots
             env tid doc dpi save_thumbnail w))
   = Store.snapshot_rows w).
Proof.
  intros Hj Hk Hu.
  unfold PageSnapshotService.extract_page_snapshots.
  destruct (BucketFacts.snapshot_loop_objects env tid dpi save_thumbnail
              (Fitz.doc_pages doc) 0 w [] []) as [I U].
  specialize (U j loaded Hj Hk Hu).
  pose proof (SnapshotFacts.snapshot_loop_spec env tid dpi save_thumbnail
                (Fitz.doc_pages doc) 0 w [] []) as S.
  cbn zeta in S. destruct S as [T S].
  destruct (PageSnapshotService.snapshot_loop env tid dpi save_thumbnail
              (Fitz.doc_pages doc) 0 w [] []) as [w' [[pending infos]|e]];
    simpl in *.
  - split; [exact U|]. split; [exact I|]. intros F.
    destruct S as [S _]. rewrite (S j loaded Hj) in F. discriminate.
  - split; [exact U|]. split; [exact I|]. intros _. apply T.
Qed.

Lemma X18_uploaded_image_stays_witness :
  In (PageSnapshotService.snapshot_key Sample.task_T1 (Z.of_nat 1))
     (Store.objects
        (fst (PageSnapshotService.extract_page_snapshots
                (Sample.env_with Sample.no_files 0) Sample.task_T1
                doc_A_unanalysed 150 true Sample.world_T1))) /\
  incl (Store.objects Sample.world_T1)
       (Store.objects
          (fst (PageSnapshotService.extract_page_snapshots
                  (Sample.env_with Sample.no_files 0) Sample.task_T1
                  doc_A_unanalysed 150 true Sample.world_T1))) /\
  (page_snapshot_fails (Sample.env_with Sample.no_files 0) Sample.task_T1
     150 (Z.of_nat 1) (Ok page_without_images) = true ->
   Store.snapshot_rows
     (fst (PageSnapshotService.extract_page_snapshots
             (Sample.env_with Sample.no_files 0) Sample.task_T1
             doc_A_unanalysed 150 true Sample.world_T1))
   = Store.snapshot_rows Sample.world_T1).
Proof.
  apply (@X18_uploaded_image_stays
           (Sample.env_with Sample.no_files 0) Sample.task_T1
           doc_A_unanalysed 150 true Sample.world_T1 1
           (Ok page_without_images)).
  - reflexivity.
  - intros [|k] l Hk Hl; [|lia]. inversion Hl. reflexivity.
  - reflexivity.
Defined.

(** X19. [_validate_file_basic] passes exactly the paths that name an
    existing regular file whose size is not zero and not above the limit.
    What it raises follows what [stat] answers for the path: an [OSError]
    of [stat] other than "not found" comes out as it is, from
    [Path.exists]; a missing file gives [FileNotFoundError]; every refusal
    of a file that is there is a [PDFValidationError]. *)
Theorem X19_validate_file_basic_iff
        (settings : Settings) (fs : Fitz.FileSystem) (file_path : pystr) :
  (PDFProcessor._validate_file_basic settings fs file_path = Ok tt <->
   exists f, fs file_path = Some f /\ Fitz.f_is_file f = true /\
             Fitz.f_size f <> 0%Z /\
             (Fitz.f_size f <= PDF_MAX_FILE_SIZE settings)%Z) /\
  (forall e,
      PDFProcessor._validate_file_basic settings fs file_path = Raise e ->
      match Fitz.stat fs file_path with
      | Raise e0 => e = e0
      | Ok None => exc_class e = FileNotFoundError
      | Ok (Some _) => exc_class e = PDFValidationError
      end) /\
  (forall e0,
      Fitz.stat fs file_path = Raise e0 ->
      PDFProcessor._validate_file_basic settings fs file_path = Raise e0).
Proof.
  split; [|split].
  - split; [apply ProcessorFacts.validate_file_basic_ok|].
    intros (f & Hf & Hfile & Hz & Hmax).
    unfold PDFProcessor._validate_file_basic, Fitz.exists_, Fitz.is_file,
           Fitz.stat_size.
    rewrite (ProcessorFacts.stat_found _ _ Hf). cbn. rewrite Hfile. cbn.
    replace (PDF_MAX_FILE_SIZE settings <? Fitz.f_size f)%Z with false
      by (symmetry; apply Z.ltb_ge; lia).
    replace (Fitz.f_size f =? 0)%Z with false
      by (symmetry; apply Z.eqb_neq; exact Hz).
    reflexivity.
  - intros e. apply ProcessorFacts.validate_file_basic_raises.
  - intros e0 H.
    unfold PDFProcessor._validate_file_basic, Fitz.exists_.
    rewrite H. reflexivity.
Qed.

(** X20. [_open_pdf_document] either returns the document that
    [fitz.open] gives, which then is not encrypted or accepts the empty
    password, or raises a [PDFValidationError]: for an encrypted document
    that refuses the empty password the message is the encryption notice
    behind the cannot-open prefix (the error raised inside the [try] is
    caught by the last handler and wrapped), for a failure of [fitz.open]
    it is that failure's message behind the prefix of its class. *)
Theorem X20_open_pdf_document_cases
        (fs : Fitz.FileSystem) (file_path : pystr) :
  match PDFProcessor._open_pdf_document fs file_path with
  | Ok doc =>
      Fitz.open fs file_path = Ok doc /\
      (Fitz.doc_is_encrypted doc = false \/
       Fitz.doc_authenticate_empty doc = true)
  | Raise e =>
      exc_class e = PDFValidationError /\
      ((exists doc,
           Fitz.open fs file_path = Ok doc /\
           Fitz.doc_is_encrypted doc = true /\
           Fitz.doc_authenticate_empty doc = false /\
           exc_msg e = Msg.cannot_open ++ Msg.encrypted) \/
       (exists e0,
           Fitz.open fs file_path = Raise e0 /\
           exc_msg e = open_failure_prefix (exc_class e0) ++ exc_msg e0))
  end.
Proof.
  unfold PDFProcessor._open_pdf_document, PDFProcessor.raise_.
  destruct (Fitz.open fs file_path) as [doc|e0].
  - destruct (Fitz.doc_is_encrypted doc) eqn:E1,
             (Fitz.doc_authenticate_empty doc) eqn:E2; cbn;
      try (split; [reflexivity|tauto]).
    split; [reflexivity|]. left. exists doc. auto.
  - destruct (exc_class e0) eqn:Ec; cbn;
      (split; [reflexivity|]); right; exists e0; rewrite Ec;
      (split; reflexivity).
Qed.

Module LevelsFacts.
Import Fitz PDFProcessor.

Lemma standard_validation_cases (fs : FileSystem) (doc : Document)
      (file_path : pystr) (f : File) :
  fs file_path = Some f ->
  exists s,
    _standard_validation fs doc file_path = Ok s /\
    r_page_count s = len (doc_pages doc) /\
    r_metadata s = doc_metadata doc /\
    match page_texts doc with
    | Ok texts =>
        r_is_valid s = true /\ r_errors s = [] /\
        r_text s = Unicode.join Msg.backslash_n texts /\
        r_warnings s
        = (if (len (doc_pages doc) =? 0)%Z then [Msg.no_pages] else []) ++
          (if blank (r_text s) then [Msg.no_text] else [])
    | Raise e =>
        r_is_valid s = false /\
        r_errors s = [Msg.standard_failed ++ exc_msg e] /\
        r_text s = [] /\ r_warnings s = []
    end.
Proof.
  intros H. unfold _standard_validation, stat_size.
  rewrite (ProcessorFacts.stat_found _ _ H). cbn [bind].
  destruct (page_texts doc) as [texts|e]; eexists;
    (split; [reflexivity|]); cbn; repeat split.
  unfold blank. now destruct (Unicode.strip _).
Qed.

(** What the enhanced level leaves of the standard result. *)
Lemma enhanced_validation_cases (settings : Settings) (fs : FileSystem)
      (doc : Document) (file_path : pystr) (s : ValidationDict) :
  _standard_validation fs doc file_path = Ok s ->
  exists r,
    _enhanced_validation settings fs doc file_path = Ok r /\
    r_is_valid r = r_is_valid s /\ same_content s r /\
    r_warnings r = r_warnings s /\
    (r_errors r = r_errors s \/
     exists e, r_errors r = r_errors s ++ [Msg.enhanced_failed ++ exc_msg e]) /\
    (forall e, mapM page_info_reads (doc_pages doc) = Raise e ->
               r_errors r = r_errors s ++ [Msg.enhanced_failed ++ exc_msg e]).
Proof.
  intros Hs. unfold _enhanced_validation. rewrite Hs. cbn [bind].
  destruct (mapM page_info_reads (doc_pages doc)) as [infos|e].
  - destruct (PDF_EXTRACT_IMAGES settings).
    + destruct (mapM images_info_reads (doc_pages doc)) as [imgs|e];
        eexists; (split; [reflexivity|]); cbn; unfold same_content; cbn;
        repeat split; try discriminate; [now left|right; now exists e].
    + eexists. split; [reflexivity|]. cbn. unfold same_content. cbn.
      repeat split; try discriminate. now left.
  - eexists. split; [reflexivity|]. cbn. unfold same_content. cbn.
    repeat split.
    + right. now exists e.
    + now intros e' [= <-].
Qed.

(** The metadata loop of the strict level only adds warnings. *)
Lemma metadata_warnings (fields : list pystr) :
  forall r,
    let r' := fold_left
                (fun r field =>
                   if metadata_missing field (r_metadata r)
                   then add_warning (Msg.strict_missing_field ++ field) r
                   else r)
                fields r in
    r_is_valid r' = r_is_valid r /\ r_errors r' = r_errors r /\
    same_content r r' /\
    exists added, r_warnings r' = r_warnings r ++ added /\
                  (length added <= length fields)%nat.
Proof.
  induction fields as [|field rest IH]; intros r; cbn zeta.
  - repeat split. exists []. split; [now rewrite app_nil_r|simpl; lia].
  - cbn [fold_left].
    destruct (metadata_missing field (r_metadata r)).
    + destruct (IH (add_warning (Msg.strict_missing_field ++ field) r))
        as (V & E & [T [P M]] & added & W & L).
      cbn in *. repeat split; try assumption.
      exists ((Msg.strict_missing_field ++ field) :: added).
      split; [rewrite W, <- app_assoc; reflexivity|simpl; lia].
    + destruct (IH r) as (V & E & C & added & W & L).
      repeat split; try assumption; try apply C.
      exists added. split; [exact W|simpl; lia].
Qed.

Lemma strict_validation_cases (settings : Settings) (fs : FileSystem)
      (doc : Document) (file_path : pystr) (e : ValidationDict) :
  _enhanced_validation settings fs doc file_path = Ok e ->
  exists t,
    _strict_validation settings fs doc file_path = Ok t /\
    r_is_valid t
    = r_is_valid e && negb (blank (r_text e))
      && negb (r_page_count e =? 0)%Z /\
    same_content e t /\
    (exists errs, r_errors t = r_errors e ++ errs /\
                  (errs = [] <-> blank (r_text e) = false /\
                                 (r_page_count e =? 0)%Z = false)) /\
    (exists added, r_warnings t = r_warnings e ++ added /\
                   (length added <= 3)%nat).
Proof.
  intros He. unfold _strict_validation. rewrite He. cbn [bind]. cbn zeta.
  set (e3 := add_key "integrity_check"
               (add_key "accessibility_check"
                  (add_key "pdf_a_compliance" e))).
  destruct (metadata_warnings required_metadata e3)
    as (V & E & [T [P M]] & added & W & L).
  cbn zeta in *.
  set (r := fold_left _ required_metadata e3) in *.
  change (r_text e3) with (r_text e) in *.
  change (r_page_count e3) with (r_page_count e) in *.
  change (r_is_valid e3) with (r_is_valid e) in *.
  change (r_errors e3) with (r_errors e) in *.
  change (r_warnings e3) with (r_warnings e) in *.
  change (r_metadata e3) with (r_metadata e) in *.
  unfold blank.
  destruct (Unicode.strip (r_text e)) as [|c rest];
    destruct (r_page_count e =? 0)%Z; cbn [app negb andb];
    eexists; (split; [reflexivity|]); cbn [with_errors r_is_valid r_errors
      r_warnings r_text r_page_count r_metadata]; unfold same_content;
    cbn [with_errors r_is_valid r_errors r_warnings r_text r_page_count
         r_metadata];
    rewrite ?andb_false_r, ?andb_true_r, ?E;
    (split; [try reflexivity; try exact V|]);
    (split; [repeat split; assumption|]);
    (split; [|exists added; split; [exact W|exact L]]).
  - eexists. split; [reflexivity|]. split; [discriminate|].
    intros [? _]; discriminate.
  - eexists. split; [reflexivity|]. split; [discriminate|].
    intros [? _]; discriminate.
  - eexists. split; [reflexivity|]. split; [discriminate|].
    intros [_ ?]; discriminate.
  - exists []. split; [now rewrite app_nil_r|]. split; auto.
Qed.

End LevelsFacts.

(** X21. On an existing file [_standard_validation] always returns; the
    result is valid exactly when the text of every page can be read, and
    exactly when its error list is empty.  An invalid result carries one
    error, no text and no warning, but still the page count and the
    metadata; a document without pages is valid and carries both the
    no-pages and the no-text warning. *)
Theorem X21_standard_validation_outcomes
        (fs : Fitz.FileSystem) (doc : Fitz.Document) (file_path : pystr)
        (f : Fitz.File) :
  fs file_path = Some f ->
  exists s,
    PDFProcessor._standard_validation fs doc file_path = Ok s /\
    PDFProcessor.r_page_count s = len (Fitz.doc_pages doc) /\
    PDFProcessor.r_metadata s = Fitz.doc_metadata doc /\
    (PDFProcessor.r_is_valid s = true <->
     exists texts, PDFProcessor.page_texts doc = Ok texts) /\
    (PDFProcessor.r_is_valid s = true <-> PDFProcessor.r_errors s = []) /\
    (PDFProcessor.r_is_valid s = false ->
     length (PDFProcessor.r_errors s) = 1%nat /\
     PDFProcessor.r_text s = [] /\ PDFProcessor.r_warnings s = []) /\
    (Fitz.doc_pages doc = [] ->
     PDFProcessor.r_is_valid s = true /\
     PDFProcessor.r_warnings s = [Msg.no_pages; Msg.no_text]).
Proof.
  intros H.
  destruct (LevelsFacts.standard_validation_cases fs doc file_path H)
    as (s & Es & Ep & Em & C).
  exists s. split; [exact Es|]. split; [exact Ep|]. split; [exact Em|].
  assert (Fitz.doc_pages doc = [] -> PDFProcessor.page_texts doc = Ok [])
    as Hempty by (unfold PDFProcessor.page_texts; now intros ->).
  destruct (PDFProcessor.page_texts doc) as [texts|e].
  - destruct C as (V & E & T & W). rewrite V, E.
    split; [split; [now exists texts|reflexivity]|].
    split; [tauto|]. split; [discriminate|].
    intros Hp. split; [reflexivity|].
    specialize (Hempty Hp). inversion Hempty; subst texts.
    rewrite W, T, Hp. reflexivity.
  - destruct C as (V & E & T & W). rewrite V, E.
    split; [split; [discriminate|intros [t Ht]; discriminate]|].
    split; [split; discriminate|]. split; [now auto|].
    intros Hp. specialize (Hempty Hp). discriminate.
Qed.

Lemma X21_standard_validation_outcomes_witness :
  exists s,
    PDFProcessor._standard_validation
      (Sample.fs_with (Sample.doc_of [])) (Sample.doc_of [])
      Sample.local_path = Ok s /\
    PDFProcessor.r_is_valid s = true /\
    PDFProcessor.r_warnings s = [Msg.no_pages; Msg.no_text].
Proof.
  destruct (@X21_standard_validation_outcomes
              (Sample.fs_with (Sample.doc_of [])) (Sample.doc_of [])
              Sample.local_path _ eq_refl)
    as (s & Es & _ & _ & _ & _ & _ & Hp).
  exists s. split; [exact Es|]. apply Hp. reflexivity.
Defined.

(** X22. The enhanced level returns the standard result with the same
    validity, text, page count, metadata and warnings, and with at most
    one more error.  A failure of its own page reads is only appended to
    the errors: when every page text can be read and a page read of the
    enhanced level fails, the result is still valid although its error
    list is not empty. *)
Theorem X22_enhanced_keeps_standard
        (settings : Settings) (fs : Fitz.FileSystem) (doc : Fitz.Document)
        (file_path : pystr) (f : Fitz.File) :
  fs file_path = Some f ->
  exists s r,
    PDFProcessor._standard_validation fs doc file_path = Ok s /\
    PDFProcessor._enhanced_validation settings fs doc file_path = Ok r /\
    PDFProcessor.r_is_valid r = PDFProcessor.r_is_valid s /\
    same_content s r /\
    PDFProcessor.r_warnings r = PDFProcessor.r_warnings s /\
    (PDFProcessor.r_errors r = PDFProcessor.r_errors s \/
     exists e, PDFProcessor.r_errors r
               = PDFProcessor.r_errors s ++ [Msg.enhanced_failed ++ exc_msg e])
    /\
    (forall texts e,
        PDFProcessor.page_texts doc = Ok texts ->
        mapM PDFProcessor.page_info_reads (Fitz.doc_pages doc) = Raise e ->
        PDFProcessor.r_is_valid r = true /\
        PDFProcessor.r_errors r = [Msg.enhanced_failed ++ exc_msg e]).
Proof.
  intros H.
  destruct (LevelsFacts.standard_validation_cases fs doc file_path H)
    as (s & Es & _ & _ & C).
  destruct (LevelsFacts.enhanced_validation_cases settings fs doc file_path Es)
    as (r & Er & V & S & W & E & F).
  exists s, r. repeat (split; [assumption|]).
  intros texts e Ht He. rewrite Ht in C. destruct C as (Vs & Errs & _).
  split; [congruence|]. rewrite (F e He), Errs. reflexivity.
Qed.

Lemma X22_enhanced_keeps_standard_witness :
  exists r,
    PDFProcessor._enhanced_validation default_settings
      (Sample.fs_with doc_A_unlinked) doc_A_unlinked Sample.local_path
    = Ok r /\
    PDFProcessor.r_is_valid r = true /\
    PDFProcessor.r_errors r
    = [Msg.enhanced_failed ++ ascii_str "cannot list links"].
Proof.
  destruct (@X22_enhanced_keeps_standard default_settings
              (Sample.fs_with doc_A_unlinked) doc_A_unlinked
              Sample.local_path _ eq_refl)
    as (s & r & _ & Er & _ & _ & _ & _ & F).
  exists r. split; [exact Er|].
  apply (F [ascii_str "A"; ascii_str "B"]
           (Sample.exc OtherError "cannot list links")); reflexivity.
Defined.

(** X23. The three levels are ordered: on an existing file all three
    return, with the same text, page count and metadata; the enhanced
    result is valid exactly when the standard one is, and the strict
    result is valid exactly when the standard one is, its text is not
    blank and it has at least one page.  The strict level adds at most
    three warnings, one per missing metadata field. *)
Theorem X23_validation_levels_ordered
        (settings : Settings) (fs : Fitz.FileSystem) (doc : Fitz.Document)
        (file_path : pystr) (f : Fitz.File) :
  fs file_path = Some f ->
  exists s e t,
    PDFProcessor._standard_validation fs doc file_path = Ok s /\
    PDFProcessor._enhanced_validation settings fs doc file_path = Ok e /\
    PDFProcessor._strict_validation settings fs doc file_path = Ok t /\
    same_content s e /\ same_content s t /\
    PDFProcessor.r_is_valid e = PDFProcessor.r_is_valid s /\
    PDFProcessor.r_is_valid t
    = PDFProcessor.r_is_valid s && negb (blank (PDFProcessor.r_text s))
      && negb (PDFProcessor.r_page_count s =? 0)%Z /\
    exists added,
      PDFProcessor.r_warnings t = PDFProcessor.r_warnings s ++ added /\
      (length added <= 3)%nat.
Proof.
  intros H.
  destruct (LevelsFacts.standard_validation_cases fs doc file_path H)
    as (s & Es & _).
  destruct (LevelsFacts.enhanced_validation_cases settings fs doc file_path Es)
    as (e & Ee & Ve & (Te & Pe & Me) & We & _).
  destruct (LevelsFacts.strict_validation_cases settings fs doc file_path Ee)
    as (t & Et & Vt & (Tt & Pt & Mt) & _ & added & Wt & L).
  exists s, e, t. repeat (split; [assumption|]).
  split; [repeat split; assumption|].
  split; [repeat split; congruence|].
  split; [exact Ve|]. split; [now rewrite Vt, Ve, Te, Pe|].
  exists added. split; [now rewrite Wt, We|exact L].
Qed.

Lemma X23_validation_levels_ordered_witness :
  exists s e t,
    PDFProcessor._standard_validation
      (Sample.fs_with Sample.doc_A_B) Sample.doc_A_B Sample.local_path
    = Ok s /\
    PDFProcessor._enhanced_validation default_settings
      (Sample.fs_with Sample.doc_A_B) Sample.doc_A_B Sample.local_path
    = Ok e /\
    PDFProcessor._strict_validation default_settings
      (Sample.fs_with Sample.doc_A_B) Sample.doc_A_B Sample.local_path
    = Ok t /\
    same_content s e /\ same_content s t /\
    PDFProcessor.r_is_valid e = PDFProcessor.r_is_valid s /\
    PDFProcessor.r_is_valid t
    = PDFProcessor.r_is_valid s && negb (blank (PDFProcessor.r_text s))
      && negb (PDFProcessor.r_page_count s =? 0)%Z /\
    exists added,
      PDFProcessor.r_warnings t = PDFProcessor.r_warnings s ++ added /\
      (length added <= 3)%nat.
Proof.
  exact (@X23_validation_levels_ordered default_settings
           (Sample.fs_with Sample.doc_A_B) Sample.doc_A_B
           Sample.local_path _ eq_refl).
Defined.

(** X24. A valid result of [validate_pdf] is only given for an existing
    regular file of admissible size that opens as a document all of whose
    page texts can be read, under one of the three known validation
    types; the result then records the size of the file, the validation
    type asked for and the page count of the document. *)
Theorem X24_validate_pdf_valid_result
        (settings : Settings) (fs : Fitz.FileSystem)
        (file_path validation_type : pystr)
        (metadata : option (list (pystr * pystr)))
        (r : PDFProcessor.ValidationDict) :
  PDFProcessor.validate_pdf settings fs file_path validation_type metadata
  = Ok r ->
  PDFProcessor.r_is_valid r = true ->
  exists f doc texts,
    fs file_path = Some f /\ Fitz.f_is_file f = true /\
    Fitz.f_size f <> 0%Z /\
    (Fitz.f_size f <= PDF_MAX_FILE_SIZE settings)%Z /\
    PDFProcessor.recognised validation_type = true /\
    PDFProcessor._open_pdf_document fs file_path = Ok doc /\
    PDFProcessor.page_texts doc = Ok texts /\
    PDFProcessor.r_file_size r = Some (Fitz.f_size f) /\
    PDFProcessor.r_validation_type r = Some validation_type /\
    PDFProcessor.r_page_count r = len (Fitz.doc_pages doc).
Proof.
  unfold PDFProcessor.validate_pdf. intros H V.
  destruct (PDFProcessor.validate_pdf_try settings fs file_path
              validation_type) as [r0|e] eqn:T.
  2: { destruct (Fitz.exists_ fs file_path) as [b|e']; [|discriminate].
       cbn [bind] in H.
       destruct (if b then Fitz.stat_size fs file_path else Ok 0%Z)
         as [size|e']; [|discriminate].
       cbn [bind] in H. inversion H; subst r. discriminate. }
  inversion H; subst r0. clear H.
  unfold PDFProcessor.validate_pdf_try in T.
  destruct (PDFProcessor._validate_file_basic settings fs file_path)
    as [[]|e] eqn:B; [|discriminate].
  destruct (ProcessorFacts.validate_file_basic_ok settings fs file_path B)
    as (f & Hf & Hfile & Hz & Hmax).
  cbn [bind] in T.
  destruct (PDFProcessor._open_pdf_document fs file_path) as [doc|e] eqn:O;
    [|discriminate].
  cbn [bind] in T.
  destruct (LevelsFacts.standard_validation_cases fs doc file_path Hf)
    as (s & Es & Ps & _ & C).
  destruct (LevelsFacts.enhanced_validation_cases settings fs doc file_path Es)
    as (e & Ee & Ve & (_ & Pe & _) & _).
  destruct (LevelsFacts.strict_validation_cases settings fs doc file_path Ee)
    as (t & Et & Vt & (_ & Pt & _) & _).
  unfold Fitz.stat_size in T. rewrite (ProcessorFacts.stat_found _ _ Hf) in T.
  assert (forall r0,
             r = PDFProcessor.with_file_info r0 (Fitz.f_size f)
                                             validation_type ->
             PDFProcessor.r_is_valid r0 = PDFProcessor.r_is_valid r /\
             PDFProcessor.r_page_count r0 = PDFProcessor.r_page_count r /\
             PDFProcessor.r_file_size r = Some (Fitz.f_size f) /\
             PDFProcessor.r_validation_type r = Some validation_type) as W
    by (intros r0 ->; repeat split).
  assert (PDFProcessor.r_is_valid s = true ->
          exists texts, PDFProcessor.page_texts doc = Ok texts) as Hs.
  { intros Vs. destruct (PDFProcessor.page_texts doc) as [texts|e0];
      [now exists texts|]. destruct C as [C _]. congruence. }
  unfold PDFProcessor.recognised.
  destruct (pystr_eqb validation_type (ascii_str "standard")).
  { rewrite Es in T. cbn [bind] in T. inversion T as [Tr].
    destruct (W s (eq_sym Tr)) as (V0 & P0 & F0 & Y0).
    destruct Hs as [texts Ht]; [congruence|].
    exists f, doc, texts.
    repeat split; try assumption; try reflexivity; cbn; congruence. }
  destruct (pystr_eqb validation_type (ascii_str "enhanced")).
  { rewrite Ee in T. cbn [bind] in T. inversion T as [Tr].
    destruct (W e (eq_sym Tr)) as (V0 & P0 & F0 & Y0).
    destruct Hs as [texts Ht]; [congruence|].
    exists f, doc, texts.
    repeat split; try assumption; try reflexivity; cbn; congruence. }
  destruct (pystr_eqb validation_type (ascii_str "strict"));
    [|discriminate].
  rewrite Et in T. cbn [bind] in T. inversion T as [Tr].
  destruct (W t (eq_sym Tr)) as (V0 & P0 & F0 & Y0).
  destruct Hs as [texts Ht].
  { rewrite <- Ve. rewrite V in V0. rewrite Vt in V0.
    destruct (PDFProcessor.r_is_valid e); [reflexivity|discriminate]. }
  exists f, doc, texts.
  repeat split; try assumption; try reflexivity; cbn; congruence.
Qed.

Lemma X24_validate_pdf_valid_result_witness :
  exists f doc texts,
    Sample.fs_with Sample.doc_A_B Sample.local_path = Some f /\
    Fitz.f_is_file f = true /\ Fitz.f_size f <> 0%Z /\
    (Fitz.f_size f <= PDF_MAX_FILE_SIZE default_settings)%Z /\
    PDFProcessor.recognised (ascii_str "standard") = true /\
    PDFProcessor._open_pdf_document (Sample.fs_with Sample.doc_A_B)
      Sample.local_path = Ok doc /\
    PDFProcessor.page_texts doc = Ok texts /\
    PDFProcessor.r_file_size
      (PDFProcessor.with_file_info
         {| PDFProcessor.r_is_valid := true;
            PDFProcessor.r_errors := [];
            PDFProcessor.r_warnings := [];
            PDFProcessor.r_page_count := 2;
            PDFProcessor.r_text := [0x41; 0x5C; 0x6E; 0x42]%N;
            PDFProcessor.r_metadata := [];
            PDFProcessor.r_keys := [];
            PDFProcessor.r_file_size := None;
            PDFProcessor.r_validation_type := None |}
         1024 (ascii_str "standard")) = Some (Fitz.f_size f) /\
    Some (ascii_str "standard") = Some (ascii_str "standard") /\
    2%Z = len (Fitz.doc_pages doc).
Proof.
  apply (@X24_validate_pdf_valid_result default_settings
           (Sample.fs_with Sample.doc_A_B) Sample.local_path
           (ascii_str "standard") None
           (PDFProcessor.with_file_info
              {| PDFProcessor.r_is_valid := true;
                 PDFProcessor.r_errors := [];
                 PDFProcessor.r_warnings := [];
                 PDFProcessor.r_page_count := 2;
                 PDFProcessor.r_text := [0x41; 0x5C; 0x6E; 0x42]%N;
                 PDFProcessor.r_metadata := [];
                 PDFProcessor.r_keys := [];
                 PDFProcessor.r_file_size := None;
                 PDFProcessor.r_validation_type := None |}
              1024 (ascii_str "standard"))); reflexivity.
Defined.

Module TaskFacts.
Import Fitz Store Worker.

Lemma validate_pdf_task_unknown (settings : Settings) (env : Env)
      (retries : Z) (task_id pdf_file_path validation_type : pystr)
      (metadata : option (list (pystr * pystr))) (w : World) :
  find_task task_id w = None ->
  validate_pdf_task settings env retries task_id pdf_file_path
                    validation_type metadata w
  = (w, inr (self_retry task_max_retries retries (task_not_found task_id))).
Proof.
  intros H. unfold validate_pdf_task, process_validation_task.
  rewrite H. cbn zeta. rewrite H.
  now destruct (MAX_RETRY_ATTEMPTS settings <=? retries)%Z.
Qed.

Lemma deliver_unknown (settings : Settings) (envs : Z -> Env)
      (task_id pdf_file_path validation_type : pystr)
      (metadata : option (list (pystr * pystr))) (w : World)
      (deliveries : nat) :
  find_task task_id w = None ->
  forall retries,
    (retries + Z.of_nat deliveries = last_delivery settings)%Z ->
    deliver settings envs deliveries retries task_id pdf_file_path
            validation_type metadata w
    = (w, inr (task_not_found task_id)).
Proof.
  intros H. induction deliveries as [|n IH]; intros retries Hr;
    cbn [deliver];
    rewrite (@validate_pdf_task_unknown settings (envs retries) retries
               task_id pdf_file_path validation_type metadata w H);
    rewrite RetryFacts.autoretry_signal.
  - replace (last_delivery settings <? retries + 1)%Z with true
      by (symmetry; apply Z.ltb_lt; lia).
    reflexivity.
  - replace (last_delivery settings <? retries + 1)%Z with false
      by (symmetry; apply Z.ltb_ge; lia).
    apply IH. lia.
Qed.

Lemma update_first_length (id : pystr) (f : ValidationTask -> ValidationTask)
      (ts : list ValidationTask) :
  length (update_first id f ts) = length ts.
Proof.
  induction ts as [|t rest IH]; [reflexivity|]. simpl.
  destruct (pystr_eqb (vt_task_id t) id); simpl; congruence.
Qed.

Lemma find_update_other (id other : pystr)
      (f : ValidationTask -> ValidationTask) (w : World) :
  (forall x, vt_task_id (f x) = vt_task_id x) ->
  other <> id ->
  find_task other (update_task id f w) = find_task other w.
Proof.
  intros Hf Hne. unfold find_task, update_task. cbn [tasks].
  induction (tasks w) as [|t rest IH]; [reflexivity|]. simpl.
  destruct (pystr_eqb (vt_task_id t) id) eqn:E.
  - simpl. rewrite Hf.
    apply pystr_eqb_eq in E.
    rewrite (@pystr_eqb_neq (vt_task_id t) other) by congruence.
    reflexivity.
  - simpl. destruct (pystr_eqb (vt_task_id t) other); [reflexivity|exact IH].
Qed.

Lemma update_task_frame (id : pystr) (f : ValidationTask -> ValidationTask)
      (w : World) :
  length (tasks (update_task id f w)) = length (tasks w) /\
  results (update_task id f w) = results w /\
  block_rows (update_task id f w) = block_rows w /\
  snapshot_rows (update_task id f w) = snapshot_rows w /\
  objects (update_task id f w) = objects w.
Proof.
  unfold update_task. cbn. rewrite update_first_length. repeat split.
Qed.

End TaskFacts.

(** X25. A queued task that has no row in the task table is delivered
    until the retries are used up, and every delivery raises the same
    task-not-found error: the run ends with that error and the world is
    exactly as it was, no row being created for the task. *)
Theorem X25_unknown_task_changes_nothing
        (settings : Settings) (envs : Z -> Env)
        (task_id pdf_file_path validation_type : pystr)
        (metadata : option (list (pystr * pystr))) (w : Store.World) :
  (0 <= MAX_RETRY_ATTEMPTS settings)%Z ->
  Store.find_task task_id w = None ->
  Worker.run_task settings envs task_id pdf_file_path validation_type
                  metadata w
  = (w, inr (task_not_found task_id)).
Proof.
  intros Hmax H. unfold Worker.run_task.
  apply TaskFacts.deliver_unknown; [exact H|].
  unfold Worker.last_delivery, Worker.task_max_retries. lia.
Qed.

Lemma X25_unknown_task_changes_nothing_witness :
  Worker.run_task default_settings envs_no_file (ascii_str "T2")
                  Sample.local_path (ascii_str "standard") None
                  Sample.world_T1
  = (Sample.world_T1, inr (task_not_found (ascii_str "T2"))).
Proof.
  apply (@X25_unknown_task_changes_nothing default_settings envs_no_file
           (ascii_str "T2") Sample.local_path (ascii_str "standard") None
           Sample.world_T1).
  - vm_compute. discriminate.
  - reflexivity.
Defined.

(** X26. [_validate_pdf_file] never raises.  When [stat] answers for the
    path, [validate_pdf] returns and [_validate_pdf_file] gives exactly
    its dictionary, in which the validation type is recorded.  Its
    fallback dictionary is built exactly when [stat] raises an [OSError]
    for the path, the one exception that leaves [validate_pdf]: the
    result is then invalid, with one error that carries the message of
    the [OSError], file size 0 and no validation type. *)
Theorem X26_validate_pdf_file_fallback
        (settings : Settings) (env : Env)
        (file_path validation_type : pystr)
        (metadata : option (list (pystr * pystr))) :
  match Fitz.stat (env_fs env) file_path with
  | Ok _ =>
      PDFProcessor.validate_pdf settings (env_fs env) file_path
                                validation_type metadata
      = Ok (Worker._validate_pdf_file settings env file_path validation_type
                                      metadata) /\
      PDFProcessor.r_validation_type
        (Worker._validate_pdf_file settings env file_path validation_type
                                   metadata)
      = Some validation_type
  | Raise e =>
      PDFProcessor.validate_pdf settings (env_fs env) file_path
                                validation_type metadata = Raise e /\
      PDFProcessor.r_is_valid
        (Worker._validate_pdf_file settings env file_path validation_type
                                   metadata) = false /\
      PDFProcessor.r_errors
        (Worker._validate_pdf_file settings env file_path validation_type
                                   metadata)
      = [Msg.validation_failed ++ exc_msg e] /\
      PDFProcessor.r_file_size
        (Worker._validate_pdf_file settings env file_path validation_type
                                   metadata) = Some 0%Z /\
      PDFProcessor.r_validation_type
        (Worker._validate_pdf_file settings env file_path validation_type
                                   metadata) = None
  end.
Proof.
  unfold Worker._validate_pdf_file.
  destruct (Fitz.stat (env_fs env) file_path) as [entry|e] eqn:Hs.
  2: { rewrite (@ProcessorFacts.validate_pdf_raises settings (env_fs env)
                  file_path validation_type metadata e Hs).
       repeat split. }
  destruct (@ProcessorFacts.validate_pdf_returns settings (env_fs env)
              file_path validation_type metadata entry Hs) as [r Hr].
  rewrite Hr. split; [reflexivity|].
  unfold PDFProcessor.validate_pdf in Hr.
  destruct (PDFProcessor.validate_pdf_try settings (env_fs env) file_path
              validation_type) as [r0|e] eqn:T.
  - inversion Hr; subst r0. unfold PDFProcessor.validate_pdf_try in T.
    destruct (PDFProcessor._validate_file_basic settings (env_fs env)
                file_path) as [u|e]; [|discriminate].
    cbn [bind] in T.
    destruct (PDFProcessor._open_pdf_document (env_fs env) file_path)
      as [doc|e]; [|discriminate].
    cbn [bind] in T.
    destruct (if pystr_eqb validation_type (ascii_str "standard")
              then _ else _) as [r1|e]; [|discriminate].
    cbn [bind] in T.
    destruct (Fitz.stat_size (env_fs env) file_path) as [size|e];
      [|discriminate].
    cbn [bind] in T. inversion T. reflexivity.
  - destruct (@ProcessorFacts.validate_pdf_handler settings (env_fs env)
                file_path validation_type metadata e entry Hs T)
      as (r' & Hr' & _ & _ & Hv).
    unfold PDFProcessor.validate_pdf in Hr'. rewrite T in Hr'.
    rewrite Hr in Hr'. inversion Hr'; subst r'. exact Hv.
Qed.

(** X27. An attempt on a task that has a row keeps the number of task
    rows and leaves the rows of every other task as they are.  When the
    file cannot be fetched the attempt raises and no result row, block
    row, snapshot row or object is written; once the file is fetched
    exactly one result row is appended, for this task and this path, and
    it stays committed even when the attempt then raises while removing
    the temporary file, in which case the task row ends failed. *)
Theorem X27_process_validation_task_rows
        (settings : Settings) (env : Env)
        (task_id pdf_file_path validation_type : pystr)
        (metadata : option (list (pystr * pystr)))
        (w : Store.World) (t : Store.ValidationTask) :
  Store.find_task task_id w = Some t ->
  let out := Worker.process_validation_task settings env task_id
               pdf_file_path validation_type metadata w in
  length (Store.tasks (fst out)) = length (Store.tasks w) /\
  (forall other, other <> task_id ->
                 Store.find_task other (fst out) = Store.find_task other w) /\
  match Worker.fetch_file env pdf_file_path with
  | Raise e =>
      snd out = Raise e /\
      Store.results (fst out) = Store.results w /\
      Store.block_rows (fst out) = Store.block_rows w /\
      Store.snapshot_rows (fst out) = Store.snapshot_rows w /\
      Store.objects (fst out) = Store.objects w
  | Ok temp_path =>
      Store.results (fst out)
      = Store.results w ++
        [Worker.result_row task_id pdf_file_path validation_type
           (Worker._validate_pdf_file settings env temp_path validation_type
                                      metadata)] /\
      (forall e, snd out = Raise e ->
                 exists t', Store.find_task task_id (fst out) = Some t' /\
                            Store.vt_status t' = Store.FAILED)
  end.
Proof.
  intros H. cbn zeta.
  pose proof (@WorkerFacts.process_validation_task_spec settings env task_id
                pdf_file_path validation_type metadata w t H) as Spec.
  cbn zeta in Spec.
  unfold Worker.process_validation_task in *. rewrite H in *. cbn zeta in *.
  set (w0 := Store.update_task task_id (Worker.set_processing (env_now env)) w)
    in *.
  destruct (TaskFacts.update_task_frame task_id
              (Worker.set_processing (env_now env)) w)
    as (L0 & R0 & B0 & S0 & O0).
  fold w0 in L0, R0, B0, S0, O0.
  assert (forall other, other <> task_id ->
                        Store.find_task other w0 = Store.find_task other w)
    as F0 by (intros other Hne; now apply TaskFacts.find_update_other).
  unfold Worker.process_steps in *.
  destruct (Worker.fetch_file env pdf_file_path) as [temp_path|e].
  - pose proof (WorkerFacts.process_pdf_with_blocks_tables env task_id
                  temp_path true true w0) as T.
    cbn zeta in T. destruct T as (T1 & T2 & _).
    set (w1 := fst (EnhancedPDFProcessor.process_pdf_with_blocks
                      env task_id temp_path true true w0)) in *.
    set (row := Worker.result_row task_id pdf_file_path validation_type _).
    set (done := Worker.set_completed (env_now env) _).
    assert (forall other, other <> task_id ->
              Store.find_task other
                (Store.commit_results [row] (Store.update_task task_id done w1))
              = Store.find_task other w) as F2.
    { intros other Hne. rewrite WorkerFacts.find_task_commit_results.
      rewrite TaskFacts.find_update_other; [|reflexivity|exact Hne].
      rewrite (@WorkerFacts.find_task_tasks other w0 w1 T1).
      now apply F0. }
    assert (length (Store.tasks
                      (Store.commit_results [row]
                         (Store.update_task task_id done w1)))
            = length (Store.tasks w)) as L2.
    { cbn. rewrite TaskFacts.update_first_length, T1. exact L0. }
    destruct (if Worker.is_local_path pdf_file_path then Ok tt
              else file_exists <- Fitz.exists_ (env_fs env) temp_path ;;
                   if file_exists then env_unlink env else Ok tt)
      as [u|e]; cbn [fst snd].
    + split; [exact L2|]. split; [exact F2|].
      split; [cbn; now rewrite T2, R0|]. intros e Hr. discriminate.
    + split; [cbn; rewrite !TaskFacts.update_first_length, T1; exact L0|].
      split.
      { intros other Hne.
        rewrite TaskFacts.find_update_other; [|reflexivity|exact Hne].
        now apply F2. }
      split; [cbn; now rewrite T2, R0|].
      intros e' _.
      destruct (attempt_error env pdf_file_path) as [e0|].
      * destruct Spec as (t' & _ & Ft & St & _). now exists t'.
      * destruct Spec as (o & t' & Hs & _). discriminate.
  - cbn [fst snd].
    destruct (TaskFacts.update_task_frame task_id
                (Worker.set_failed (env_now env) (exc_msg e)) w0)
      as (L1 & R1 & B1 & S1 & O1).
    split; [congruence|]. split.
    { intros other Hne.
      rewrite TaskFacts.find_update_other; [|reflexivity|exact Hne].
      now apply F0. }
    repeat split; congruence.
Qed.

Lemma X27_process_validation_task_rows_witness :
  exists t',
    Store.find_task Sample.task_T1
      (fst (Worker.process_validation_task default_settings env_unlink_fails
              Sample.task_T1 (ascii_str "docs/a.pdf") (ascii_str "standard")
              None Sample.world_T1)) = Some t' /\
    Store.vt_status t' = Store.FAILED /\
    length (Store.results
              (fst (Worker.process_validation_task default_settings
                      env_unlink_fails Sample.task_T1 (ascii_str "docs/a.pdf")
                      (ascii_str "standard") None Sample.world_T1)))
    = 1%nat.
Proof.
  destruct (@X27_process_validation_task_rows default_settings
              env_unlink_fails Sample.task_T1 (ascii_str "docs/a.pdf")
              (ascii_str "standard") None Sample.world_T1 _ eq_refl)
    as (_ & _ & R & F).
  destruct (F (Sample.exc OtherError "permission denied") eq_refl)
    as (t' & Ft & St).
  exists t'. split; [exact Ft|]. split; [exact St|].
  rewrite R. reflexivity.
Defined.

Module BatchFacts.
Import Store Worker Batch.

Lemma process_validation_task_id (settings : Settings) (env : Env)
      (task_id pdf_file_path validation_type : pystr)
      (metadata : option (list (pystr * pystr))) (w : World)
      (out : TaskOutput) :
  snd (process_validation_task settings env task_id pdf_file_path
                               validation_type metadata w) = Ok out ->
  out_task_id out = task_id.
Proof.
  unfold process_validation_task.
  destruct (find_task task_id w); [|discriminate]. cbn zeta.
  unfold process_steps.
  destruct (fetch_file env pdf_file_path) as [temp_path|e]; [|discriminate].
  cbn zeta.
  destruct (if is_local_path pdf_file_path then Ok tt
            else file_exists <- Fitz.exists_ (env_fs env) temp_path ;;
                 if file_exists then env_unlink env else Ok tt);
    [|discriminate].
  cbn. now intros [= <-].
Qed.

Lemma attempt_item_id (settings : Settings) (env : Env) (info : TaskInfo)
      (w : World) (out : TaskOutput) :
  snd (attempt_item settings env info w) = Ok out ->
  ti_task_id info = Some (out_task_id out).
Proof.
  unfold attempt_item.
  destruct (ti_task_id info) as [tid|]; [|discriminate].
  destruct (ti_pdf_file_path info) as [path|]; [|discriminate].
  intros H. apply process_validation_task_id in H. now rewrite H.
Qed.

Lemma batch_loop_spec (settings : Settings) (envs : nat -> Env)
      (task_batch : list TaskInfo) :
  forall (i : nat) (w : World) (results : list Entry),
    match snd (batch_loop settings envs i task_batch w results) with
    | Ok results' =>
        Forall (fun info => ti_task_id info <> None) task_batch /\
        exists entries,
          results' = results ++ entries /\
          map (fun entry => Some (entry_task_id entry)) entries
          = map ti_task_id task_batch
    | Raise e =>
        e = key_error "task_id" /\
        Exists (fun info => ti_task_id info = None) task_batch
    end.
Proof.
  induction task_batch as [|info rest IH]; intros i w results.
  - simpl. split; [constructor|]. exists []. now rewrite app_nil_r.
  - cbn [batch_loop].
    pose proof (@attempt_item_id settings (envs i) info w) as Hid.
    destruct (attempt_item settings (envs i) info w) as [w' [out|e]].
    + specialize (Hid out eq_refl).
      specialize (IH (S i) w' (results ++ [Completed out])).
      destruct (snd (batch_loop settings envs (S i) rest w'
                                (results ++ [Completed out])))
        as [results'|e'].
      * destruct IH as [Hall [entries [-> Hm]]].
        split; [constructor; [congruence|exact Hall]|].
        exists (Completed out :: entries).
        split; [now rewrite <- app_assoc|]. simpl. now rewrite Hm, Hid.
      * destruct IH as [-> Hex]. split; [reflexivity|now right].
    + destruct (ti_task_id info) as [tid|] eqn:Et.
      * specialize (IH (S i) w' (results ++ [Failed tid (exc_msg e)])).
        destruct (snd (batch_loop settings envs (S i) rest w'
                                  (results ++ [Failed tid (exc_msg e)])))
          as [results'|e'].
        -- destruct IH as [Hall [entries [-> Hm]]].
           split; [constructor; [congruence|exact Hall]|].
           exists (Failed tid (exc_msg e) :: entries).
           split; [now rewrite <- app_assoc|]. simpl. now rewrite Hm, Et.
        -- destruct IH as [-> Hex]. split; [reflexivity|now right].
      * simpl. split; [reflexivity|]. now left.
Qed.

End BatchFacts.

(** X28. [batch_validate_pdf_task] answers with one entry per item, in
    order and under the task id of the item, whether the item was
    processed or failed: a failure of one item never stops the others.
    The only way the batch raises is an item without a [task_id] key,
    whose handler reads the key again; then the entries collected so far
    are lost. *)
Theorem X28_batch_one_entry_per_item
        (settings : Settings) (envs : nat -> Env)
        (task_batch : list Batch.TaskInfo) (w : Store.World) :
  match snd (Batch.batch_validate_pdf_task settings envs task_batch w) with
  | Ok results =>
      Forall (fun info => Batch.ti_task_id info <> None) task_batch /\
      map (fun entry => Some (Batch.entry_task_id entry)) results
      = map Batch.ti_task_id task_batch
  | Raise e =>
      e = Batch.key_error "task_id" /\
      Exists (fun info => Batch.ti_task_id info = None) task_batch
  end.
Proof.
  unfold Batch.batch_validate_pdf_task.
  pose proof (BatchFacts.batch_loop_spec settings envs task_batch 0 w []) as H.
  destruct (snd (Batch.batch_loop settings envs 0 task_batch w []))
    as [results|e]; [|exact H].
  destruct H as [Hall [entries [-> Hm]]]. split; [exact Hall|exact Hm].
Qed.

Lemma X28_batch_one_entry_per_item_witness :
  match snd (Batch.batch_validate_pdf_task default_settings
               (fun _ => Sample.env_with (Sample.fs_with Sample.doc_A_B) 0)
               batch_T2_T1 Sample.world_T1) with
  | Ok results =>
      Forall (fun info => Batch.ti_task_id info <> None) batch_T2_T1 /\
      map (fun entry => Some (Batch.entry_task_id entry)) results
      = map Batch.ti_task_id batch_T2_T1
  | Raise e =>
      e = Batch.key_error "task_id" /\
      Exists (fun info => Batch.ti_task_id info = None) batch_T2_T1
  end.
Proof.
  exact (@X28_batch_one_entry_per_item default_settings
           (fun _ => Sample.env_with (Sample.fs_with Sample.doc_A_B) 0)
           batch_T2_T1 Sample.world_T1).
Defined.

Module RouteFacts.
Import Store Routes.

Lemma kept_refl (w : World) : kept w w.
Proof. repeat split. apply incl_refl. Qed.

Lemma kept_trans (w1 w2 w3 : World) : kept w1 w2 -> kept w2 w3 -> kept w1 w3.
Proof.
  intros (A1 & A2 & A3 & A4 & A5) (B1 & B2 & B3 & B4 & B5).
  repeat split; try congruence. intros x Hx. apply A5, B5, Hx.
Qed.

Lemma delete_file_kept (remove : pystr -> RemoveAnswer) (key : pystr)
      (w : World) :
  kept w (fst (delete_file remove key w)).
Proof.
  unfold delete_file. destruct (remove key); try apply kept_refl.
  repeat split. intros x Hx. simpl in Hx. now apply filter_In in Hx.
Qed.

Lemma delete_one_spec (remove : pystr -> RemoveAnswer) (path : pystr)
      (state : World * list pystr * list pystr) :
  kept (state_world state) (state_world (delete_one remove path state)) /\
  Permutation (handled (delete_one remove path state))
              (handled state ++ [path]).
Proof.
  destruct state as [[w d] f]. unfold delete_one, state_world, handled.
  pose proof (delete_file_kept remove path w) as K.
  destruct (delete_file remove path w) as [w' [u|e]]; cbn in *;
    (split; [exact K|]).
  - rewrite <- !app_assoc. apply Permutation_app_head.
    apply Permutation_app_comm.
  - rewrite app_assoc. apply Permutation_refl.
Qed.

Lemma delete_snapshot_files_spec (remove : pystr -> RemoveAnswer)
      (state : World * list pystr * list pystr)
      (snapshot : PDFPageSnapshot) :
  kept (state_world state)
       (state_world (delete_snapshot_files remove state snapshot)) /\
  Permutation (handled (delete_snapshot_files remove state snapshot))
              (handled state ++ files_of snapshot).
Proof.
  unfold delete_snapshot_files, files_of.
  destruct (delete_one_spec remove (ps_minio_path snapshot) state)
    as [K1 P1].
  destruct (ps_thumbnail_path snapshot) as [[|c t]|]; cbn zeta;
    try (split; [exact K1|exact P1]).
  destruct (delete_one_spec remove (c :: t)
              (delete_one remove (ps_minio_path snapshot) state))
    as [K2 P2].
  split; [exact (kept_trans K1 K2)|].
  eapply Permutation_trans; [exact P2|].
  change (ps_minio_path snapshot :: [c :: t])
    with ([ps_minio_path snapshot] ++ [c :: t]).
  rewrite app_assoc. now apply Permutation_app_tail.
Qed.

Lemma delete_loop_spec (remove : pystr -> RemoveAnswer)
      (snapshots : list PDFPageSnapshot) :
  forall state,
    kept (state_world state)
         (state_world (fold_left (delete_snapshot_files remove) snapshots
                                 state)) /\
    Permutation
      (handled (fold_left (delete_snapshot_files remove) snapshots state))
      (handled state ++ flat_map files_of snapshots).
Proof.
  induction snapshots as [|s rest IH]; intros state.
  - simpl. split; [apply kept_refl|]. now rewrite app_nil_r.
  - cbn [fold_left flat_map].
    destruct (delete_snapshot_files_spec remove state s) as [K1 P1].
    destruct (IH (delete_snapshot_files remove state s)) as [K2 P2].
    split; [exact (kept_trans K1 K2)|].
    eapply Permutation_trans; [exact P2|].
    rewrite app_assoc. now apply Permutation_app_tail.
Qed.

Lemma snapshots_of_deleted (id other : pystr) (w : World) :
  snapshots_of other (delete_records id w)
  = if pystr_eqb other id then [] else snapshots_of other w.
Proof.
  unfold snapshots_of, delete_records. cbn [snapshot_rows].
  induction (snapshot_rows w) as [|r rest IH].
  - simpl. now destruct (pystr_eqb other id).
  - cbn [filter].
    destruct (pystr_eqb (ps_task_id r) id) eqn:E1; cbn [negb].
    + rewrite IH. destruct (pystr_eqb other id) eqn:E2; [reflexivity|].
      destruct (pystr_eqb (ps_task_id r) other) eqn:E3; [|reflexivity].
      apply pystr_eqb_eq in E1. apply pystr_eqb_eq in E3.
      rewrite <- E1, E3, pystr_eqb_refl in E2. discriminate.
    + cbn [filter]. rewrite IH.
      destruct (pystr_eqb other id) eqn:E2;
        destruct (pystr_eqb (ps_task_id r) other) eqn:E3; try reflexivity.
      apply pystr_eqb_eq in E2. apply pystr_eqb_eq in E3.
      rewrite E3, E2, pystr_eqb_refl in E1. discriminate.
Qed.

End RouteFacts.

(** X29. [delete_task_snapshots] never answers with status 404: for a
    task without snapshot records the not-found error is raised inside the
    [try] block and comes out with status 500, the world unchanged.
    Otherwise the answer reports as many deleted records as the task had,
    every file of every record is listed exactly once, as deleted or as
    failed, and afterwards the task has no record left, even when some
    file could not be deleted; the records of other tasks, the other
    tables and the objects of the bucket that were not removed are as
    before. *)
Theorem X29_delete_task_snapshots_outcomes
        (remove : pystr -> Routes.RemoveAnswer) (tid : pystr)
        (w : Store.World) :
  match snd (Routes.delete_task_snapshots remove tid w) with
  | Routes.HttpError status_code =>
      status_code = 500%Z /\ snapshots_of tid w = [] /\
      fst (Routes.delete_task_snapshots remove tid w) = w
  | Routes.Json content =>
      snapshots_of tid w <> [] /\
      Routes.deleted_records content = len (snapshots_of tid w) /\
      Permutation (Routes.deleted content ++ Routes.failed content)
                  (flat_map Routes.files_of (snapshots_of tid w)) /\
      snapshots_of tid (fst (Routes.delete_task_snapshots remove tid w)) = []
      /\
      (forall other,
          other <> tid ->
          snapshots_of other (fst (Routes.delete_task_snapshots remove tid w))
          = snapshots_of other w) /\
      Store.tasks (fst (Routes.delete_task_snapshots remove tid w))
      = Store.tasks w /\
      Store.results (fst (Routes.delete_task_snapshots remove tid w))
      = Store.results w /\
      Store.block_rows (fst (Routes.delete_task_snapshots remove tid w))
      = Store.block_rows w /\
      incl (Store.objects (fst (Routes.delete_task_snapshots remove tid w)))
           (Store.objects w)
  end.
Proof.
  unfold Routes.delete_task_snapshots.
  destruct (snapshots_of tid w) as [|s rest] eqn:Es; [repeat split|].
  destruct (RouteFacts.delete_loop_spec remove (s :: rest) (w, [], []))
    as [K P].
  destruct (fold_left (Routes.delete_snapshot_files remove) (s :: rest)
                      (w, [], [])) as [[w1 d] f].
  unfold state_world, handled in K, P. cbn [fst snd app] in K, P.
  destruct K as (K1 & K2 & K3 & K4 & K5).
  cbn [fst snd Routes.deleted_records Routes.deleted Routes.failed].
  split; [discriminate|]. split; [reflexivity|]. split; [exact P|].
  split; [rewrite RouteFacts.snapshots_of_deleted;
          now rewrite pystr_eqb_refl|].
  split.
  { intros other Hne. rewrite RouteFacts.snapshots_of_deleted.
    rewrite (pystr_eqb_neq Hne). unfold snapshots_of. now rewrite K4. }
  cbn. repeat split; assumption.
Qed.

Lemma X29_delete_task_snapshots_outcomes_witness :
  match snd (Routes.delete_task_snapshots remove_refused Sample.task_T1
               world_one_snapshot) with
  | Routes.HttpError status_code =>
      status_code = 500%Z /\
      snapshots_of Sample.task_T1 world_one_snapshot = [] /\
      fst (Routes.delete_task_snapshots remove_refused Sample.task_T1
             world_one_snapshot) = world_one_snapshot
  | Routes.Json content =>
      snapshots_of Sample.task_T1 world_one_snapshot <> [] /\
      Routes.deleted_records content
      = len (snapshots_of Sample.task_T1 world_one_snapshot) /\
      Permutation (Routes.deleted content ++ Routes.failed content)
        (flat_map Routes.files_of
                  (snapshots_of Sample.task_T1 world_one_snapshot)) /\
      snapshots_of Sample.task_T1
        (fst (Routes.delete_task_snapshots remove_refused Sample.task_T1
                world_one_snapshot)) = [] /\
      (forall other,
          other <> Sample.task_T1 ->
          snapshots_of other
            (fst (Routes.delete_task_snapshots remove_refused Sample.task_T1
                    world_one_snapshot))
          = snapshots_of other world_one_snapshot) /\
      Store.tasks (fst (Routes.delete_task_snapshots remove_refused
                          Sample.task_T1 world_one_snapshot))
      = Store.tasks world_one_snapshot /\
      Store.results (fst (Routes.delete_task_snapshots remove_refused
                            Sample.task_T1 world_one_snapshot))
      = Store.results world_one_snapshot /\
      Store.block_rows (fst (Routes.delete_task_snapshots remove_refused
                               Sample.task_T1 world_one_snapshot))
      = Store.block_rows world_one_snapshot /\
      incl (Store.objects (fst (Routes.delete_task_snapshots remove_refused
                                  Sample.task_T1 world_one_snapshot)))
           (Store.objects world_one_snapshot)
  end.
Proof.
  exact (@X29_delete_task_snapshots_outcomes remove_refused Sample.task_T1
           world_one_snapshot).
Defined.

Module QueryFacts.
Import Store SnapshotQueries PageSnapshotService.

Lemma order_by_page_sorted (l : list PDFPageSnapshot) :
  StronglySorted Z.lt (map ps_page_num l) -> order_by_page l = l.
Proof.
  induction l as [|r rest IH]; [reflexivity|]. intros H.
  simpl in H. apply StronglySorted_inv in H. destruct H as [Hs Hall].
  cbn [order_by_page fold_right]. fold (order_by_page rest).
  rewrite (IH Hs). destruct rest as [|r' rest']; [reflexivity|].
  cbn [insert_by_page]. inversion Hall as [|? ? Hlt _]; subst.
  replace (ps_page_num r <=? ps_page_num r')%Z with true
    by (symmetry; apply Z.leb_le; lia).
  reflexivity.
Qed.

Lemma page_numbers_sorted (n : nat) :
  forall first, StronglySorted Z.lt (page_numbers first n).
Proof.
  induction n as [|n IH]; intros first; [constructor|].
  rewrite SnapshotFacts.page_numbers_S. constructor; [apply IH|].
  apply Forall_forall. intros x Hx. unfold page_numbers in Hx.
  apply in_map_iff in Hx. destruct Hx as [i [<- _]]. lia.
Qed.

Lemma in_page_numbers (n : nat) (first k : Z) :
  (first + 1 <= k <= first + Z.of_nat n)%Z -> In k (page_numbers first n).
Proof.
  intros H. unfold page_numbers. apply in_map_iff.
  exists (Z.to_nat (k - first - 1)). split; [lia|].
  apply in_seq. lia.
Qed.

Lemma filter_all (A : Type) (p : A -> bool) (l : list A) :
  Forall (fun x => p x = true) l -> filter p l = l.
Proof.
  induction 1 as [|x l Hx _ IH]; [reflexivity|].
  simpl. now rewrite Hx, IH.
Qed.

Lemma records_of_task (tid : pystr) (records : list PDFPageSnapshot) :
  map ps_task_id records = repeat tid (length records) ->
  Forall (fun r => pystr_eqb (ps_task_id r) tid = true) records.
Proof.
  induction records as [|r rest IH]; [constructor|].
  simpl. intros [= E1 E2]. constructor; [|now apply IH].
  rewrite E1. apply pystr_eqb_refl.
Qed.

Lemma find_app_none (A : Type) (p : A -> bool) (l1 l2 : list A) :
  filter p l1 = [] -> find p (l1 ++ l2) = find p l2.
Proof.
  induction l1 as [|x l1 IH]; [reflexivity|]. simpl.
  destruct (p x); [discriminate|exact IH].
Qed.

Lemma filter_and_nil (A : Type) (p q : A -> bool) (l : list A) :
  filter p l = [] -> filter (fun x => p x && q x) l = [].
Proof.
  induction l as [|x l IH]; [reflexivity|]. simpl.
  destruct (p x); [discriminate|exact IH].
Qed.

Lemma find_exists (A : Type) (p : A -> bool) (l : list A) (x : A) :
  In x l -> p x = true -> exists y, find p l = Some y.
Proof.
  intros Hin Hp. destruct (find p l) as [y|] eqn:E; [now exists y|].
  rewrite (find_none _ _ E x Hin) in Hp. discriminate.
Qed.

End QueryFacts.

(** X30. What [extract_page_snapshots] saves can be read back: when it
    returns for a task that had no snapshot records, [get_all_snapshots]
    gives one record per page, in page order, numbered from 1, and
    [get_page_snapshot] finds a record of the task for every page number
    from 1 to the page count. *)
Theorem X30_snapshots_read_back
        (env : Env) (tid : pystr) (doc : Fitz.Document) (dpi : Z)
        (save_thumbnail : bool) (w : Store.World)
        (infos : list PageSnapshotService.SnapshotInfo) :
  snapshots_of tid w = [] ->
  snd (PageSnapshotService.extract_page_snapshots env tid doc dpi
         save_thumbnail w) = Ok infos ->
  map Store.ps_page_num
      (SnapshotQueries.get_all_snapshots tid
         (fst (PageSnapshotService.extract_page_snapshots env tid doc dpi
                 save_thumbnail w)))
  = PageSnapshotService.page_numbers 0 (length (Fitz.doc_pages doc)) /\
  forall k,
    (1 <= k <= len (Fitz.doc_pages doc))%Z ->
    exists r,
      SnapshotQueries.get_page_snapshot tid k
        (fst (PageSnapshotService.extract_page_snapshots env tid doc dpi
                save_thumbnail w)) = Some r /\
      Store.ps_task_id r = tid /\ Store.ps_page_num r = k.
Proof.
  intros Hnone. unfold PageSnapshotService.extract_page_snapshots.
  pose proof (SnapshotFacts.snapshot_loop_spec env tid dpi save_thumbnail
                (Fitz.doc_pages doc) 0 w [] []) as S.
  cbn zeta in S. destruct S as [(_ & _ & _ & T) S].
  destruct (PageSnapshotService.snapshot_loop env tid dpi save_thumbnail
              (Fitz.doc_pages doc) 0 w [] []) as [w' [[pending infos']|e]];
    [|discriminate].
  cbn [fst snd] in *. intros _.
  destruct S as [_ [records [-> [_ [Hid Hnum]]]]]. cbn [app] in *.
  assert (length records = length (Fitz.doc_pages doc)) as Hlen
    by (rewrite <- (length_map Store.ps_task_id), Hid; apply repeat_length).
  rewrite <- Hlen in Hid.
  pose proof (@QueryFacts.records_of_task tid records Hid) as Hall.
  assert (snapshots_of tid (Store.commit_snapshots records w') = records)
    as Hrows.
  { unfold snapshots_of in *. cbn [Store.commit_snapshots Store.snapshot_rows].
    rewrite filter_app, T, Hnone. cbn [app].
    now apply QueryFacts.filter_all. }
  split.
  - unfold SnapshotQueries.get_all_snapshots. rewrite Hrows.
    rewrite QueryFacts.order_by_page_sorted; [exact Hnum|].
    rewrite Hnum. apply QueryFacts.page_numbers_sorted.
  - intros k Hk. unfold SnapshotQueries.get_page_snapshot.
    cbn [Store.commit_snapshots Store.snapshot_rows]. rewrite T.
    assert (In k (map Store.ps_page_num records)) as Hin
      by (rewrite Hnum; apply QueryFacts.in_page_numbers; unfold len in Hk;
          lia).
    apply in_map_iff in Hin. destruct Hin as [r [Hr Hin]].
    rewrite Forall_forall in Hall.
    rewrite QueryFacts.find_app_none.
    2: { apply (@QueryFacts.filter_and_nil _
                  (fun r0 => pystr_eqb (Store.ps_task_id r0) tid)).
         exact Hnone. }
    destruct (@QueryFacts.find_exists _
                (fun r0 => pystr_eqb (Store.ps_task_id r0) tid &&
                           (Store.ps_page_num r0 =? k)%Z) records r Hin)
      as [y Hy].
    { rewrite (Hall r Hin), Hr, Z.eqb_refl. reflexivity. }
    exists y. split; [exact Hy|].
    apply find_some in Hy. destruct Hy as [_ Hy].
    apply andb_true_iff in Hy. destruct Hy as [Y1 Y2].
    split; [now apply pystr_eqb_eq|now apply Z.eqb_eq].
Qed.

Lemma X30_snapshots_read_back_witness :
  map Store.ps_page_num
      (SnapshotQueries.get_all_snapshots Sample.task_T1
         (fst (PageSnapshotService.extract_page_snapshots
                 (Sample.env_with Sample.no_files 0) Sample.task_T1
                 Sample.doc_A_B 150 true Sample.world_T1)))
  = PageSnapshotService.page_numbers 0
      (length (Fitz.doc_pages Sample.doc_A_B)) /\
  forall k,
    (1 <= k <= len (Fitz.doc_pages Sample.doc_A_B))%Z ->
    exists r,
      SnapshotQueries.get_page_snapshot Sample.task_T1 k
        (fst (PageSnapshotService.extract_page_snapshots
                (Sample.env_with Sample.no_files 0) Sample.task_T1
                Sample.doc_A_B 150 true Sample.world_T1)) = Some r /\
      Store.ps_task_id r = Sample.task_T1 /\ Store.ps_page_num r = k.
Proof.
  eapply (@X30_snapshots_read_back (Sample.env_with Sample.no_files 0)
            Sample.task_T1 Sample.doc_A_B 150 true Sample.world_T1);
    reflexivity.
Defined.
